(** * claude_code_log: the transcript parser ([parser.py], [models.py])

    A shallow embedding of the parsing and normalisation pipeline:
    the pydantic models of [models.py], the functions of [parser.py]
    ([parse_content_item], [parse_message_content], [normalize_usage_info],
    [parse_transcript_entry], [load_transcript],
    [load_directory_transcripts], [parse_timestamp],
    [filter_messages_by_date]) and the Unicode sanitizer of the converter.

    Conventions.
    - A Python [str] is a sequence of code points ([pystr]); lone
      surrogates are ordinary elements, as in CPython.
    - Code that can raise is written in the [result] monad; [try]/[except]
      is [try_except] with the handler list of the source, matched by
      exception class in order.
    - Functions of libraries outside the repository ([json], [pydantic]'s
      scalar coercions, the [anthropic] SDK types, [dateparser],
      [datetime.fromisoformat], [str.lower], [re.sub], [repr]) are the
      fields of the class [Runtime]. *)

From Stdlib Require Import List ZArith NArith Bool Ascii String Lia.
From Stdlib Require Import Permutation Sorted.
From Stdlib Require Import Floats.SpecFloat DecimalString.
Import ListNotations.

Set Implicit Arguments.
Set Warnings "-register-all".

(* ================================================================== *)
(** * Python values *)
(* ================================================================== *)

Module Py.

(** A [str]: its code points. *)
Definition pystr := list N.

(** The [str] written by an ASCII literal of the source. *)
Definition py (s : string) : pystr :=
  map N_of_ascii (list_ascii_of_string s).

Fixpoint str_eqb (a b : pystr) : bool :=
  match a, b with
  | [], [] => true
  | x :: a', y :: b' => N.eqb x y && str_eqb a' b'
  | _, _ => false
  end.

(** [a < b] on [str]: lexicographic on code points. *)
Fixpoint str_ltb (a b : pystr) : bool :=
  match a, b with
  | _, [] => false
  | [], _ :: _ => true
  | x :: a', y :: b' =>
      if N.ltb x y then true
      else if N.eqb x y then str_ltb a' b' else false
  end.

(** [bool(s)] for a [str]. *)
Definition str_truthy (s : pystr) : bool :=
  match s with [] => false | _ :: _ => true end.

(** [str.isspace] on one code point (the Unicode White_Space set with
    the four information separators, as CPython has it). *)
Definition isspace (c : N) : bool :=
  ((9 <=? c) && (c <=? 13) || (28 <=? c) && (c <=? 32)
   || (c =? 133) || (c =? 160) || (c =? 5760)
   || (8192 <=? c) && (c <=? 8202)
   || (c =? 8232) || (c =? 8233) || (c =? 8239) || (c =? 8287)
   || (c =? 12288))%N.

Fixpoint lstrip (s : pystr) : pystr :=
  match s with
  | c :: s' => if isspace c then lstrip s' else s
  | [] => []
  end.

(** [s.strip()] *)
Definition strip (s : pystr) : pystr :=
  rev (lstrip (rev (lstrip s))).

Fixpoint startswith (p s : pystr) : bool :=
  match p, s with
  | [], _ => true
  | x :: p', y :: s' => N.eqb x y && startswith p' s'
  | _ :: _, [] => false
  end.

(** [p in s] for two [str]s: substring test. *)
Fixpoint str_contains (p s : pystr) : bool :=
  startswith p s ||
  match s with
  | [] => false
  | _ :: s' => str_contains p s'
  end.

(** [s.replace(c, r)] for a one-character [c]. *)
Definition replace_char (c : N) (r : pystr) (s : pystr) : pystr :=
  flat_map (fun x => if N.eqb x c then r else [x]) s.

(** [x in l] for a list of [str]. *)
Definition str_in_list (x : pystr) (l : list pystr) : bool :=
  existsb (str_eqb x) l.

(** ** Exceptions

    The classes below [Exception] that the parser raises or names in an
    [except] clause. *)
Inductive exn_class :=
| Exception
| ValueError
| JSONDecodeError      (* json.JSONDecodeError(ValueError) *)
| ValidationError      (* pydantic_core.ValidationError(ValueError) *)
| UnicodeDecodeError   (* UnicodeDecodeError(UnicodeError(ValueError)) *)
| TypeError
| AttributeError
| KeyError
| ImportError
| RecursionError
| OSError.

Definition exn_class_eqb (c d : exn_class) : bool :=
  match c, d with
  | Exception, Exception | ValueError, ValueError
  | JSONDecodeError, JSONDecodeError | ValidationError, ValidationError
  | UnicodeDecodeError, UnicodeDecodeError
  | TypeError, TypeError | AttributeError, AttributeError
  | KeyError, KeyError | ImportError, ImportError
  | RecursionError, RecursionError | OSError, OSError => true
  | _, _ => false
  end.

(** [issubclass(c, d)] *)
Definition issubclass (c d : exn_class) : bool :=
  match d with
  | Exception => true
  | ValueError =>
      match c with
      | ValueError | JSONDecodeError | ValidationError
      | UnicodeDecodeError => true
      | _ => false
      end
  | _ => exn_class_eqb c d
  end.

(** An exception object: its class and [str(e)]. *)
Record exn := mk_exn { exn_cls : exn_class; exn_str : pystr }.

Inductive result (A : Type) : Type :=
| Ok (a : A)
| Raise (e : exn).
Arguments Ok {A} a.
Arguments Raise {A} e.

Definition bind {A B} (c : result A) (k : A -> result B) : result B :=
  match c with
  | Ok a => k a
  | Raise e => Raise e
  end.

Definition raise {A} (c : exn_class) (msg : pystr) : result A :=
  Raise (mk_exn c msg).

(** One [except C as e: h] clause. *)
Definition handler (A : Type) : Type := (list exn_class * (exn -> result A))%type.

Fixpoint dispatch {A} (e : exn) (hs : list (handler A)) : result A :=
  match hs with
  | [] => Raise e
  | (cs, h) :: hs' =>
      if existsb (issubclass (exn_cls e)) cs then h e else dispatch e hs'
  end.

(** [try: body  except ...]: the first clause whose class the exception
    is an instance of runs; with none, the exception propagates. *)
Definition try_except {A} (body : result A) (hs : list (handler A)) : result A :=
  match body with
  | Ok a => Ok a
  | Raise e => dispatch e hs
  end.

(** An [option] from a library call that raises [cls] on failure. *)
Definition or_raise {A} (cls : exn_class) (msg : pystr) (o : option A) : result A :=
  match o with
  | Some a => Ok a
  | None => raise cls msg
  end.

(** ** Parsed JSON

    What [json.loads] returns: [None], [bool], [int], [float], [str],
    [list] and [dict] (insertion-ordered, looked up by key). *)
Inductive json :=
| JNull
| JBool (b : bool)
| JInt (n : Z)
| JFloat (f : spec_float)
| JStr (s : pystr)
| JList (l : list json)
| JDict (d : list (pystr * json)).

Definition dict := list (pystr * json).

(** [d.get(k)] / [d[k]] *)
Fixpoint dict_get (d : dict) (k : pystr) : option json :=
  match d with
  | [] => None
  | (k', v) :: d' => if str_eqb k' k then Some v else dict_get d' k
  end.

(** [k in d] *)
Definition dict_has (d : dict) (k : pystr) : bool :=
  match dict_get d k with Some _ => true | None => false end.

Definition is_dict (j : json) : bool :=
  match j with JDict _ => true | _ => false end.

(** [j == s] for a [str] literal [s]. *)
Definition json_is_str (j : json) (s : pystr) : bool :=
  match j with JStr t => str_eqb t s | _ => false end.

(** [k in x] for a [str] [k] and a parsed JSON value [x]: key
    membership on a [dict], element equality on a [list], substring on a
    [str], [TypeError] on the scalars. *)
Definition json_contains (k : pystr) (x : json) : result bool :=
  match x with
  | JDict d => Ok (dict_has d k)
  | JList l => Ok (existsb (fun y => json_is_str y k) l)
  | JStr s => Ok (str_contains k s)
  | _ => raise TypeError (py "argument is not iterable")
  end.

End Py.
Export Py.

Declare Scope py_scope.
Delimit Scope py_scope with py.
Notation "x <- c ;; k" := (bind c (fun x => k))
  (at level 61, c at next level, right associativity) : py_scope.
Local Open Scope py_scope.

(* ================================================================== *)
(** * Library types *)
(* ================================================================== *)

(** [datetime.datetime]: the calendar fields and, for an aware value,
    the UTC offset of its [tzinfo] in seconds. *)
Record datetime := mk_datetime {
  year : Z;
  month : Z;
  day : Z;
  hour : Z;
  minute : Z;
  second : Z;
  microsecond : Z;
  tzinfo : option Z
}.

(** [dt.replace(hour=h, minute=m, second=s, microsecond=us)] *)
Definition replace_time (dt : datetime) (h m s us : Z) : datetime :=
  {| year := year dt; month := month dt; day := day dt;
     hour := h; minute := m; second := s; microsecond := us;
     tzinfo := tzinfo dt |}.

(** [dt.replace(tzinfo=None)] *)
Definition replace_tzinfo_None (dt : datetime) : datetime :=
  {| year := year dt; month := month dt; day := day dt;
     hour := hour dt; minute := minute dt; second := second dt;
     microsecond := microsecond dt; tzinfo := None |}.

Definition dt_fields (dt : datetime) : list Z :=
  [year dt; month dt; day dt; hour dt; minute dt; second dt; microsecond dt].

Fixpoint lex_ltb (a b : list Z) : bool :=
  match a, b with
  | x :: a', y :: b' =>
      if (x <? y)%Z then true else if (x =? y)%Z then lex_ltb a' b' else false
  | _, _ => false
  end.

(** The days from 1970-01-01 to a date of the proleptic Gregorian
    calendar. *)
Definition days_from_civil (y m d : Z) : Z :=
  (let y := if m <=? 2 then y - 1 else y in
   let era := y / 400 in
   let yoe := y - era * 400 in
   let mp := (m + 9) mod 12 in
   let doy := (153 * mp + 2) / 5 + d - 1 in
   let doe := yoe * 365 + yoe / 4 - yoe / 100 + doy in
   era * 146097 + doe - 719468)%Z.

(** The instant of an aware datetime whose offset is [offset] seconds,
    in microseconds of UTC. *)
Definition utc_microseconds (dt : datetime) (offset : Z) : Z :=
  ((((days_from_civil (year dt) (month dt) (day dt) * 24 + hour dt) * 60
     + minute dt) * 60 + second dt - offset) * 1000000 + microsecond dt)%Z.

(** [a < b] on datetimes: two naive values compare field by field, two
    aware values by their instants, and for a naive and an aware value
    Python raises [TypeError]. *)
Definition datetime_lt (a b : datetime) : result bool :=
  match tzinfo a, tzinfo b with
  | None, None => Ok (lex_ltb (dt_fields a) (dt_fields b))
  | Some oa, Some ob => Ok (utc_microseconds a oa <? utc_microseconds b ob)%Z
  | _, _ =>
      raise TypeError (py "can't compare offset-naive and offset-aware datetimes")
  end.

(** [a > b], that is [b < a]. *)
Definition datetime_gt (a b : datetime) : result bool := datetime_lt b a.

(** [anthropic.types.Usage], by the fields [models.py] reads;
    [server_tool_use] is kept as its [model_dump()]. *)
Record AnthropicUsage := mk_AnthropicUsage {
  au_input_tokens : Z;
  au_output_tokens : Z;
  au_cache_creation_input_tokens : option Z;
  au_cache_read_input_tokens : option Z;
  au_service_tier : option pystr;
  au_server_tool_use : option dict
}.


(** The content blocks of the SDK that [parse_content_item] builds
    ([anthropic.types.TextBlock], [ToolUseBlock], [ThinkingBlock]), by
    their declared fields. *)
Record TextBlock := mk_TextBlock {
  tb_text : pystr;
  tb_citations : option json
}.

Record ToolUseBlock := mk_ToolUseBlock {
  tub_id : pystr;
  tub_input : json;
  tub_name : pystr
}.

Record ThinkingBlock := mk_ThinkingBlock {
  thb_signature : pystr;
  thb_thinking : pystr
}.

(* ================================================================== *)
(** * models.py: the data model *)
(* ================================================================== *)

Inductive TodoStatus := pending | in_progress | completed.
Inductive TodoPriority := high | medium | low.

Record TodoItem := mk_TodoItem {
  todo_id : pystr;
  todo_content : pystr;
  status : TodoStatus;
  priority : TodoPriority
}.

Record UsageInfo := mk_UsageInfo {
  input_tokens : option Z;
  cache_creation_input_tokens : option Z;
  cache_read_input_tokens : option Z;
  output_tokens : option Z;
  service_tier : option pystr;
  server_tool_use : option dict
}.

Record TextContent := mk_TextContent { text : pystr }.

Record ToolUseContent := mk_ToolUseContent {
  tool_id : pystr;
  name : pystr;
  input : dict
}.

(** [content: Union[str, List[Dict[str, Any]]]] *)
Inductive ToolResultPayload :=
| PayloadStr (s : pystr)
| PayloadList (l : list dict).

Record ToolResultContent := mk_ToolResultContent {
  tool_use_id : pystr;
  result_content : ToolResultPayload;
  is_error : option bool
}.

Record ThinkingContent := mk_ThinkingContent {
  thinking : pystr;
  signature : option pystr
}.

Record ImageSource := mk_ImageSource {
  media_type : pystr;
  data : pystr
}.

Record ImageContent := mk_ImageContent { source : ImageSource }.

(** [ContentItem]: the five models of this file and the SDK's
    [ContentBlock] members. *)
Inductive ContentItem :=
| ItemText (c : TextContent)
| ItemToolUse (c : ToolUseContent)
| ItemToolResult (c : ToolResultContent)
| ItemThinking (c : ThinkingContent)
| ItemImage (c : ImageContent)
| ItemTextBlock (b : TextBlock)
| ItemToolUseBlock (b : ToolUseBlock)
| ItemThinkingBlock (b : ThinkingBlock).

(** [content: Union[str, List[ContentItem]]] *)
Inductive MessageContent :=
| ContentStr (s : pystr)
| ContentList (l : list ContentItem).

Record UserMessage := mk_UserMessage { user_content : MessageContent }.

Record AssistantMessage := mk_AssistantMessage {
  message_id : pystr;
  model : pystr;
  assistant_content : list ContentItem;
  stop_reason : option pystr;
  stop_sequence : option pystr;
  usage : option UsageInfo
}.

Record FileInfo := mk_FileInfo {
  filePath : pystr;
  file_content : pystr;
  numLines : Z;
  startLine : Z;
  totalLines : Z
}.

Record FileReadResult := mk_FileReadResult { file : FileInfo }.

Record CommandResult := mk_CommandResult {
  stdout : pystr;
  stderr : pystr;
  interrupted : bool;
  isImage : bool
}.

Record TodoResult := mk_TodoResult {
  oldTodos : list TodoItem;
  newTodos : list TodoItem
}.

Record EditResult := mk_EditResult {
  oldString : option pystr;
  newString : option pystr;
  replaceAll : option bool;
  originalFile : option pystr;
  structuredPatch : option json;
  userModified : option bool
}.

Inductive ToolUseResult :=
| ResultStr (s : pystr)
| ResultTodos (l : list TodoItem)
| ResultFileRead (r : FileReadResult)
| ResultCommand (r : CommandResult)
| ResultTodo (r : TodoResult)
| ResultEdit (r : EditResult)
| ResultContent (l : list ContentItem).

Record BaseTranscriptEntry := mk_Base {
  parentUuid : option pystr;
  isSidechain : bool;
  userType : pystr;
  cwd : pystr;
  sessionId : pystr;
  version : pystr;
  uuid : pystr;
  timestamp : pystr;
  isMeta : option bool
}.

Record UserTranscriptEntry := mk_UserEntry {
  user_base : BaseTranscriptEntry;
  user_message : UserMessage;
  toolUseResult : option ToolUseResult
}.

Record AssistantTranscriptEntry := mk_AssistantEntry {
  assistant_base : BaseTranscriptEntry;
  assistant_message : AssistantMessage;
  requestId : option pystr
}.

Record SummaryTranscriptEntry := mk_SummaryEntry {
  summary : pystr;
  leafUuid : pystr;
  summary_cwd : option pystr
}.

Record SystemTranscriptEntry := mk_SystemEntry {
  system_base : BaseTranscriptEntry;
  system_content : pystr;
  level : option pystr
}.

Inductive TranscriptEntry :=
| User (e : UserTranscriptEntry)
| Assistant (e : AssistantTranscriptEntry)
| Summary (e : SummaryTranscriptEntry)
| System (e : SystemTranscriptEntry).

(* ================================================================== *)
(** * The runtime *)
(* ================================================================== *)

(** The functions of the Python runtime and of the libraries the parser
    imports. An [option] result stands for the library's own failure
    ([ValueError] from [fromisoformat], a pydantic validation error of
    one field); a [result] for a call made under [try]. *)
Class Runtime := {
  (* builtins *)
  repr_str : pystr -> pystr;
  repr_float : spec_float -> pystr;
  str_lower : pystr -> pystr;
  (* the re.sub call of load_transcript, which deletes the lines that
     point to the pydantic documentation *)
  re_sub_pydantic_url : pystr -> pystr;
  (* json *)
  json_loads : pystr -> result json;
  (* pydantic: validation of one scalar field, and of a raw value
     against the ToolUseResult union *)
  pydantic_str : json -> option pystr;
  pydantic_int : json -> option Z;
  pydantic_bool : json -> option bool;
  ToolUseResult_validate : json -> option ToolUseResult;
  (* anthropic SDK *)
  TextBlock_model_validate : json -> result TextBlock;
  ToolUseBlock_model_validate : json -> result ToolUseBlock;
  ThinkingBlock_model_validate : json -> result ThinkingBlock;
  StopReason_validate : json -> option pystr;
  AnthropicMessage_model_validate : json -> result unit;
  (* AnthropicUsage.model_validate on an object given by its attributes *)
  AnthropicUsage_model_validate : dict -> result AnthropicUsage;
  (* datetime, dateparser *)
  fromisoformat : pystr -> option datetime;
  dateparser_parse : pystr -> option datetime
}.

(* ================================================================== *)
(** * models.py: validation *)
(* ================================================================== *)

(** The value under ["message"] in [data_copy] when the entry is
    validated: no such key; the raw value, which holds no ["content"];
    or the copied mapping with its ["content"] (and, for an assistant,
    its ["usage"]) replaced by the parsed value. *)
Inductive message_slot (U : Type) :=
| NoMessage
| Unparsed (message : json)
| Parsed (message : dict) (content : MessageContent) (usage_slot : U).
Arguments NoMessage {U}.
Arguments Unparsed {U} message.

(** The value under ["toolUseResult"] in [data_copy]: the raw value, or
    the content items that replaced it. *)
Inductive tool_slot :=
| RawResult (j : option json)
| ContentResult (items : list ContentItem).

(** The value under ["usage"] in [message_copy]: the key is absent, or
    it holds the normalised usage. *)
Definition usage_slot := option (option UsageInfo).

Section Validation.
Context {R : Runtime}.

(** The [ValidationError] pydantic raises for [model]; the message
    names the first offending field (pydantic lists them all). *)
Definition validation_error (model loc : pystr) : exn :=
  mk_exn ValidationError
    (py "1 validation error for " ++ model ++ [10%N] ++ loc).

(** A required field [k: T]. *)
Definition field {A} (model : pystr) (v : json -> option A)
    (d : dict) (k : pystr) : result A :=
  match dict_get d k with
  | Some j =>
      match v j with
      | Some a => Ok a
      | None => Raise (validation_error model k)
      end
  | None => Raise (validation_error model k)
  end.

(** A required field [k: Optional[T]] (no default): the key must be
    there, [None] is accepted. *)
Definition field_nullable {A} (model : pystr) (v : json -> option A)
    (d : dict) (k : pystr) : result (option A) :=
  match dict_get d k with
  | Some JNull => Ok None
  | Some j =>
      match v j with
      | Some a => Ok (Some a)
      | None => Raise (validation_error model k)
      end
  | None => Raise (validation_error model k)
  end.

(** A field [k: Optional[T] = None]. *)
Definition field_opt {A} (model : pystr) (v : json -> option A)
    (d : dict) (k : pystr) : result (option A) :=
  match dict_get d k with
  | None => Ok None
  | Some _ => field_nullable model v d k
  end.

(** A field [k: Literal[lit]]. *)
Definition literal (model : pystr) (d : dict) (k lit : pystr) : result unit :=
  match dict_get d k with
  | Some j =>
      if json_is_str j lit then Ok tt else Raise (validation_error model k)
  | None => Raise (validation_error model k)
  end.

(** [Dict[str, Any]] *)
Definition any_dict (j : json) : option dict :=
  match j with JDict d => Some d | _ => None end.

(** [List[Dict[str, Any]]] *)
Fixpoint list_of_dicts (l : list json) : option (list dict) :=
  match l with
  | [] => Some []
  | JDict d :: l' =>
      match list_of_dicts l' with
      | Some ds => Some (d :: ds)
      | None => None
      end
  | _ :: _ => None
  end.

(** The input of [model_validate] must be a mapping. *)
Definition model_input (model : pystr) (j : json) : result dict :=
  match j with
  | JDict d => Ok d
  | _ => Raise (validation_error model [])
  end.

(** [UsageInfo(input_tokens=i, cache_creation_input_tokens=c, ...)] *)
Definition UsageInfo_init (i c r o s t : json) : result UsageInfo :=
  let m := py "UsageInfo" in
  let arg {A} (v : json -> option A) (k : pystr) (j : json) : result (option A) :=
    field_nullable m v [(k, j)] k in
  i' <- arg pydantic_int (py "input_tokens") i ;;
  c' <- arg pydantic_int (py "cache_creation_input_tokens") c ;;
  r' <- arg pydantic_int (py "cache_read_input_tokens") r ;;
  o' <- arg pydantic_int (py "output_tokens") o ;;
  s' <- arg pydantic_str (py "service_tier") s ;;
  t' <- arg any_dict (py "server_tool_use") t ;;
  Ok (mk_UsageInfo i' c' r' o' s' t').

(** [d.get(k)] / [getattr(o, k, None)] *)
Definition get_or_None (d : dict) (k : pystr) : json :=
  match dict_get d k with Some j => j | None => JNull end.

(** [UsageInfo.model_validate(d)]: every field defaults to [None]. *)
Definition UsageInfo_model_validate (d : dict) : result UsageInfo :=
  UsageInfo_init
    (get_or_None d (py "input_tokens"))
    (get_or_None d (py "cache_creation_input_tokens"))
    (get_or_None d (py "cache_read_input_tokens"))
    (get_or_None d (py "output_tokens"))
    (get_or_None d (py "service_tier"))
    (get_or_None d (py "server_tool_use")).

(** [UsageInfo.to_anthropic_usage] *)
Definition to_anthropic_usage (u : UsageInfo) : option AnthropicUsage :=
  match input_tokens u, output_tokens u with
  | Some i, Some o =>
      Some (mk_AnthropicUsage i o (cache_creation_input_tokens u)
              (cache_read_input_tokens u) (service_tier u) (server_tool_use u))
  | _, _ => None
  end.

(** [UsageInfo.from_anthropic_usage] *)
Definition from_anthropic_usage (a : AnthropicUsage) : UsageInfo :=
  mk_UsageInfo (Some (au_input_tokens a)) (au_cache_creation_input_tokens a)
    (au_cache_read_input_tokens a) (Some (au_output_tokens a))
    (au_service_tier a) (au_server_tool_use a).

Definition TextContent_model_validate (j : json) : result TextContent :=
  let m := py "TextContent" in
  d <- model_input m j ;;
  _ <- literal m d (py "type") (py "text") ;;
  t <- field m pydantic_str d (py "text") ;;
  Ok (mk_TextContent t).

Definition ToolUseContent_model_validate (j : json) : result ToolUseContent :=
  let m := py "ToolUseContent" in
  d <- model_input m j ;;
  _ <- literal m d (py "type") (py "tool_use") ;;
  i <- field m pydantic_str d (py "id") ;;
  n <- field m pydantic_str d (py "name") ;;
  inp <- field m any_dict d (py "input") ;;
  Ok (mk_ToolUseContent i n inp).

(** [Union[str, List[Dict[str, Any]]]] *)
Definition tool_result_payload (j : json) : option ToolResultPayload :=
  match pydantic_str j with
  | Some s => Some (PayloadStr s)
  | None =>
      match j with
      | JList l => option_map PayloadList (list_of_dicts l)
      | _ => None
      end
  end.

Definition ToolResultContent_model_validate (j : json) : result ToolResultContent :=
  let m := py "ToolResultContent" in
  d <- model_input m j ;;
  _ <- literal m d (py "type") (py "tool_result") ;;
  i <- field m pydantic_str d (py "tool_use_id") ;;
  c <- field m tool_result_payload d (py "content") ;;
  e <- field_opt m pydantic_bool d (py "is_error") ;;
  Ok (mk_ToolResultContent i c e).

Definition ThinkingContent_model_validate (j : json) : result ThinkingContent :=
  let m := py "ThinkingContent" in
  d <- model_input m j ;;
  _ <- literal m d (py "type") (py "thinking") ;;
  t <- field m pydantic_str d (py "thinking") ;;
  s <- field_opt m pydantic_str d (py "signature") ;;
  Ok (mk_ThinkingContent t s).

Definition ImageSource_model_validate (j : json) : result ImageSource :=
  let m := py "ImageSource" in
  d <- model_input m j ;;
  _ <- literal m d (py "type") (py "base64") ;;
  mt <- field m pydantic_str d (py "media_type") ;;
  dt <- field m pydantic_str d (py "data") ;;
  Ok (mk_ImageSource mt dt).

Definition ImageContent_model_validate (j : json) : result ImageContent :=
  let m := py "ImageContent" in
  d <- model_input m j ;;
  _ <- literal m d (py "type") (py "image") ;;
  match dict_get d (py "source") with
  | Some s => src <- ImageSource_model_validate s ;; Ok (mk_ImageContent src)
  | None => Raise (validation_error m (py "source"))
  end.

(** The fields of [BaseTranscriptEntry], read for [model]. *)
Definition Base_validate (m : pystr) (d : dict) : result BaseTranscriptEntry :=
  p <- field_nullable m pydantic_str d (py "parentUuid") ;;
  sc <- field m pydantic_bool d (py "isSidechain") ;;
  ut <- field m pydantic_str d (py "userType") ;;
  c <- field m pydantic_str d (py "cwd") ;;
  sid <- field m pydantic_str d (py "sessionId") ;;
  v <- field m pydantic_str d (py "version") ;;
  u <- field m pydantic_str d (py "uuid") ;;
  ts <- field m pydantic_str d (py "timestamp") ;;
  im <- field_opt m pydantic_bool d (py "isMeta") ;;
  Ok (mk_Base p sc ut c sid v u ts im).

Definition SummaryTranscriptEntry_model_validate (d : dict)
    : result SummaryTranscriptEntry :=
  let m := py "SummaryTranscriptEntry" in
  _ <- literal m d (py "type") (py "summary") ;;
  s <- field m pydantic_str d (py "summary") ;;
  l <- field m pydantic_str d (py "leafUuid") ;;
  c <- field_opt m pydantic_str d (py "cwd") ;;
  Ok (mk_SummaryEntry s l c).

Definition SystemTranscriptEntry_model_validate (d : dict)
    : result SystemTranscriptEntry :=
  let m := py "SystemTranscriptEntry" in
  b <- Base_validate m d ;;
  _ <- literal m d (py "type") (py "system") ;;
  c <- field m pydantic_str d (py "content") ;;
  l <- field_opt m pydantic_str d (py "level") ;;
  Ok (mk_SystemEntry b c l).

(** [message: UserMessage]. A message without ["content"] fails: the
    field is required; the parsed content is a [str] or a list of model
    instances, which the union keeps as they are. *)
Definition UserMessage_validate (m : pystr) (s : message_slot unit)
    : result UserMessage :=
  match s with
  | NoMessage => Raise (validation_error m (py "message"))
  | Unparsed _ => Raise (validation_error m (py "message.content"))
  | Parsed d content _ =>
      _ <- literal m d (py "role") (py "user") ;;
      Ok (mk_UserMessage content)
  end.

(** [toolUseResult: Optional[ToolUseResult] = None]: a list of content
    item instances is the union's [List[ContentItem]] member. *)
Definition toolUseResult_validate (m : pystr) (s : tool_slot)
    : result (option ToolUseResult) :=
  match s with
  | RawResult None => Ok None
  | RawResult (Some JNull) => Ok None
  | RawResult (Some j) =>
      match ToolUseResult_validate j with
      | Some r => Ok (Some r)
      | None => Raise (validation_error m (py "toolUseResult"))
      end
  | ContentResult items => Ok (Some (ResultContent items))
  end.

(** [UserTranscriptEntry.model_validate(data_copy)] *)
Definition UserTranscriptEntry_model_validate (data : dict)
    (message : message_slot unit) (tool : tool_slot)
    : result UserTranscriptEntry :=
  let m := py "UserTranscriptEntry" in
  b <- Base_validate m data ;;
  _ <- literal m data (py "type") (py "user") ;;
  msg <- UserMessage_validate m message ;;
  t <- toolUseResult_validate m tool ;;
  Ok (mk_UserEntry b msg t).

(** [message: AssistantMessage]: [content] must be a list. *)
Definition AssistantMessage_validate (m : pystr) (s : message_slot usage_slot)
    : result AssistantMessage :=
  match s with
  | NoMessage => Raise (validation_error m (py "message"))
  | Unparsed _ => Raise (validation_error m (py "message.content"))
  | Parsed d content u =>
      i <- field m pydantic_str d (py "id") ;;
      _ <- literal m d (py "type") (py "message") ;;
      _ <- literal m d (py "role") (py "assistant") ;;
      mo <- field m pydantic_str d (py "model") ;;
      c <- match content with
           | ContentList l => Ok l
           | ContentStr _ => Raise (validation_error m (py "message.content"))
           end ;;
      sr <- field_opt m StopReason_validate d (py "stop_reason") ;;
      ss <- field_opt m pydantic_str d (py "stop_sequence") ;;
      Ok (mk_AssistantMessage i mo c sr ss
            (match u with Some v => v | None => None end))
  end.

(** [AssistantTranscriptEntry.model_validate(data_copy)] *)
Definition AssistantTranscriptEntry_model_validate (data : dict)
    (message : message_slot usage_slot) : result AssistantTranscriptEntry :=
  let m := py "AssistantTranscriptEntry" in
  b <- Base_validate m data ;;
  _ <- literal m data (py "type") (py "assistant") ;;
  msg <- AssistantMessage_validate m message ;;
  r <- field_opt m pydantic_str data (py "requestId") ;;
  Ok (mk_AssistantEntry b msg r).

End Validation.

(* ================================================================== *)
(** * parser.py *)
(* ================================================================== *)

Section Parser.
Context {R : Runtime}.

(** ** [str(x)] of a parsed JSON value *)

Definition repr_int (n : Z) : pystr :=
  py (DecimalString.NilZero.string_of_int (Z.to_int n)).

Fixpoint join (sep : pystr) (l : list pystr) : pystr :=
  match l with
  | [] => []
  | [x] => x
  | x :: l' => x ++ sep ++ join sep l'
  end.

Fixpoint py_repr (j : json) : pystr :=
  match j with
  | JNull => py "None"
  | JBool true => py "True"
  | JBool false => py "False"
  | JInt n => repr_int n
  | JFloat f => repr_float f
  | JStr s => repr_str s
  | JList l => py "[" ++ join (py ", ") (map py_repr l) ++ py "]"
  | JDict d =>
      py "{"
      ++ join (py ", ")
           (map (fun kv => repr_str (fst kv) ++ py ": " ++ py_repr (snd kv)) d)
      ++ py "}"
  end.

Definition py_str (j : json) : pystr :=
  match j with
  | JStr s => s
  | _ => py_repr j
  end.

(** ** [parse_timestamp] *)

(** [fromisoformat] raises [ValueError] on a string it cannot read,
    which the [except] clause turns into [None]. *)
Definition parse_timestamp (timestamp_str : pystr) : option datetime :=
  fromisoformat (replace_char 90%N (py "+00:00") timestamp_str).

(** ** [filter_messages_by_date] *)

(** [bool(s)] for an [Optional[str]]. *)
Definition given (s : option pystr) : bool :=
  match s with
  | Some s => str_truthy s
  | None => false
  end.

(** [d in ["today", "yesterday"] or "days ago" in d] *)
Definition is_relative_day (d : pystr) : bool :=
  str_in_list d [py "today"; py "yesterday"] || str_contains (py "days ago") d.

(** Lines 80-86: the lower bound. *)
Definition resolve_from (from_date : option pystr) : result (option datetime) :=
  match from_date with
  | Some d =>
      if str_truthy d then
        match dateparser_parse d with
        | None => raise ValueError (py "Could not parse from-date: " ++ d)
        | Some from_dt =>
            Ok (Some (if is_relative_day d
                      then replace_time from_dt 0 0 0 0
                      else from_dt))
        end
      else Ok None
  | None => Ok None
  end.

(** Lines 88-94: the upper bound. *)
Definition resolve_to (to_date : option pystr) : result (option datetime) :=
  match to_date with
  | Some d =>
      if str_truthy d then
        match dateparser_parse d with
        | None => raise ValueError (py "Could not parse to-date: " ++ d)
        | Some to_dt =>
            Ok (Some (if is_relative_day d
                      then replace_time to_dt 23 59 59 999999
                      else to_dt))
        end
      else Ok None
  | None => Ok None
  end.

(** [message.timestamp], for the entries that have the attribute. *)
Definition entry_timestamp (e : TranscriptEntry) : option pystr :=
  match e with
  | User u => Some (timestamp (user_base u))
  | Assistant a => Some (timestamp (assistant_base a))
  | System s => Some (timestamp (system_base s))
  | Summary _ => None
  end.

(** One turn of the loop, lines 97-121: does [message] get appended? *)
Definition keeps (from_dt to_dt : option datetime) (message : TranscriptEntry)
    : result bool :=
  match entry_timestamp message with
  | None => Ok true
  | Some timestamp_str =>
      if negb (str_truthy timestamp_str) then Ok false
      else
        match parse_timestamp timestamp_str with
        | None => Ok false
        | Some message_dt =>
            let message_dt :=
              match tzinfo message_dt with
              | Some _ => replace_tzinfo_None message_dt
              | None => message_dt
              end in
            before <- match from_dt with
                      | Some f => datetime_lt message_dt f
                      | None => Ok false
                      end ;;
            if before then Ok false
            else
              after <- match to_dt with
                       | Some t => datetime_gt message_dt t
                       | None => Ok false
                       end ;;
              Ok (negb after)
        end
  end.

Fixpoint filter_loop (from_dt to_dt : option datetime)
    (messages : list TranscriptEntry) : result (list TranscriptEntry) :=
  match messages with
  | [] => Ok []
  | message :: rest =>
      k <- keeps from_dt to_dt message ;;
      filtered <- filter_loop from_dt to_dt rest ;;
      Ok (if k then message :: filtered else filtered)
  end.

Definition filter_messages_by_date (messages : list TranscriptEntry)
    (from_date to_date : option pystr) : result (list TranscriptEntry) :=
  if negb (given from_date) && negb (given to_date) then Ok messages
  else
    from_dt <- resolve_from from_date ;;
    to_dt <- resolve_to to_date ;;
    filter_loop from_dt to_dt messages.

(** ** [normalize_usage_info] *)

(** The argument: a parsed JSON value (with [None]), a [UsageInfo], an
    SDK [Usage], or any other object, given by its attributes. *)
Inductive usage_data :=
| UsageJson (j : json)
| UsageInfoObject (u : UsageInfo)
| AnthropicUsageObject (a : AnthropicUsage)
| OtherObject (attrs : dict).

Definition normalize_usage_info (u : usage_data) : result (option UsageInfo) :=
  match u with
  | UsageJson JNull => Ok None
  | UsageInfoObject u => Ok (Some u)
  | AnthropicUsageObject a => Ok (Some (from_anthropic_usage a))
  | OtherObject attrs =>
      if dict_has attrs (py "input_tokens") && dict_has attrs (py "output_tokens")
      then
        try_except
          (anthropic_usage <- AnthropicUsage_model_validate attrs ;;
           Ok (Some (from_anthropic_usage anthropic_usage)))
          [([Exception], fun _ =>
             v <- UsageInfo_init
                    (get_or_None attrs (py "input_tokens"))
                    (get_or_None attrs (py "cache_creation_input_tokens"))
                    (get_or_None attrs (py "cache_read_input_tokens"))
                    (get_or_None attrs (py "output_tokens"))
                    (get_or_None attrs (py "service_tier"))
                    (get_or_None attrs (py "server_tool_use")) ;;
             Ok (Some v))]
      else Ok None
  | UsageJson (JDict d) =>
      v <- UsageInfo_model_validate d ;; Ok (Some v)
  | UsageJson _ => Ok None
  end.

(** ** [parse_content_item] *)

Definition TextContent_fallback (item_data : json) : result ContentItem :=
  Ok (ItemText (mk_TextContent (py_str item_data))).

(** [item_data.get("type", "")] *)
Definition get_type (item_data : json) : result json :=
  match item_data with
  | JDict d =>
      Ok (match dict_get d (py "type") with
          | Some t => t
          | None => JStr []
          end)
  | _ => raise AttributeError (py "object has no attribute 'get'")
  end.

(** The body of the outer [try], lines 281-311. *)
Definition parse_content_item_body (item_data : json) : result ContentItem :=
  content_type <- get_type item_data ;;
  if json_is_str content_type (py "text") then
    try_except
      (b <- TextBlock_model_validate item_data ;; Ok (ItemTextBlock b))
      [([Exception], fun _ =>
         c <- TextContent_model_validate item_data ;; Ok (ItemText c))]
  else if json_is_str content_type (py "tool_use") then
    try_except
      (b <- ToolUseBlock_model_validate item_data ;; Ok (ItemToolUseBlock b))
      [([Exception], fun _ =>
         c <- ToolUseContent_model_validate item_data ;; Ok (ItemToolUse c))]
  else if json_is_str content_type (py "thinking") then
    try_except
      (b <- ThinkingBlock_model_validate item_data ;; Ok (ItemThinkingBlock b))
      [([Exception], fun _ =>
         c <- ThinkingContent_model_validate item_data ;; Ok (ItemThinking c))]
  else if json_is_str content_type (py "tool_result") then
    c <- ToolResultContent_model_validate item_data ;; Ok (ItemToolResult c)
  else if json_is_str content_type (py "image") then
    c <- ImageContent_model_validate item_data ;; Ok (ItemImage c)
  else TextContent_fallback item_data.

Definition parse_content_item (item_data : json) : result ContentItem :=
  try_except (parse_content_item_body item_data)
    [([Exception], fun _ => TextContent_fallback item_data)].

(** [[f(x) for x in l]] *)
Fixpoint comprehension {A B} (f : A -> result B) (l : list A) : result (list B) :=
  match l with
  | [] => Ok []
  | x :: l' =>
      y <- f x ;;
      ys <- comprehension f l' ;;
      Ok (y :: ys)
  end.

(** ** [parse_message_content] *)

Definition parse_message_content (content_data : json) : result MessageContent :=
  match content_data with
  | JStr s => Ok (ContentStr s)
  | JList content_list =>
      l <- comprehension parse_content_item content_list ;;
      Ok (ContentList l)
  | _ => Ok (ContentStr (py_str content_data))
  end.

End Parser.

(** ** [list.sort(key=...)]

    Python's sort is stable and compares keys with [<] alone. A stable
    insertion sort returns the same list as any stable sort. *)
Fixpoint insert_by {A} (key : A -> pystr) (x : A) (l : list A) : list A :=
  match l with
  | [] => [x]
  | y :: l' =>
      if str_ltb (key y) (key x) then y :: insert_by key x l' else x :: l
  end.

Fixpoint list_sort {A} (key : A -> pystr) (l : list A) : list A :=
  match l with
  | [] => []
  | x :: l' => insert_by key x (list_sort key l')
  end.

(** ** The collaborators of the loader *)

Definition Path := pystr.

(** What iterating over a file opened with [encoding="utf-8"] gives:
    the lines that decode, in order, and then either the end of the
    file or the [UnicodeDecodeError] of the strict decoder, at the
    first byte sequence that is no UTF-8. *)
Record text_file := mk_text_file {
  decoded_lines : list pystr;
  undecodable : option pystr
}.

(** A file whose bytes all decode. *)
Definition text_of (lines : list pystr) : text_file :=
  mk_text_file lines None.

(** The files: [open(p)] ([None]: the file cannot be opened) with
    what reading it gives, and [directory.glob("*.jsonl")]. *)
Record FileSystem := {
  read_lines : Path -> option text_file;
  glob_jsonl : Path -> list Path
}.

(** The interface of [CacheManager] that the loader calls, over the
    state [S] of the cache. *)
Record CacheManager (S : Type) := {
  load_cached_entries : S -> Path -> option (list TranscriptEntry);
  load_cached_entries_filtered :
    S -> Path -> option pystr -> option pystr -> option (list TranscriptEntry);
  save_cached_entries : S -> Path -> list TranscriptEntry -> S
}.

(** What [load_transcript] prints. *)
Inductive printed :=
| LoadingFromCache (p : Path)
| Processing (p : Path)
| NotAJsonObject (line_no : nat) (p : Path) (line : pystr)
| NotRecognised (line_no : nat) (p : Path) (line : pystr)
| JSONDecodeErrorAt (line_no : nat) (p : Path) (msg : pystr)
| ValidationErrorAt (line_no : nat) (p : Path) (msg : pystr)
| ValueErrorAt (line_no : nat) (p : Path) (msg : pystr)
| UnexpectedErrorAt (line_no : nat) (p : Path) (msg : pystr).

(** The result of a load: the entries, the cache afterwards, the
    printed lines. *)
Record loaded (S : Type) := mk_loaded {
  entries : list TranscriptEntry;
  cache_state : S;
  stdout_lines : list printed
}.

Section Loader.
Context {R : Runtime}.

(** ** [parse_transcript_entry] *)

(** [x.copy()] *)
Definition json_copy (x : json) : result json :=
  match x with
  | JDict _ | JList _ => Ok x
  | _ => raise AttributeError (py "object has no attribute 'copy'")
  end.

(** [entry_type == s] *)
Definition type_is (entry_type : option json) (s : pystr) : bool :=
  match entry_type with
  | Some j => json_is_str j s
  | None => false
  end.

(** Lines 347-351: [data_copy["message"]] after the content is parsed. *)
Definition user_message_slot (data : dict) : result (message_slot unit) :=
  match dict_get data (py "message") with
  | None => Ok NoMessage
  | Some message =>
      has_content <- json_contains (py "content") message ;;
      if has_content then
        message_copy <- json_copy message ;;
        match message_copy with
        | JDict d =>
            content_data <- or_raise KeyError (py "content")
                              (dict_get d (py "content")) ;;
            content <- parse_message_content content_data ;;
            Ok (Parsed d content tt)
        | _ => raise TypeError (py "list indices must be integers or slices, not str")
        end
      else Ok (Unparsed message)
  end.

(** Lines 353-367: [data_copy["toolUseResult"]]. *)
Definition user_tool_slot (data : dict) : result tool_slot :=
  match dict_get data (py "toolUseResult") with
  | Some (JList tool_use_result) =>
      match tool_use_result with
      | JDict first :: _ =>
          if dict_has first (py "type") then
            items <- comprehension parse_content_item
                       (filter is_dict tool_use_result) ;;
            Ok (ContentResult items)
          else Ok (RawResult (Some (JList tool_use_result)))
      | _ => Ok (RawResult (Some (JList tool_use_result)))
      end
  | other => Ok (RawResult other)
  end.

(** Lines 375-393: [data_copy["message"]] of an assistant entry. *)
Definition assistant_message_slot (data : dict)
    : result (message_slot usage_slot) :=
  match dict_get data (py "message") with
  | None => Ok NoMessage
  | Some message =>
      _ <- try_except (AnthropicMessage_model_validate message)
             [([Exception], fun _ => Ok tt)] ;;
      has_content <- json_contains (py "content") message ;;
      if has_content then
        message_copy <- json_copy message ;;
        match message_copy with
        | JDict d =>
            content_data <- or_raise KeyError (py "content")
                              (dict_get d (py "content")) ;;
            content <- parse_message_content content_data ;;
            u <- match dict_get d (py "usage") with
                 | Some usage =>
                     v <- normalize_usage_info (UsageJson usage) ;;
                     Ok (Some v)
                 | None => Ok None
                 end ;;
            Ok (Parsed d content u)
        | _ => raise TypeError (py "list indices must be integers or slices, not str")
        end
      else Ok (Unparsed message)
  end.

Definition parse_transcript_entry (data : dict) : result TranscriptEntry :=
  let entry_type := dict_get data (py "type") in
  if type_is entry_type (py "user") then
    message <- user_message_slot data ;;
    tool <- user_tool_slot data ;;
    e <- UserTranscriptEntry_model_validate data message tool ;;
    Ok (User e)
  else if type_is entry_type (py "assistant") then
    message <- assistant_message_slot data ;;
    e <- AssistantTranscriptEntry_model_validate data message ;;
    Ok (Assistant e)
  else if type_is entry_type (py "summary") then
    e <- SummaryTranscriptEntry_model_validate data ;;
    Ok (Summary e)
  else if type_is entry_type (py "system") then
    e <- SystemTranscriptEntry_model_validate data ;;
    Ok (System e)
  else
    raise ValueError
      (py "Unknown transcript entry type: "
       ++ py_str (match entry_type with Some t => t | None => JNull end)).

(** ** [load_transcript] *)

(** [entry_type in ["user", "assistant", "summary", "system"]] *)
Definition recognised (entry_type : option json) : bool :=
  match entry_type with
  | Some (JStr s) =>
      str_in_list s [py "user"; py "assistant"; py "summary"; py "system"]
  | _ => false
  end.

(** The body of the [try], lines 159-175: the entry to append, if any,
    and what is printed. *)
Definition line_body (jsonl_path : Path) (line_no : nat) (line : pystr)
    : result (option TranscriptEntry * list printed) :=
  entry_dict <- json_loads line ;;
  match entry_dict with
  | JDict d =>
      let entry_type := dict_get d (py "type") in
      if recognised entry_type then
        entry <- parse_transcript_entry d ;;
        Ok (Some entry, [])
      else Ok (None, [NotRecognised line_no jsonl_path line])
  | _ => Ok (None, [NotAJsonObject line_no jsonl_path line])
  end.

(** The [except] clauses, lines 176-199. *)
Definition line_handlers (jsonl_path : Path) (line_no : nat)
    : list (handler (option TranscriptEntry * list printed)) :=
  [ ([JSONDecodeError], fun e =>
       Ok (None, [JSONDecodeErrorAt line_no jsonl_path (exn_str e)]));
    ([ValueError], fun e =>
       let error_msg := exn_str e in
       if str_contains (py "validation error") (str_lower error_msg) then
         Ok (None, [ValidationErrorAt line_no jsonl_path
                      (re_sub_pydantic_url error_msg)])
       else Ok (None, [ValueErrorAt line_no jsonl_path error_msg]));
    ([Exception], fun e =>
       Ok (None, [UnexpectedErrorAt line_no jsonl_path (exn_str e)])) ].

Definition handle_line (jsonl_path : Path) (line_no : nat) (line : pystr)
    : result (option TranscriptEntry * list printed) :=
  try_except (line_body jsonl_path line_no line)
    (line_handlers jsonl_path line_no).

Definition appended (o : option TranscriptEntry) : list TranscriptEntry :=
  match o with Some e => [e] | None => [] end.

(** The loop over [enumerate(f)], from line [line_no] on. The
    iteration itself, line 155, is outside the [try] of line 158: when
    the decoder fails after the lines read so far, its
    [UnicodeDecodeError] leaves the loop. *)
Fixpoint read_loop (jsonl_path : Path) (line_no : nat) (lines : list pystr)
    (undecodable : option pystr)
    : result (list TranscriptEntry * list printed) :=
  match lines with
  | [] =>
      match undecodable with
      | None => Ok ([], [])
      | Some msg => raise UnicodeDecodeError msg
      end
  | line :: rest =>
      let line := strip line in
      if str_truthy line then
        r <- handle_line jsonl_path line_no line ;;
        rs <- read_loop jsonl_path (S line_no) rest undecodable ;;
        Ok (appended (fst r) ++ fst rs, snd r ++ snd rs)
      else read_loop jsonl_path (S line_no) rest undecodable
  end.

(** Lines 135-142: what the cache answers, if there is a cache. *)
Definition cached_entries {S : Type} (cache_manager : option (CacheManager S))
    (jsonl_path : Path) (from_date to_date : option pystr) (cache : S)
    : option (list TranscriptEntry) :=
  match cache_manager with
  | Some cm =>
      if given from_date || given to_date
      then load_cached_entries_filtered cm cache jsonl_path from_date to_date
      else load_cached_entries cm cache jsonl_path
  | None => None
  end.

Definition load_transcript {S : Type} (fs : FileSystem) (jsonl_path : Path)
    (cache_manager : option (CacheManager S))
    (from_date to_date : option pystr) (silent : bool) (cache : S)
    : result (loaded S) :=
  match cached_entries cache_manager jsonl_path from_date to_date cache with
  | Some cached =>
      Ok (mk_loaded cached cache
            (if silent then [] else [LoadingFromCache jsonl_path]))
  | None =>
      f <- or_raise OSError jsonl_path (read_lines fs jsonl_path) ;;
      r <- read_loop jsonl_path 0 (decoded_lines f) (undecodable f) ;;
      let messages := fst r in
      let cache' :=
        match cache_manager with
        | Some cm => save_cached_entries cm cache jsonl_path messages
        | None => cache
        end in
      Ok (mk_loaded messages cache'
            ((if silent then [] else [Processing jsonl_path]) ++ snd r))
  end.

(** ** [load_directory_transcripts] *)

(** The loop of lines 221-225: [all_messages] after the files. *)
Fixpoint load_files {S : Type} (fs : FileSystem)
    (cache_manager : option (CacheManager S))
    (from_date to_date : option pystr) (silent : bool)
    (jsonl_files : list Path) (cache : S) : result (loaded S) :=
  match jsonl_files with
  | [] => Ok (mk_loaded [] cache [])
  | jsonl_file :: rest =>
      r <- load_transcript fs jsonl_file cache_manager from_date to_date
             silent cache ;;
      rs <- load_files fs cache_manager from_date to_date silent rest
              (cache_state r) ;;
      Ok (mk_loaded (entries r ++ entries rs) (cache_state rs)
            (stdout_lines r ++ stdout_lines rs))
  end.

Definition get_timestamp (entry : TranscriptEntry) : pystr :=
  match entry_timestamp entry with
  | Some t => t
  | None => []
  end.

Definition load_directory_transcripts {S : Type} (fs : FileSystem)
    (directory_path : Path) (cache_manager : option (CacheManager S))
    (from_date to_date : option pystr) (silent : bool) (cache : S)
    : result (loaded S) :=
  r <- load_files fs cache_manager from_date to_date silent
         (glob_jsonl fs directory_path) cache ;;
  Ok (mk_loaded (list_sort get_timestamp (entries r)) (cache_state r)
        (stdout_lines r)).

End Loader.

(* ================================================================== *)
(** * The vocabulary of the properties *)
(* ================================================================== *)

(** [l] is a subsequence of [m]: some elements of [m], in their order. *)
Inductive subseq {A : Type} : list A -> list A -> Prop :=
| subseq_nil : subseq [] []
| subseq_skip x l m : subseq l m -> subseq l (x :: m)
| subseq_keep x l m : subseq l m -> subseq (x :: l) (x :: m).

(** [a <= b] on [str]. *)
Definition str_le (a b : pystr) : Prop := str_ltb b a = false.

(** [a] does not come after [b] under the sort key. *)
Definition key_le {A : Type} (key : A -> pystr) (a b : A) : Prop :=
  str_le (key a) (key b).

(** [a <= b] on naive datetimes: field by field, from the year down. *)
Fixpoint lex_le (a b : list Z) : Prop :=
  match a, b with
  | x :: a', y :: b' => (x < y)%Z \/ (x = y /\ lex_le a' b')
  | _, _ => True
  end.

Definition dt_le (a b : datetime) : Prop := lex_le (dt_fields a) (dt_fields b).

Definition naive (b : option datetime) : Prop :=
  match b with
  | Some dt => tzinfo dt = None
  | None => True
  end.

(** [dt] lies within the bounds that are given. *)
Definition within (from_dt to_dt : option datetime) (dt : datetime) : Prop :=
  match from_dt with Some f => dt_le f dt | None => True end /\
  match to_dt with Some t => dt_le dt t | None => True end.

(** The relative expressions that the filter widens to a whole day. *)
Definition relative_expression (d : pystr) : Prop :=
  d = py "today" \/ d = py "yesterday" \/
  exists pre post, d = pre ++ py "days ago" ++ post.

(** A decimal digit. *)
Definition is_digit (c : N) : Prop := (48 <= c <= 57)%N.

(** A file that can be read to its end: it opens and all of it
    decodes. *)
Definition readable (fs : FileSystem) (p : Path) : Prop :=
  exists f, read_lines fs p = Some f /\ undecodable f = None.

(** [str(n)] for a natural number. *)
Definition str_of_N (n : N) : pystr :=
  py (DecimalString.NilZero.string_of_uint (N.to_uint n)).

(** The content types of the dispatch table. *)
Definition known_types : list pystr :=
  [py "text"; py "tool_use"; py "thinking"; py "tool_result"; py "image"].

(** The [type] of a mapping is missing or not in the dispatch table. *)
Definition no_known_type (item_data : json) : Prop :=
  exists d, item_data = JDict d /\
    match dict_get d (py "type") with
    | None => True
    | Some t => forall s, In s known_types -> t <> JStr s
    end.

(** The value [normalize_usage_info] returned, as an argument. *)
Definition as_usage_data (r : option UsageInfo) : usage_data :=
  match r with
  | Some u => UsageInfoObject u
  | None => UsageJson JNull
  end.

Section Vocabulary.
Context {R : Runtime}.

(** What becomes of one line of a transcript file. *)
Inductive line_kind :=
| Blank
| Malformed
| NotObject
| Unrecognised
| Invalid
| Valid (e : TranscriptEntry).

Definition classify (line : pystr) : line_kind :=
  match strip line with
  | [] => Blank
  | stripped =>
      match json_loads stripped with
      | Raise _ => Malformed
      | Ok (JDict d) =>
          if recognised (dict_get d (py "type")) then
            match parse_transcript_entry d with
            | Ok e => Valid e
            | Raise _ => Invalid
            end
          else Unrecognised
      | Ok _ => NotObject
      end
  end.

(** The entries of the valid lines, in file order. *)
Definition valid_entries (lines : list pystr) : list TranscriptEntry :=
  flat_map (fun line => match classify line with
                        | Valid e => [e]
                        | _ => []
                        end) lines.

(** The values for which validation of the fields fails: a mapping that
    is no valid [UsageInfo], and an object with both token attributes
    that neither the SDK's [Usage] nor [UsageInfo] accepts. *)
Definition fields_rejected (u : usage_data) (e : exn) : Prop :=
  match u with
  | UsageJson (JDict d) => UsageInfo_model_validate d = Raise e
  | OtherObject attrs =>
      dict_has attrs (py "input_tokens") = true /\
      dict_has attrs (py "output_tokens") = true /\
      (exists e', AnthropicUsage_model_validate attrs = Raise e') /\
      UsageInfo_model_validate attrs = Raise e
  | _ => False
  end.

(** The timestamp of an entry is within the bounds: it is there, it
    parses, and without its time zone it lies between them. *)
Definition in_range (from_dt to_dt : option datetime) (e : TranscriptEntry)
    : Prop :=
  exists ts dt,
    entry_timestamp e = Some ts /\ ts <> [] /\
    parse_timestamp ts = Some dt /\
    within from_dt to_dt (replace_tzinfo_None dt).

Definition is_summary (e : TranscriptEntry) : Prop :=
  match e with Summary _ => True | _ => False end.

(** The per-file loads of a directory, each starting from the cache the
    one before left. *)
Inductive per_file {S : Type} (fs : FileSystem)
    (cache_manager : option (CacheManager S))
    (from_date to_date : option pystr) (silent : bool)
    : list Path -> S -> list (loaded S) -> Prop :=
| per_file_nil cache :
    per_file fs cache_manager from_date to_date silent [] cache []
| per_file_cons f files cache r rs :
    load_transcript fs f cache_manager from_date to_date silent cache = Ok r ->
    per_file fs cache_manager from_date to_date silent files (cache_state r) rs ->
    per_file fs cache_manager from_date to_date silent (f :: files) cache (r :: rs).

End Vocabulary.

(* ================================================================== *)
(** * The Unicode sanitizer *)
(* ================================================================== *)

Module Sanitizer.

(** UTF-8 of one code point; [None] where the codec fails: on the
    surrogates U+D800..U+DFFF (and on a number that is no code point). *)
Definition encode_char (c : N) : option (list N) :=
  (if c <? 0x80 then Some [c]
   else if c <? 0x800 then
     Some [0xC0 + c / 0x40; 0x80 + c mod 0x40]
   else if (0xD800 <=? c) && (c <=? 0xDFFF) then None
   else if c <? 0x10000 then
     Some [0xE0 + c / 0x1000; 0x80 + (c / 0x40) mod 0x40; 0x80 + c mod 0x40]
   else if c <? 0x110000 then
     Some [0xF0 + c / 0x40000; 0x80 + (c / 0x1000) mod 0x40;
           0x80 + (c / 0x40) mod 0x40; 0x80 + c mod 0x40]
   else None)%N.

(** [text.encode("utf-8")]; [None] is [UnicodeEncodeError]. *)
Fixpoint encode_utf8 (text : pystr) : option (list N) :=
  match text with
  | [] => Some []
  | c :: text' =>
      match encode_char c, encode_utf8 text' with
      | Some b, Some bs => Some (b ++ bs)
      | _, _ => None
      end
  end.

(** The character written in place of an invalid code point: U+FFFD,
    or the ASCII question mark. *)
Inductive replacement := ReplacementCharacter | QuestionMark.

Definition replacement_char (r : replacement) : N :=
  match r with
  | ReplacementCharacter => 0xFFFD%N
  | QuestionMark => 0x3F%N
  end.

Definition replace_invalid (r : replacement) (c : N) : N :=
  match encode_char c with
  | Some _ => c
  | None => replacement_char r
  end.

(** Modelled from the spec: the sanitizer is defined in the converter
    module, which is not among the sources (its tests are). Section 4.1:
    [None] and the empty string are returned unchanged; a text that
    encodes as UTF-8 is returned unchanged; otherwise each invalid code
    point is replaced. *)
Definition sanitize (r : replacement) (text : option pystr) : option pystr :=
  match text with
  | None => None
  | Some [] => Some []
  | Some s =>
      match encode_utf8 s with
      | Some _ => Some s
      | None => Some (map (replace_invalid r) s)
      end
  end.

End Sanitizer.

(* ================================================================== *)
(** * A runtime to run the parser on *)
(* ================================================================== *)

Module Demo.

Definition digit (c : N) : option Z :=
  if ((48 <=? c) && (c <=? 57))%N then Some (Z.of_N c - 48)%Z else None.

Fixpoint number (acc : Z) (s : pystr) : option Z :=
  match s with
  | [] => Some acc
  | c :: s' =>
      match digit c with
      | Some d => number (10 * acc + d) s'
      | None => None
      end
  end.

Fixpoint digits (s : pystr) : pystr * pystr :=
  match s with
  | c :: s' =>
      match digit c with
      | Some _ => let (ds, rest) := digits s' in (c :: ds, rest)
      | None => ([], s)
      end
  | [] => ([], [])
  end.

(** The fraction of a second and what follows it. *)
Definition fraction (s : pystr) : option (Z * pystr) :=
  match s with
  | 46%N :: s' =>
      let (ds, rest) := digits s' in
      match ds, number 0 ds with
      | _ :: _, Some n =>
          if (List.length ds <=? 6)%nat
          then Some ((n * 10 ^ Z.of_nat (6 - List.length ds))%Z, rest)
          else None
      | _, _ => None
      end
  | _ => Some (0%Z, s)
  end.

(** The UTC offset [+HH:MM] or [-HH:MM], or nothing. *)
Definition offset (s : pystr) : option (option Z) :=
  match s with
  | [] => Some None
  | [sign; a; b; 58%N; c; e] =>
      match number 0 [a; b], number 0 [c; e] with
      | Some oh, Some om =>
          if N.eqb sign 43 then Some (Some (oh * 3600 + om * 60)%Z)
          else if N.eqb sign 45 then Some (Some (- (oh * 3600 + om * 60))%Z)
          else None
      | _, _ => None
      end
  | _ => None
  end.

(** [YYYY-MM-DDTHH:MM:SS[.f][+HH:MM]]: the shape of the timestamps of a
    transcript. *)
Definition iso (s : pystr) : option datetime :=
  let num a b := match firstn (b - a) (skipn a s) with
                 | [] => None
                 | ds => number 0 ds
                 end in
  let sep i c := match nth_error s i with
                 | Some x => N.eqb x c
                 | None => false
                 end in
  match num 0 4, num 5 7, num 8 10, num 11 13, num 14 16, num 17 19 with
  | Some y, Some mo, Some d, Some h, Some mi, Some se =>
      if sep 4 45%N && sep 7 45%N && sep 10 84%N && sep 13 58%N && sep 16 58%N
         && (19 <=? List.length s)%nat
      then
        match fraction (skipn 19 s) with
        | Some (us, rest) =>
            match offset rest with
            | Some tz => Some (mk_datetime y mo d h mi se us tz)
            | None => None
            end
        | None => None
        end
      else None
  | _, _, _, _, _, _ => None
  end.

(** The date parser at 2025-01-03 12:34:56.789. *)
Definition relative (s : pystr) : option datetime :=
  let at_day d h := Some (mk_datetime 2025 1 d h 34 56 789000 None) in
  if str_eqb s (py "today") then at_day 3%Z 12%Z
  else if str_eqb s (py "yesterday") then at_day 2%Z 12%Z
  else if str_eqb s (py "2 days ago") then at_day 1%Z 12%Z
  else if str_eqb s (py "1 week, 2 days ago")
  then Some (mk_datetime 2024 12 25 12 34 56 789000 None)
  else iso s.

Definition lower_char (c : N) : N :=
  if ((65 <=? c) && (c <=? 90))%N then (c + 32)%N else c.

(** A reader for the lines of the examples. *)
Definition loads (known : list (pystr * json)) (line : pystr) : result json :=
  match dict_get known line with
  | Some j => Ok j
  | None => raise JSONDecodeError (py "Expecting value: line 1 column 1 (char 0)")
  end.

Definition text_block (j : json) : result TextBlock :=
  match j with
  | JDict d =>
      match dict_get d (py "text"), dict_get d (py "citations") with
      | Some (JStr t), None => Ok (mk_TextBlock t None)
      | _, _ => raise ValidationError (py "1 validation error for TextBlock")
      end
  | _ => raise ValidationError (py "1 validation error for TextBlock")
  end.

Definition runtime (known : list (pystr * json)) : Runtime := {|
  repr_str := fun s => py "'" ++ s ++ py "'";
  repr_float := fun _ => py "nan";
  str_lower := map lower_char;
  re_sub_pydantic_url := fun s => s;
  json_loads := loads known;
  pydantic_str := fun j => match j with JStr s => Some s | _ => None end;
  pydantic_int := fun j => match j with JInt n => Some n | _ => None end;
  pydantic_bool := fun j => match j with JBool b => Some b | _ => None end;
  ToolUseResult_validate :=
    fun j => match j with JStr s => Some (ResultStr s) | _ => None end;
  TextBlock_model_validate := text_block;
  ToolUseBlock_model_validate :=
    fun _ => raise ValidationError (py "1 validation error for ToolUseBlock");
  ThinkingBlock_model_validate :=
    fun _ => raise ValidationError (py "1 validation error for ThinkingBlock");
  StopReason_validate := fun j => match j with JStr s => Some s | _ => None end;
  AnthropicMessage_model_validate :=
    fun _ => raise ValidationError (py "1 validation error for Message");
  AnthropicUsage_model_validate :=
    fun _ => raise ValidationError (py "1 validation error for Usage");
  fromisoformat := iso;
  dateparser_parse := relative
|}.

(** ** Sample records *)

Definition base_fields (u ts : string) : dict :=
  [ (py "parentUuid", JNull);
    (py "isSidechain", JBool false);
    (py "userType", JStr (py "external"));
    (py "cwd", JStr (py "/test/path"));
    (py "sessionId", JStr (py "test-session"));
    (py "version", JStr (py "1.0.0"));
    (py "uuid", JStr (py u));
    (py "timestamp", JStr (py ts)) ].

(** A user record saying ["hi"], with further keys [extra]. *)
Definition user_record (u ts : string) (extra : dict) : dict :=
  (py "type", JStr (py "user"))
  :: (py "message",
      JDict [(py "role", JStr (py "user")); (py "content", JStr (py "hi"))])
  :: base_fields u ts ++ extra.

Definition summary_record : dict :=
  [ (py "type", JStr (py "summary"));
    (py "summary", JStr (py "A short session"));
    (py "leafUuid", JStr (py "u1")) ].

(** An MCP-style tool result: a text item, then a bare string. *)
Definition mixed_tool_result : list json :=
  [ JDict [(py "type", JStr (py "text")); (py "text", JStr (py "a"))];
    JStr (py "b") ].

Definition tool_record : dict :=
  user_record "u1" "2025-01-01T00:00:00Z"
    [(py "toolUseResult", JList mixed_tool_result)].

(** ** Sample files *)

Definition quoted (s : pystr) : pystr := [34%N] ++ s ++ [34%N].

(** The JSON text of a value whose strings need no escapes. *)
Fixpoint dumps (j : json) : pystr :=
  match j with
  | JNull => py "null"
  | JBool true => py "true"
  | JBool false => py "false"
  | JInt n => repr_int n
  | JFloat _ => py "NaN"
  | JStr s => quoted s
  | JList l => py "[" ++ join (py ", ") (map dumps l) ++ py "]"
  | JDict d =>
      py "{"
      ++ join (py ", ")
           (map (fun kv => quoted (fst kv) ++ py ": " ++ dumps (snd kv)) d)
      ++ py "}"
  end.

Definition newline : pystr := [10%N].

(** A user record without its [uuid]: it fails validation. *)
Definition invalid_record : dict :=
  [ (py "type", JStr (py "user"));
    (py "message",
     JDict [(py "role", JStr (py "user")); (py "content", JStr (py "hi"))]) ].

Definition records_a : list json :=
  [ JDict (user_record "u2" "2025-01-02T09:00:00Z" []);
    JDict summary_record;
    JList [JInt 1; JInt 2];
    JDict [(py "type", JStr (py "progress"))];
    JDict invalid_record ].

Definition records_b : list json :=
  [ JDict (user_record "u1" "2025-01-01T09:00:00Z" []) ].

(** What [json.loads] knows: the text of the sample records. *)
Definition known : list (pystr * json) :=
  map (fun j => (dumps j, j)) (records_a ++ records_b).

(** [a.jsonl]: a valid user line, a line that is no JSON, a blank line,
    a summary, an array, an unknown type, an invalid user line. *)
Definition file_a : list pystr :=
  [ dumps (JDict (user_record "u2" "2025-01-02T09:00:00Z" [])) ++ newline;
    py "{not json" ++ newline;
    py "   " ++ newline;
    dumps (JDict summary_record) ++ newline;
    dumps (JList [JInt 1; JInt 2]) ++ newline;
    dumps (JDict [(py "type", JStr (py "progress"))]) ++ newline;
    dumps (JDict invalid_record) ++ newline ].

Definition file_b : list pystr :=
  [ dumps (JDict (user_record "u1" "2025-01-01T09:00:00Z" [])) ++ newline ].

Definition files : FileSystem := {|
  read_lines := fun p =>
    if str_eqb p (py "logs/a.jsonl") then Some (text_of file_a)
    else if str_eqb p (py "logs/b.jsonl") then Some (text_of file_b)
    else None;
  glob_jsonl := fun d =>
    if str_eqb d (py "logs") then [py "logs/a.jsonl"; py "logs/b.jsonl"]
    else []
|}.

Definition no_cache : option (CacheManager unit) := None.

(** ** Sample entries *)

Definition user_at (u ts : string) : TranscriptEntry :=
  User (mk_UserEntry
          (mk_Base None false (py "external") (py "/test/path")
             (py "test-session") (py "1.0.0") (py u) (py ts) None)
          (mk_UserMessage (ContentStr (py "hi")))
          None).

Definition a_summary : TranscriptEntry :=
  Summary (mk_SummaryEntry (py "A short session") (py "u1") None).

(** An entry of today (the date parser's clock reads 2025-01-03), a
    summary, an entry of two days before, and one whose timestamp does
    not parse. *)
Definition some_messages : list TranscriptEntry :=
  [ user_at "u3" "2025-01-03T10:00:00.000Z";
    a_summary;
    user_at "u1" "2025-01-01T10:00:00.000Z";
    user_at "u0" "last week" ].

End Demo.

(* ================================================================== *)
(** * parser.py: [extract_text_content] *)
(* ================================================================== *)

(** The loop of lines 39-55: [text_parts] after the items. A
    [TextContent] and the SDK's text block append their text; thinking
    blocks are skipped; the other blocks have no [text] attribute and
    match no branch. *)
Fixpoint text_parts (content : list ContentItem) : list pystr :=
  match content with
  | [] => []
  | item :: rest =>
      match item with
      | ItemText c => text c :: text_parts rest
      | ItemTextBlock b => tb_text b :: text_parts rest
      | ItemThinking _ => text_parts rest
      | ItemThinkingBlock _ => text_parts rest
      | _ => text_parts rest
      end
  end.

Definition extract_text_content (content : option MessageContent) : pystr :=
  match content with
  | None => []
  | Some (ContentList l) => join [10%N] (text_parts l)
  | Some (ContentStr s) => if str_truthy s then s else []
  end.

(** ** More vocabulary *)

(** The blocks that carry text. *)
Definition is_text_item (item : ContentItem) : bool :=
  match item with
  | ItemText _ | ItemTextBlock _ => true
  | _ => false
  end.

(** The [type] attribute of a content block. *)
Definition block_type (b : ContentItem) : pystr :=
  match b with
  | ItemText _ | ItemTextBlock _ => py "text"
  | ItemToolUse _ | ItemToolUseBlock _ => py "tool_use"
  | ItemToolResult _ => py "tool_result"
  | ItemThinking _ | ItemThinkingBlock _ => py "thinking"
  | ItemImage _ => py "image"
  end.

(** The [type] attribute of a transcript entry. *)
Definition entry_type_name (e : TranscriptEntry) : pystr :=
  match e with
  | User _ => py "user"
  | Assistant _ => py "assistant"
  | Summary _ => py "summary"
  | System _ => py "system"
  end.

(** [entry.uuid], for the entries that have the attribute. *)
Definition entry_uuid (e : TranscriptEntry) : option pystr :=
  match e with
  | User u => Some (uuid (user_base u))
  | Assistant a => Some (uuid (assistant_base a))
  | System s => Some (uuid (system_base s))
  | Summary _ => None
  end.

(** A line that is not blank: [line.strip()] is not empty. *)
Definition non_blank (line : pystr) : bool := str_truthy (strip line).

(** An entry that the date filter has to date: it is no summary and
    its timestamp is there and parses. *)
Definition datable {R : Runtime} (e : TranscriptEntry) : Prop :=
  exists ts dt,
    entry_timestamp e = Some ts /\ ts <> [] /\ parse_timestamp ts = Some dt.

Module MoreSamples.

(** A directory whose listing names a file that cannot be opened. *)
Definition broken_files : FileSystem := {|
  read_lines := fun p =>
    if str_eqb p (py "logs/a.jsonl") then Some (text_of Demo.file_a) else None;
  glob_jsonl := fun d =>
    if str_eqb d (py "logs") then [py "logs/a.jsonl"; py "logs/gone.jsonl"]
    else []
|}.

(** A cache that holds one summary for every path and keeps the last
    list saved. *)
Definition full_cache : CacheManager (list TranscriptEntry) := {|
  load_cached_entries := fun _ _ => Some [Demo.a_summary];
  load_cached_entries_filtered := fun _ _ _ _ => Some [Demo.a_summary];
  save_cached_entries := fun _ _ l => l
|}.

(** A cache that holds nothing and keeps the last list saved. *)
Definition empty_cache : CacheManager (list TranscriptEntry) := {|
  load_cached_entries := fun _ _ => None;
  load_cached_entries_filtered := fun _ _ _ _ => None;
  save_cached_entries := fun _ _ l => l
|}.

(** Text, thinking, text. *)
Definition mixed_content : list ContentItem :=
  [ ItemText (mk_TextContent (py "one"));
    ItemThinking (mk_ThinkingContent (py "hm") None);
    ItemTextBlock (mk_TextBlock (py "two") None) ].

(** An assistant record whose content is a string. *)
Definition assistant_string_record : dict :=
  (py "type", JStr (py "assistant"))
  :: (py "message",
      JDict [ (py "id", JStr (py "m1"));
              (py "type", JStr (py "message"));
              (py "role", JStr (py "assistant"));
              (py "model", JStr (py "some-model"));
              (py "content", JStr (py "hi")) ])
  :: Demo.base_fields "a1" "2025-01-01T00:00:00Z".

(** An assistant record with one text item and a usage mapping. *)
Definition assistant_record : dict :=
  (py "type", JStr (py "assistant"))
  :: (py "message",
      JDict [ (py "id", JStr (py "m1"));
              (py "type", JStr (py "message"));
              (py "role", JStr (py "assistant"));
              (py "model", JStr (py "some-model"));
              (py "content",
               JList [JDict [(py "type", JStr (py "text"));
                             (py "text", JStr (py "hello"))]]);
              (py "usage",
               JDict [(py "input_tokens", JInt 5);
                      (py "output_tokens", JInt 3)]) ])
  :: Demo.base_fields "a1" "2025-01-01T00:00:00Z".

(** A file that opens but holds the bytes of a lone surrogate, as the
    integration test writes them: the strict decoder fails on the
    first read. *)
Definition surrogate_file : text_file :=
  mk_text_file []
    (Some (py "'utf-8' codec can't decode byte 0xed in position 55: invalid continuation byte")).

(** A larger file of the same kind, in which a first block of lines
    was decoded before the bytes of the surrogate are met. *)
Definition late_surrogate_file : text_file :=
  mk_text_file Demo.file_a
    (Some (py "'utf-8' codec can't decode byte 0xed in position 9001: invalid continuation byte")).

Definition surrogate_files : FileSystem := {|
  read_lines := fun p =>
    if str_eqb p (py "logs/a.jsonl") then Some (text_of Demo.file_a)
    else if str_eqb p (py "logs/surrogate.jsonl") then Some surrogate_file
    else if str_eqb p (py "logs/late.jsonl") then Some late_surrogate_file
    else None;
  glob_jsonl := fun d =>
    if str_eqb d (py "logs")
    then [py "logs/a.jsonl"; py "logs/surrogate.jsonl"]
    else []
|}.

End MoreSamples.

(* ================================================================== *)
(** * Strings and exceptions *)
(* ================================================================== *)

Lemma str_eqb_refl (a : pystr) : str_eqb a a = true.
Proof.
  induction a as [|x a IH]; simpl; [reflexivity|].
  now rewrite N.eqb_refl, IH.
Qed.

Lemma str_eqb_eq (a b : pystr) : str_eqb a b = true <-> a = b.
Proof.
  split; [|intros ->; apply str_eqb_refl].
  revert b; induction a as [|x a IH]; intros [|y b]; simpl; try easy.
  rewrite andb_true_iff, N.eqb_eq. intros [-> H]. now rewrite (IH b H).
Qed.

Lemma str_eqb_neq (a b : pystr) : str_eqb a b = false <-> a <> b.
Proof.
  rewrite <- str_eqb_eq. destruct (str_eqb a b); split; congruence.
Qed.

Lemma json_is_str_true (j : json) (s : pystr) :
  json_is_str j s = true <-> j = JStr s.
Proof.
  destruct j; simpl; try (split; [discriminate|congruence]).
  rewrite str_eqb_eq. split; congruence.
Qed.

Lemma startswith_app (p s : pystr) : startswith p (p ++ s) = true.
Proof.
  induction p as [|x p IH]; simpl; [reflexivity|].
  now rewrite N.eqb_refl, IH.
Qed.

Lemma startswith_split (p s : pystr) :
  startswith p s = true -> exists post, s = p ++ post.
Proof.
  revert s; induction p as [|x p IH]; intros s; simpl.
  - intros _. now exists s.
  - destruct s as [|y s]; [discriminate|].
    rewrite andb_true_iff, N.eqb_eq. intros [-> H].
    destruct (IH s H) as [post ->]. now exists post.
Qed.

(** [p in s] holds exactly when [s] is [pre ++ p ++ post]. *)
Lemma str_contains_iff (p s : pystr) :
  str_contains p s = true <-> exists pre post, s = pre ++ p ++ post.
Proof.
  split.
  - induction s as [|c s IH].
    + simpl. rewrite orb_false_r. intros H.
      destruct (startswith_split _ _ H) as [post E]. now exists [], post.
    + simpl. rewrite orb_true_iff. intros [H|H].
      * destruct (startswith_split _ _ H) as [post E]. now exists [], post.
      * destruct (IH H) as (pre & post & ->). now exists (c :: pre), post.
  - intros (pre & post & ->).
    induction pre as [|c pre IH].
    + simpl. destruct (p ++ post) eqn:E; simpl;
        rewrite <- ?E, startswith_app; reflexivity.
    + simpl. rewrite IH. apply orb_true_r.
Qed.

(** Every exception is an [Exception]: an [except Exception] clause
    catches whatever the body raises. *)
Lemma dispatch_Exception {A} (e : exn) (h : exn -> result A)
    (hs : list (handler A)) :
  dispatch e (([Exception], h) :: hs) = h e.
Proof. reflexivity. Qed.

Lemma try_except_Exception {A} (body : result A) (h : exn -> result A) :
  try_except body [([Exception], h)] =
  match body with Ok a => Ok a | Raise e => h e end.
Proof. now destruct body. Qed.

Lemma bind_Ok {A B} (c : result A) (k : A -> result B) (b : B) :
  bind c k = Ok b -> exists a, c = Ok a /\ k a = Ok b.
Proof. destruct c as [a|e]; simpl; [eauto|discriminate]. Qed.

Lemma comprehension_Ok {A B} (f : A -> result B) (l : list A) :
  (forall x, In x l -> exists y, f x = Ok y) ->
  exists ys, comprehension f l = Ok ys.
Proof.
  induction l as [|x l IH]; intros H; simpl; [eauto|].
  destruct (H x (or_introl eq_refl)) as [y ->]. simpl.
  destruct IH as [ys ->]; [intros; apply H; now right|].
  simpl. eauto.
Qed.

Lemma comprehension_Forall2 {A B} (f : A -> result B) (l : list A) (ys : list B) :
  comprehension f l = Ok ys -> Forall2 (fun x y => f x = Ok y) l ys.
Proof.
  revert ys; induction l as [|x l IH]; intros ys; simpl.
  - intros [= <-]. constructor.
  - intros H. apply bind_Ok in H as (y & Hy & H).
    apply bind_Ok in H as (ys' & Hys & [= <-]).
    constructor; auto.
Qed.

(* ================================================================== *)
(** * [parse_content_item] *)
(* ================================================================== *)

Section ContentParser.
Context {R : Runtime}.

Lemma body_no_known_type (item_data : json) :
  no_known_type item_data ->
  parse_content_item_body item_data = TextContent_fallback item_data.
Proof.
  intros (d & -> & H). unfold parse_content_item_body, get_type. simpl bind.
  assert (E : forall s, In s known_types ->
            json_is_str (match dict_get d (py "type") with
                         | Some t => t | None => JStr [] end) s = false).
  { intros s Hs. destruct (json_is_str _ s) eqn:E; [|reflexivity].
    apply json_is_str_true in E.
    destruct (dict_get d (py "type")) as [t|].
    - now destruct (H s Hs).
    - injection E as <-. simpl in Hs.
      repeat (destruct Hs as [Hs|Hs]; [discriminate|]). easy. }
  rewrite !E by (simpl; tauto). reflexivity.
Qed.

(** C2. [parse_content_item] returns a content block for every parsed
    JSON value and never raises; when the [type] of the mapping is
    missing or unknown, or when the dispatch (the body of the [try])
    raises an exception, the block is a [TextContent] whose text is
    [str(item_data)]. *)
Theorem parse_content_item_total (item_data : json) :
  exists block,
    parse_content_item item_data = Ok block /\
    (no_known_type item_data \/
     (exists e, parse_content_item_body item_data = Raise e) ->
     block = ItemText (mk_TextContent (py_str item_data))).
Proof.
  unfold parse_content_item. rewrite try_except_Exception.
  destruct (parse_content_item_body item_data) as [block|e] eqn:E.
  - exists block. split; [reflexivity|].
    intros [H|[e H]]; [|discriminate].
    rewrite (body_no_known_type H) in E. now injection E as <-.
  - eexists. split; [reflexivity|]. reflexivity.
Qed.

End ContentParser.

(** The fallback of the specification: [{"type": "bogus", "foo": 1}]
    becomes a text block holding [str] of the mapping. *)
Lemma parse_content_item_total_witness :
  parse_content_item (R := Demo.runtime [])
    (JDict [(py "type", JStr (py "bogus")); (py "foo", JInt 1)])
  = Ok (ItemText (mk_TextContent (py "{'type': 'bogus', 'foo': 1}"))).
Proof.
  destruct (parse_content_item_total (R := Demo.runtime [])
              (JDict [(py "type", JStr (py "bogus")); (py "foo", JInt 1)]))
    as (block & E & H).
  rewrite E. f_equal. apply H. left. eexists. split; [reflexivity|].
  simpl. intros s Hs.
  repeat (destruct Hs as [<-|Hs]; [discriminate|]). easy.
Defined.

(* ================================================================== *)
(** * [normalize_usage_info] *)
(* ================================================================== *)

Section Usage.
Context {R : Runtime}.

Lemma field_nullable_raises {A} m (v : json -> option A) d k e :
  field_nullable m v d k = Raise e -> exn_cls e = ValidationError.
Proof.
  unfold field_nullable.
  destruct (dict_get d k) as [j|]; [|now intros [= <-]].
  destruct j; try discriminate;
    (destruct (v _); [discriminate|now intros [= <-]]).
Qed.

Ltac step_bind H :=
  match type of H with
  | bind ?c _ = Raise _ =>
      let E := fresh "E" in
      destruct c eqn:E; simpl in H;
      [|injection H as <-; eapply field_nullable_raises; eassumption]
  end.

(** The constructor of [UsageInfo] raises nothing but the validation
    error of a field. *)
Lemma UsageInfo_init_raises i c r o s t e :
  UsageInfo_init i c r o s t = Raise e -> exn_cls e = ValidationError.
Proof.
  unfold UsageInfo_init. intros H.
  do 6 step_bind H. discriminate.
Qed.

(** C3, as amended. [normalize_usage_info] raises exactly on the
    arguments whose fields are rejected, a mapping that is no valid
    [UsageInfo] or an object with both token attributes that neither
    model accepts, and what it raises then is the pydantic validation
    error itself, which is not turned into [None]. On every other
    argument it returns a [UsageInfo] or [None], and [None] for every
    parsed JSON value that is not a mapping. *)
Theorem normalize_usage_info_outcome (u : usage_data) :
  (forall e, normalize_usage_info u = Raise e <-> fields_rejected u e) /\
  (forall e, fields_rejected u e -> exn_cls e = ValidationError) /\
  ((exists r, normalize_usage_info u = Ok r) \/
   (exists e, fields_rejected u e)) /\
  (forall j, u = UsageJson j -> is_dict j = false ->
             normalize_usage_info u = Ok None).
Proof.
  assert (Hiff : forall e, normalize_usage_info u = Raise e <->
                           fields_rejected u e).
  { intros e. destruct u as [j|v|a|attrs]; simpl;
      try (split; [discriminate|easy]).
    - destruct j; simpl; try (split; [discriminate|easy]).
      destruct (UsageInfo_model_validate d) as [v|e0]; simpl;
        split; congruence.
    - destruct (dict_has attrs (py "input_tokens")); simpl;
        [|split; [discriminate|intros [H _]; discriminate]].
      destruct (dict_has attrs (py "output_tokens")); simpl;
        [|split; [discriminate|intros (_ & H & _); discriminate]].
      destruct (AnthropicUsage_model_validate attrs) as [a|e'] eqn:Ea; simpl.
      + split; [discriminate|intros (_ & _ & [e' He'] & _); discriminate].
      + fold (UsageInfo_model_validate attrs).
        destruct (UsageInfo_model_validate attrs) as [v|e0]; simpl.
        * split; [discriminate|intros (_ & _ & _ & H); discriminate].
        * split.
          -- intros [= <-]. repeat split; eauto.
          -- intros (_ & _ & _ & [= <-]). reflexivity. }
  split; [exact Hiff|]. split; [|split].
  - intros e He. destruct u as [j|v|a|attrs]; simpl in He; try easy.
    + destruct j; try easy. eapply UsageInfo_init_raises, He.
    + destruct He as (_ & _ & _ & He). eapply UsageInfo_init_raises, He.
  - destruct (normalize_usage_info u) as [r|e] eqn:E; [eauto|].
    right. exists e. now apply Hiff.
  - intros j -> Hj. destruct j; try reflexivity. discriminate.
Qed.

(** C10. [normalize_usage_info(None)] is [None]; a [UsageInfo] comes
    back unchanged; and normalising the value that [normalize_usage_info]
    returned gives that value again, so that two applications equal
    one. The result is by its type [None] or a [UsageInfo]. *)
Theorem normalize_usage_info_idempotent :
  normalize_usage_info (UsageJson JNull) = Ok None /\
  (forall v : UsageInfo, normalize_usage_info (UsageInfoObject v) = Ok (Some v)) /\
  (forall u : usage_data,
     (r <- normalize_usage_info u ;; normalize_usage_info (as_usage_data r))
     = normalize_usage_info u).
Proof.
  repeat split.
  intros u. destruct (normalize_usage_info u) as [[v|]|e]; reflexivity.
Qed.

End Usage.

(** A mapping whose [input_tokens] is not a number: the validation error
    of [UsageInfo.model_validate] leaves [normalize_usage_info]. *)
Lemma normalize_usage_info_raises :
  exists e,
    normalize_usage_info (R := Demo.runtime [])
      (UsageJson (JDict [(py "input_tokens", JStr (py "abc"))])) = Raise e /\
    exn_cls e = ValidationError.
Proof. eexists. split; reflexivity. Qed.

(** A value that is no mapping gives [None]; a mapping whose
    [input_tokens] is rejected makes the call raise. *)
Lemma normalize_usage_info_outcome_witness :
  normalize_usage_info (R := Demo.runtime []) (UsageJson (JStr (py "n/a")))
  = Ok None /\
  exists e,
    normalize_usage_info (R := Demo.runtime [])
      (UsageJson (JDict [(py "input_tokens", JStr (py "abc"))])) = Raise e /\
    exn_cls e = ValidationError.
Proof.
  split.
  - apply (proj2 (proj2 (proj2 (normalize_usage_info_outcome
                                  (R := Demo.runtime [])
                                  (UsageJson (JStr (py "n/a"))))))
             (JStr (py "n/a")));
      reflexivity.
  - destruct (UsageInfo_model_validate (R := Demo.runtime [])
                [(py "input_tokens", JStr (py "abc"))]) as [v|e] eqn:E.
    + vm_compute in E. discriminate.
    + exists e.
      destruct (normalize_usage_info_outcome (R := Demo.runtime [])
                  (UsageJson (JDict [(py "input_tokens", JStr (py "abc"))])))
        as (Hiff & Hcls & _).
      split; [apply Hiff; exact E|apply Hcls; exact E].
Defined.

(* ================================================================== *)
(** * [parse_transcript_entry]: the tool result of a user entry *)
(* ================================================================== *)

Section ToolResult.
Context {R : Runtime}.

Lemma user_tool_slot_content (data : dict) (l : list json) (first : dict)
    (rest : list json) (s : tool_slot) :
  dict_get data (py "toolUseResult") = Some (JList l) ->
  l = JDict first :: rest ->
  dict_has first (py "type") = true ->
  user_tool_slot data = Ok s ->
  exists items,
    s = ContentResult items /\
    comprehension parse_content_item (filter is_dict l) = Ok items.
Proof.
  intros Hl -> Ht. unfold user_tool_slot. rewrite Hl, Ht.
  intros H. apply bind_Ok in H as (items & Hc & [= <-]).
  now exists items.
Qed.

(** C4, as amended. In a [user] entry whose [toolUseResult] is a
    non-empty list with a mapping carrying a [type] key at its head, the
    parsed entry holds the content blocks that [parse_content_item]
    returns for the mappings of the list, in their order: one block per
    element that is a mapping. Elements that are no mappings are left
    out, so the blocks are as many as the elements exactly when every
    element is a mapping. *)
Theorem user_toolUseResult_content (data : dict) (l : list json)
    (first : dict) (rest : list json) (e : UserTranscriptEntry) :
  type_is (dict_get data (py "type")) (py "user") = true ->
  dict_get data (py "toolUseResult") = Some (JList l) ->
  l = JDict first :: rest ->
  dict_has first (py "type") = true ->
  parse_transcript_entry data = Ok (User e) ->
  exists items,
    toolUseResult e = Some (ResultContent items) /\
    Forall2 (fun item block => parse_content_item item = Ok block)
      (filter is_dict l) items /\
    List.length items = List.length (filter is_dict l) /\
    (forallb is_dict l = true -> List.length items = List.length l).
Proof.
  intros Hu Hl Hfirst Ht. unfold parse_transcript_entry. rewrite Hu.
  intros H.
  apply bind_Ok in H as (message & _ & H).
  apply bind_Ok in H as (tool & Htool & H).
  apply bind_Ok in H as (e' & He & [= <-]).
  destruct (user_tool_slot_content data Hl Hfirst Ht Htool)
    as (items & -> & Hitems).
  unfold UserTranscriptEntry_model_validate in He.
  apply bind_Ok in He as (b & _ & He).
  apply bind_Ok in He as (? & _ & He).
  apply bind_Ok in He as (msg & _ & He).
  simpl in He. injection He as <-. simpl.
  exists items. apply comprehension_Forall2 in Hitems.
  split; [reflexivity|]. split; [exact Hitems|].
  assert (Hlen : List.length items = List.length (filter is_dict l))
    by (symmetry; eapply Forall2_length; eassumption).
  split; [exact Hlen|].
  intros Hall. rewrite Hlen. f_equal.
  clear -Hall. induction l as [|x l IH]; simpl in *; [reflexivity|].
  apply andb_true_iff in Hall as [-> Hall]. now rewrite IH.
Qed.

End ToolResult.

(** A tool result of two elements, a text item and a bare string, is
    parsed into one content block. *)
Lemma user_toolUseResult_drops_non_mappings :
  exists e items,
    parse_transcript_entry (R := Demo.runtime []) Demo.tool_record = Ok (User e) /\
    toolUseResult e = Some (ResultContent items) /\
    List.length items = 1 /\
    List.length Demo.mixed_tool_result = 2.
Proof. do 2 eexists. repeat split. Qed.

Lemma user_toolUseResult_content_witness :
  exists e,
    parse_transcript_entry (R := Demo.runtime []) Demo.tool_record = Ok (User e) /\
    exists items,
      toolUseResult e = Some (ResultContent items) /\
      Forall2 (fun item block =>
                 parse_content_item (R := Demo.runtime []) item = Ok block)
        (filter is_dict Demo.mixed_tool_result) items /\
      List.length items = List.length (filter is_dict Demo.mixed_tool_result) /\
      (forallb is_dict Demo.mixed_tool_result = true ->
       List.length items = List.length Demo.mixed_tool_result).
Proof.
  eexists. split; [reflexivity|].
  eapply (user_toolUseResult_content (R := Demo.runtime []))
    with (data := Demo.tool_record); reflexivity.
Defined.

(* ================================================================== *)
(** * Sorting by timestamp *)
(* ================================================================== *)

Lemma str_ltb_irrefl (a : pystr) : str_ltb a a = false.
Proof.
  induction a as [|x a IH]; simpl; [reflexivity|].
  now rewrite N.ltb_irrefl, N.eqb_refl.
Qed.

Lemma str_ltb_trans (a b c : pystr) :
  str_ltb a b = true -> str_ltb b c = true -> str_ltb a c = true.
Proof.
  revert b c; induction a as [|x a IH]; intros [|y b] [|z c]; simpl;
    try easy.
  destruct (N.ltb_spec x y), (N.ltb_spec y z), (N.ltb_spec x z);
    try reflexivity; try lia;
    destruct (N.eqb_spec x y), (N.eqb_spec y z), (N.eqb_spec x z);
    try discriminate; try lia; try easy.
  apply IH.
Qed.

(** Two strings that are not below one another are equal. *)
Lemma str_ltb_total (a b : pystr) :
  str_ltb a b = false -> str_ltb b a = false -> a = b.
Proof.
  revert b; induction a as [|x a IH]; intros [|y b]; simpl; try easy.
  destruct (N.ltb_spec x y), (N.ltb_spec y x); try discriminate; try lia.
  assert (x = y) as -> by lia. rewrite N.eqb_refl.
  intros H1 H2. now rewrite (IH b H1 H2).
Qed.

Lemma str_ltb_asym (a b : pystr) : str_ltb a b = true -> str_ltb b a = false.
Proof.
  intros H. destruct (str_ltb b a) eqn:E; [|reflexivity].
  now rewrite <- (str_ltb_irrefl a), (str_ltb_trans _ _ _ H E).
Qed.

Lemma str_le_trans (a b c : pystr) : str_le a b -> str_le b c -> str_le a c.
Proof.
  unfold str_le. intros Hab Hbc.
  destruct (str_ltb c a) eqn:E; [|reflexivity].
  destruct (str_ltb a b) eqn:Eab.
  - now rewrite (str_ltb_trans _ _ _ E Eab) in Hbc.
  - rewrite (str_ltb_total _ _ Eab Hab) in E. congruence.
Qed.

Lemma str_le_empty (a : pystr) : str_le a [] -> a = [].
Proof. unfold str_le. now destruct a. Qed.

Section Sort.
Context {A : Type} (key : A -> pystr).

Lemma insert_by_perm (x : A) (l : list A) :
  Permutation (insert_by key x l) (x :: l).
Proof.
  induction l as [|y l IH]; simpl; [reflexivity|].
  destruct (str_ltb (key y) (key x)); [|reflexivity].
  rewrite IH. apply perm_swap.
Qed.

Lemma list_sort_perm (l : list A) : Permutation (list_sort key l) l.
Proof.
  induction l as [|x l IH]; simpl; [reflexivity|].
  rewrite insert_by_perm. now constructor.
Qed.

Lemma insert_by_sorted (x : A) (l : list A) :
  StronglySorted (key_le key) l -> StronglySorted (key_le key) (insert_by key x l).
Proof.
  induction 1 as [|y l Hs IH Hy]; simpl.
  - repeat constructor.
  - destruct (str_ltb (key y) (key x)) eqn:E.
    + constructor; [exact IH|].
      eapply Permutation_Forall; [symmetry; apply insert_by_perm|].
      constructor; [|exact Hy].
      apply str_ltb_asym, E.
    + constructor; [now constructor|].
      constructor; [exact E|].
      eapply Forall_impl; [|exact Hy].
      intros z Hz. eapply str_le_trans; [exact E|exact Hz].
Qed.

Lemma list_sort_sorted (l : list A) : StronglySorted (key_le key) (list_sort key l).
Proof.
  induction l as [|x l IH]; simpl; [constructor|].
  now apply insert_by_sorted.
Qed.

(** The sort is stable: the elements of one key keep their order. *)
Lemma insert_by_stable (k : pystr) (x : A) (l : list A) :
  filter (fun e => str_eqb (key e) k) (insert_by key x l)
  = filter (fun e => str_eqb (key e) k) (x :: l).
Proof.
  induction l as [|y l IH]; [reflexivity|].
  simpl insert_by. destruct (str_ltb (key y) (key x)) eqn:E; [|reflexivity].
  simpl in *. rewrite IH.
  destruct (str_eqb (key x) k) eqn:Ex, (str_eqb (key y) k) eqn:Ey;
    try reflexivity.
  apply str_eqb_eq in Ex, Ey. rewrite Ex, Ey, str_ltb_irrefl in E.
  discriminate.
Qed.

Lemma list_sort_stable (k : pystr) (l : list A) :
  filter (fun e => str_eqb (key e) k) (list_sort key l)
  = filter (fun e => str_eqb (key e) k) l.
Proof.
  induction l as [|x l IH]; [reflexivity|].
  simpl list_sort. rewrite insert_by_stable. simpl. now rewrite IH.
Qed.

(** In a sorted list, what stands before an element of empty key has
    the empty key too. *)
Lemma sorted_empty_key_first (l1 l2 : list A) (x : A) :
  StronglySorted (key_le key) (l1 ++ x :: l2) -> key x = [] ->
  Forall (fun e => key e = []) l1.
Proof.
  induction l1 as [|y l1 IH]; simpl; intros Hs Hx; [constructor|].
  inversion Hs as [|? ? Hs' Hy]; subst. constructor; [|now apply IH].
  apply str_le_empty. rewrite <- Hx.
  rewrite Forall_forall in Hy. apply Hy, in_elt.
Qed.

End Sort.

(* ================================================================== *)
(** * [load_transcript]: one line at a time *)
(* ================================================================== *)

Section LineIsolation.
Context {R : Runtime}.

(** Whatever the body of the [try] raises, one of the three [except]
    clauses handles it, and none of them appends an entry. *)
Lemma line_handlers_catch (jsonl_path : Path) (line_no : nat) (e : exn) :
  exists out, dispatch e (line_handlers jsonl_path line_no) = Ok (None, out).
Proof.
  unfold line_handlers. destruct e as [cls msg].
  destruct cls; simpl; eauto;
    destruct (str_contains (py "validation error") (str_lower msg)); eauto.
Qed.

(** A line that is not blank yields its entry when it is valid and
    nothing otherwise; no exception leaves the handling of the line. *)
Lemma handle_line_classify (jsonl_path : Path) (line_no : nat) (line : pystr) :
  strip line <> [] ->
  exists out,
    handle_line jsonl_path line_no (strip line)
    = Ok (match classify line with Valid e => Some e | _ => None end, out).
Proof.
  intros Hne. unfold handle_line, line_body, classify.
  destruct (strip line) as [|c s] eqn:Es; [easy|].
  destruct (json_loads (c :: s)) as [j|e]; simpl.
  - destruct j; simpl; eauto.
    destruct (recognised (dict_get d (py "type"))); simpl; eauto.
    destruct (parse_transcript_entry d) as [entry|e]; simpl; eauto.
    apply line_handlers_catch.
  - apply line_handlers_catch.
Qed.

Lemma classify_blank (line : pystr) :
  strip line = [] -> classify line = Blank.
Proof. unfold classify. now intros ->. Qed.

(** When the file decodes to its end, the loop over the lines appends
    the entries of the valid lines, in file order, and returns. *)
Lemma read_loop_valid_entries (jsonl_path : Path) (lines : list pystr) :
  forall line_no, exists out,
    read_loop jsonl_path line_no lines None = Ok (valid_entries lines, out).
Proof.
  induction lines as [|line lines IH]; intros line_no; simpl; [eauto|].
  destruct (IH (S line_no)) as [outs Hs].
  destruct (str_truthy (strip line)) eqn:Et.
  - destruct (handle_line_classify jsonl_path line_no line) as [out ->].
    { intros E. now rewrite E in Et. }
    simpl. rewrite Hs. simpl. eexists. f_equal. f_equal.
    now destruct (classify line).
  - destruct (strip line) eqn:Es; [|discriminate].
    rewrite (classify_blank line Es). simpl. eauto.
Qed.

(** When the decoder fails, its error leaves the loop, whatever the
    lines read before it were. *)
Lemma read_loop_undecodable (jsonl_path : Path) (lines : list pystr)
    (msg : pystr) :
  forall line_no,
    read_loop jsonl_path line_no lines (Some msg)
    = raise UnicodeDecodeError msg.
Proof.
  induction lines as [|line lines IH]; intros line_no; simpl; [reflexivity|].
  rewrite IH. destruct (str_truthy (strip line)) eqn:Et; [|reflexivity].
  destruct (handle_line_classify jsonl_path line_no line) as [out ->].
  { intros E. now rewrite E in Et. }
  reflexivity.
Qed.

(** Parsing from the source: the result of the loop is what is
    returned (and what is saved to the cache). *)
Lemma load_transcript_from_source {S : Type} (fs : FileSystem)
    (jsonl_path : Path) (cache_manager : option (CacheManager S))
    (from_date to_date : option pystr) (silent : bool) (cache : S)
    (f : text_file) :
  read_lines fs jsonl_path = Some f ->
  undecodable f = None ->
  cached_entries cache_manager jsonl_path from_date to_date cache = None ->
  exists r,
    load_transcript fs jsonl_path cache_manager from_date to_date silent cache
    = Ok r /\
    entries r = valid_entries (decoded_lines f).
Proof.
  intros Hopen Hdec Hmiss. unfold load_transcript.
  rewrite Hmiss, Hopen. cbn [or_raise bind]. rewrite Hdec.
  destruct (read_loop_valid_entries jsonl_path (decoded_lines f) 0)
    as [out ->].
  simpl. eexists. split; reflexivity.
Qed.

(** At a byte sequence that is no UTF-8 the load fails, and the entries
    of the lines read before it are lost with it. *)
Lemma load_transcript_undecodable {S : Type} (fs : FileSystem)
    (jsonl_path : Path) (cache_manager : option (CacheManager S))
    (from_date to_date : option pystr) (silent : bool) (cache : S)
    (f : text_file) (msg : pystr) :
  read_lines fs jsonl_path = Some f ->
  undecodable f = Some msg ->
  cached_entries cache_manager jsonl_path from_date to_date cache = None ->
  load_transcript fs jsonl_path cache_manager from_date to_date silent cache
  = raise UnicodeDecodeError msg.
Proof.
  intros Hopen Hdec Hmiss. unfold load_transcript.
  rewrite Hmiss, Hopen. cbn [or_raise bind]. rewrite Hdec.
  now rewrite read_loop_undecodable.
Qed.

Lemma valid_entries_length (lines : list pystr) :
  List.length (valid_entries lines)
  = List.length (filter (fun line => match classify line with
                                     | Valid _ => true
                                     | _ => false
                                     end) lines).
Proof.
  induction lines as [|line lines IH]; [reflexivity|].
  unfold valid_entries in *. simpl.
  rewrite length_app, IH. now destruct (classify line).
Qed.

(** A file that can be read to its end is loaded without an exception,
    from the cache or from its lines. *)
Lemma load_transcript_returns {S : Type} (fs : FileSystem)
    (jsonl_path : Path) (cache_manager : option (CacheManager S))
    (from_date to_date : option pystr) (silent : bool) (cache : S) :
  readable fs jsonl_path ->
  exists r,
    load_transcript fs jsonl_path cache_manager from_date to_date silent cache
    = Ok r.
Proof.
  intros (f & Hopen & Hdec).
  destruct (cached_entries cache_manager jsonl_path from_date to_date cache)
    as [cached|] eqn:Ec.
  - unfold load_transcript. rewrite Ec. eauto.
  - destruct (load_transcript_from_source fs jsonl_path cache_manager
                from_date to_date silent cache Hopen Hdec Ec) as (r & Hr & _).
    eauto.
Qed.

(** C1. The claim fails on a file that opens but does not decode: the
    iteration over the file (line 155) is outside the [try] (line 158),
    so the [UnicodeDecodeError] of the strict decoder leaves
    [load_transcript], and with it every entry of the lines read
    before. Here, for every such file parsed from its source, whatever
    the lines that were decoded. *)
Theorem load_transcript_undecodable_file {S : Type} (fs : FileSystem)
    (jsonl_path : Path) (cache_manager : option (CacheManager S))
    (from_date to_date : option pystr) (silent : bool) (cache : S)
    (f : text_file) (msg : pystr) :
  read_lines fs jsonl_path = Some f ->
  undecodable f = Some msg ->
  cached_entries cache_manager jsonl_path from_date to_date cache = None ->
  exists e,
    load_transcript fs jsonl_path cache_manager from_date to_date silent cache
    = Raise e /\
    exn_cls e = UnicodeDecodeError /\
    issubclass (exn_cls e) Exception = true.
Proof.
  intros Hopen Hdec Hmiss.
  rewrite (load_transcript_undecodable fs jsonl_path cache_manager from_date
             to_date silent cache Hopen Hdec Hmiss).
  eexists. repeat split.
Qed.

(** X27. Per-line isolation, for a file that can be read to its end and
    is parsed from its source: [load_transcript] returns, and the
    entries are those of the valid lines, in file order, and as many;
    blank lines, malformed JSON, JSON that is no object, unrecognised
    types and entries that fail validation contribute nothing and
    raise nothing. *)
Theorem load_transcript_line_isolation {S : Type} (fs : FileSystem)
    (jsonl_path : Path) (cache_manager : option (CacheManager S))
    (from_date to_date : option pystr) (silent : bool) (cache : S)
    (f : text_file) :
  read_lines fs jsonl_path = Some f ->
  undecodable f = None ->
  cached_entries cache_manager jsonl_path from_date to_date cache = None ->
  exists r,
    load_transcript fs jsonl_path cache_manager from_date to_date silent cache
    = Ok r /\
    entries r = valid_entries (decoded_lines f) /\
    List.length (entries r)
    = List.length (filter (fun line => match classify line with
                                       | Valid _ => true
                                       | _ => false
                                       end) (decoded_lines f)).
Proof.
  intros Hopen Hdec Hmiss.
  destruct (load_transcript_from_source fs jsonl_path cache_manager
              from_date to_date silent cache Hopen Hdec Hmiss)
    as (r & Hr & He).
  exists r. split; [exact Hr|]. split; [exact He|].
  rewrite He. apply valid_entries_length.
Qed.

End LineIsolation.

(** The file of the integration test: it opens, and the load fails. *)
Lemma load_transcript_undecodable_file_witness :
  exists e,
    load_transcript (R := Demo.runtime Demo.known) MoreSamples.surrogate_files
      (py "logs/surrogate.jsonl") Demo.no_cache None None true tt = Raise e /\
    exn_cls e = UnicodeDecodeError /\
    issubclass (exn_cls e) Exception = true.
Proof.
  apply (load_transcript_undecodable_file (R := Demo.runtime Demo.known))
    with (f := MoreSamples.surrogate_file)
         (msg := py "'utf-8' codec can't decode byte 0xed in position 55: invalid continuation byte");
    reflexivity.
Defined.

(** The sample file [a.jsonl]: seven lines, two of them valid. *)
Lemma load_transcript_line_isolation_witness :
  exists r,
    load_transcript (R := Demo.runtime Demo.known) Demo.files
      (py "logs/a.jsonl") Demo.no_cache None None true tt = Ok r /\
    entries r = valid_entries (R := Demo.runtime Demo.known) Demo.file_a /\
    List.length (entries r) = 2.
Proof.
  destruct (load_transcript_line_isolation (R := Demo.runtime Demo.known)
              Demo.files (py "logs/a.jsonl") Demo.no_cache None None true tt
              (f := text_of Demo.file_a) eq_refl eq_refl eq_refl)
    as (r & Hr & He & Hn).
  exists r. split; [exact Hr|]. split; [exact He|].
  rewrite Hn. reflexivity.
Defined.

(** Scenario A of the specification: a user line whose content is
    ["hi"] is parsed into one user entry with that content. *)
Example parse_user_line :
  exists e,
    parse_transcript_entry (R := Demo.runtime [])
      (Demo.user_record "u1" "2025-01-01T00:00:00Z" []) = Ok (User e) /\
    user_content (user_message e) = ContentStr (py "hi") /\
    uuid (user_base e) = py "u1" /\
    timestamp (user_base e) = py "2025-01-01T00:00:00Z".
Proof. eexists. repeat split. Qed.

(* ================================================================== *)
(** * [load_directory_transcripts] *)
(* ================================================================== *)

Section Directory.
Context {R : Runtime} {S : Type}.
Variables (fs : FileSystem) (cache_manager : option (CacheManager S)).
Variables (from_date to_date : option pystr) (silent : bool).

(** The loop over the files returns the per-file lists, one after the
    other. *)
Lemma load_files_concat (jsonl_files : list Path) :
  (forall f, In f jsonl_files -> readable fs f) ->
  forall cache, exists r loads,
    load_files fs cache_manager from_date to_date silent jsonl_files cache
    = Ok r /\
    per_file fs cache_manager from_date to_date silent jsonl_files cache loads /\
    entries r = List.concat (map (@entries S) loads).
Proof.
  induction jsonl_files as [|f files IH]; intros Hopen cache; simpl.
  - exists (mk_loaded [] cache []), []. repeat split. constructor.
  - destruct (@load_transcript_returns R S fs f cache_manager from_date
                to_date silent cache (Hopen f (or_introl eq_refl)))
      as [r Hr].
    rewrite Hr. simpl.
    destruct (IH (fun g Hg => Hopen g (or_intror Hg)) (cache_state r))
      as (rs & loads & -> & Hp & He).
    simpl. do 2 eexists. split; [reflexivity|].
    split; [econstructor; eassumption|].
    simpl. now rewrite He.
Qed.

(** C5. When the files of the directory can be read to their end,
    [load_directory_transcripts] returns the per-file entry lists,
    concatenated and sorted ascending by the timestamp string, compared
    lexicographically: the result is a permutation of the
    concatenation, each entry's key is at most the key of every later
    one, and entries of equal key keep their order. The key of a user,
    assistant or system entry is its own [timestamp]; an entry without
    a timestamp field, so every summary, has the empty string as its
    key, and only entries of empty key stand before it. *)
Theorem load_directory_transcripts_sorted (directory_path : Path) (cache : S) :
  (forall f, In f (glob_jsonl fs directory_path) -> readable fs f) ->
  exists r loads,
    load_directory_transcripts fs directory_path cache_manager from_date
      to_date silent cache = Ok r /\
    per_file fs cache_manager from_date to_date silent
      (glob_jsonl fs directory_path) cache loads /\
    Permutation (entries r) (List.concat (map (@entries S) loads)) /\
    StronglySorted (key_le get_timestamp) (entries r) /\
    (forall k,
       filter (fun e => str_eqb (get_timestamp e) k) (entries r)
       = filter (fun e => str_eqb (get_timestamp e) k)
           (List.concat (map (@entries S) loads))) /\
    ((forall u, get_timestamp (User u) = timestamp (user_base u)) /\
     (forall a, get_timestamp (Assistant a) = timestamp (assistant_base a)) /\
     (forall y, get_timestamp (System y) = timestamp (system_base y)) /\
     (forall s, get_timestamp (Summary s) = [])) /\
    (forall e, entry_timestamp e = None -> get_timestamp e = []) /\
    (forall before s after,
       entries r = before ++ Summary s :: after ->
       Forall (fun e => get_timestamp e = []) before).
Proof.
  intros Hopen. unfold load_directory_transcripts.
  destruct (load_files_concat (glob_jsonl fs directory_path) Hopen cache)
    as (r & loads & -> & Hp & He).
  simpl. do 2 eexists. split; [reflexivity|]. split; [exact Hp|]. simpl.
  rewrite <- He.
  split; [apply list_sort_perm|]. split; [apply list_sort_sorted|].
  split; [intros k; apply list_sort_stable|].
  split; [repeat split|]. split.
  - intros e H. unfold get_timestamp. now rewrite H.
  - intros before s after E.
    eapply sorted_empty_key_first with (key := get_timestamp) (x := Summary s).
    + rewrite <- E. apply list_sort_sorted.
    + reflexivity.
Qed.

End Directory.

(** Scenario B of the specification: two files, the entry of
    [2025-01-02] in the first and that of [2025-01-01] in the second;
    the summary comes first, then the entry of [2025-01-01]. *)
Lemma load_directory_transcripts_sorted_witness :
  exists r,
    load_directory_transcripts (R := Demo.runtime Demo.known) Demo.files
      (py "logs") Demo.no_cache None None true tt = Ok r /\
    map get_timestamp (entries r)
    = [[]; py "2025-01-01T09:00:00Z"; py "2025-01-02T09:00:00Z"] /\
    StronglySorted (key_le get_timestamp) (entries r).
Proof.
  destruct (@load_directory_transcripts_sorted (Demo.runtime Demo.known) unit
              Demo.files Demo.no_cache None None true (py "logs") tt)
    as (r & loads & Hr & _ & _ & Hs & _).
  - intros f [<-|[<-|[]]]; eexists; split; reflexivity.
  - exists r. split; [exact Hr|]. split; [|exact Hs].
    vm_compute in Hr. injection Hr as <-. reflexivity.
Defined.

(* ================================================================== *)
(** * [filter_messages_by_date] *)
(* ================================================================== *)

(** On tuples of one length, [a < b] fails exactly when [b <= a]. *)
Lemma lex_ltb_false (a b : list Z) :
  List.length a = List.length b ->
  lex_ltb a b = false <-> lex_le b a.
Proof.
  revert b; induction a as [|x a IH]; intros [|y b]; simpl; try easy.
  intros [= Hlen].
  destruct (Z.ltb_spec x y), (Z.eqb_spec x y); try lia.
  rewrite (IH b Hlen). split; [now right|]. intros [H'|[_ H']]; [lia|easy].
Qed.

Lemma dt_lt_false (a b : datetime) :
  lex_ltb (dt_fields a) (dt_fields b) = false <-> dt_le b a.
Proof. apply lex_ltb_false. reflexivity. Qed.

Lemma datetime_lt_naive (a b : datetime) :
  tzinfo a = None -> tzinfo b = None ->
  datetime_lt a b = Ok (lex_ltb (dt_fields a) (dt_fields b)).
Proof. unfold datetime_lt. now intros -> ->. Qed.

Lemma datetime_gt_naive (a b : datetime) :
  tzinfo a = None -> tzinfo b = None ->
  datetime_gt a b = Ok (lex_ltb (dt_fields b) (dt_fields a)).
Proof. unfold datetime_gt, datetime_lt. now intros -> ->. Qed.

(** A naive and an aware datetime do not compare. *)
Lemma datetime_lt_mixed (a b : datetime) :
  tzinfo a = None -> tzinfo b <> None ->
  exists x, datetime_lt a b = Raise x /\ exn_cls x = TypeError.
Proof.
  unfold datetime_lt. intros -> Hb. destruct (tzinfo b); [|easy].
  eexists. split; reflexivity.
Qed.

(** A comparison raises nothing but [TypeError]. *)
Lemma datetime_lt_raises (a b : datetime) (x : exn) :
  datetime_lt a b = Raise x -> exn_cls x = TypeError.
Proof.
  unfold datetime_lt. destruct (tzinfo a), (tzinfo b); try discriminate;
    now intros [= <-].
Qed.

(** For a naive left side only its fields count. *)
Lemma datetime_lt_fields (a a' b : datetime) :
  tzinfo a = None -> tzinfo a' = None -> dt_fields a = dt_fields a' ->
  datetime_lt a b = datetime_lt a' b /\ datetime_gt a b = datetime_gt a' b.
Proof.
  unfold datetime_gt, datetime_lt. intros -> -> ->.
  now destruct (tzinfo b).
Qed.

(** The datetime of a message is naive when it is compared. *)
Lemma stripped_naive (dt : datetime) :
  tzinfo (match tzinfo dt with
          | Some _ => replace_tzinfo_None dt
          | None => dt
          end) = None.
Proof. now destruct (tzinfo dt) eqn:E. Qed.

Lemma replace_tzinfo_None_naive (dt : datetime) :
  tzinfo dt = None -> replace_tzinfo_None dt = dt.
Proof. destruct dt; simpl. now intros ->. Qed.

Lemma relative_day_iff (d : pystr) :
  is_relative_day d = true <-> relative_expression d.
Proof.
  unfold is_relative_day, relative_expression, str_in_list. cbn [existsb].
  rewrite !orb_true_iff, !str_eqb_eq, str_contains_iff.
  intuition discriminate.
Qed.

Section DateFilter.
Context {R : Runtime}.

Lemma entry_timestamp_None (e : TranscriptEntry) :
  entry_timestamp e = None <-> is_summary e.
Proof. destruct e; simpl; split; easy. Qed.

(** With naive bounds, one turn of the loop decides: the entry is kept
    exactly when it is a summary or its timestamp is in range. *)
Lemma keeps_in_range (from_dt to_dt : option datetime) (e : TranscriptEntry) :
  naive from_dt -> naive to_dt ->
  exists k,
    keeps from_dt to_dt e = Ok k /\
    (k = true <-> is_summary e \/ in_range from_dt to_dt e).
Proof.
  intros Hf Ht. unfold keeps, in_range.
  destruct (entry_timestamp e) as [ts|] eqn:Ets.
  2:{ exists true. split; [reflexivity|].
      split; [left; now apply entry_timestamp_None|reflexivity]. }
  assert (Hns : ~ is_summary e)
    by (rewrite <- entry_timestamp_None; congruence).
  destruct ts as [|c ts]; simpl.
  { exists false. split; [reflexivity|].
    split; [discriminate|]. intros [H|(ts' & dt & [= <-] & H & _)]; easy. }
  destruct (parse_timestamp (c :: ts)) as [dt|] eqn:Ep.
  2:{ exists false. split; [reflexivity|]. split; [discriminate|].
      intros [H|(ts' & dt & [= <-] & _ & H & _)]; [easy|congruence]. }
  assert (Em : match tzinfo dt with
               | Some _ => replace_tzinfo_None dt
               | None => dt
               end = replace_tzinfo_None dt).
  { destruct (tzinfo dt) eqn:E; [reflexivity|].
    symmetry. now apply replace_tzinfo_None_naive. }
  rewrite Em. set (m := replace_tzinfo_None dt).
  assert (Hiff : forall k,
            (k = true <-> within from_dt to_dt m) ->
            (k = true <->
             is_summary e \/
             (exists ts' dt',
                Some (c :: ts) = Some ts' /\ ts' <> [] /\
                parse_timestamp ts' = Some dt' /\
                within from_dt to_dt (replace_tzinfo_None dt')))).
  { intros k Hk. rewrite Hk. split.
    - intros H. right. exists (c :: ts), dt.
      split; [reflexivity|]. split; [discriminate|]. split; [exact Ep|exact H].
    - intros [H|(ts' & dt' & [= <-] & _ & Hp & H)]; [easy|].
      rewrite Ep in Hp. now injection Hp as <-. }
  destruct from_dt as [f|]; cbn [naive] in Hf.
  - rewrite (datetime_lt_naive m f eq_refl Hf). cbn [bind].
    destruct (lex_ltb (dt_fields m) (dt_fields f)) eqn:Elt.
    + exists false. split; [reflexivity|]. apply Hiff. unfold within.
      split; [discriminate|]. intros [H _].
      apply dt_lt_false in H. congruence.
    + apply dt_lt_false in Elt.
      destruct to_dt as [t|]; cbn [naive] in Ht.
      * rewrite (datetime_gt_naive m t eq_refl Ht). cbn [bind].
        eexists. split; [reflexivity|]. apply Hiff. unfold within.
        rewrite negb_true_iff, dt_lt_false. tauto.
      * cbn [bind]. exists true. split; [reflexivity|]. apply Hiff.
        unfold within. tauto.
  - cbn [bind]. destruct to_dt as [t|]; cbn [naive] in Ht.
    + rewrite (datetime_gt_naive m t eq_refl Ht). cbn [bind].
      eexists. split; [reflexivity|]. apply Hiff. unfold within.
      rewrite negb_true_iff, dt_lt_false. tauto.
    + cbn [bind]. exists true. split; [reflexivity|]. apply Hiff.
      unfold within. tauto.
Qed.

(** With naive bounds the loop returns, and what it returns is the
    input filtered by the test of one turn. *)
Lemma filter_loop_filter (from_dt to_dt : option datetime)
    (messages : list TranscriptEntry) :
  naive from_dt -> naive to_dt ->
  filter_loop from_dt to_dt messages
  = Ok (filter (fun e => match keeps from_dt to_dt e with
                         | Ok k => k
                         | Raise _ => false
                         end) messages).
Proof.
  intros Hf Ht. induction messages as [|e messages IH]; [reflexivity|].
  simpl. destruct (keeps_in_range _ _ e Hf Ht) as (k & -> & _).
  simpl. rewrite IH. simpl. now destruct k.
Qed.

(** Whatever the bounds, what the loop returns is a subsequence of its
    input. *)
Lemma filter_loop_subseq (from_dt to_dt : option datetime)
    (messages out : list TranscriptEntry) :
  filter_loop from_dt to_dt messages = Ok out -> subseq out messages.
Proof.
  revert out; induction messages as [|e messages IH]; intros out; simpl.
  - intros [= <-]. constructor.
  - intros H. apply bind_Ok in H as (k & _ & H).
    apply bind_Ok in H as (filtered & Hf & [= <-]).
    destruct k; constructor; now apply IH.
Qed.

Lemma subseq_refl {A} (l : list A) : subseq l l.
Proof. induction l; now constructor. Qed.

(** C6, as amended. When a bound is given and the given bounds resolve
    to naive datetimes (as the comment of line 111 expects of the date
    parser), the filter returns the
    input filtered by a test that an entry passes exactly when it is a
    summary, or its own timestamp is there, parses, and without its
    time zone lies within the resolved bounds. So every summary is
    retained whatever the bounds, and an entry with an empty or
    unparseable timestamp is excluded. *)
Theorem filter_messages_by_date_retains (messages : list TranscriptEntry)
    (from_date to_date : option pystr) (from_dt to_dt : option datetime) :
  given from_date || given to_date = true ->
  resolve_from from_date = Ok from_dt ->
  resolve_to to_date = Ok to_dt ->
  naive from_dt -> naive to_dt ->
  exists retained : TranscriptEntry -> bool,
    filter_messages_by_date messages from_date to_date
    = Ok (filter retained messages) /\
    (forall e, retained e = true <->
               is_summary e \/ in_range from_dt to_dt e) /\
    (forall e, is_summary e -> retained e = true) /\
    (forall e ts, entry_timestamp e = Some ts ->
                  ts = [] \/ parse_timestamp ts = None ->
                  retained e = false).
Proof.
  intros Hg Hfrom Hto Hf Ht.
  set (retained := fun e => match keeps from_dt to_dt e with
                            | Ok k => k
                            | Raise _ => false
                            end).
  assert (Hr : forall e, retained e = true <->
                         is_summary e \/ in_range from_dt to_dt e).
  { intros e. unfold retained.
    destruct (keeps_in_range _ _ e Hf Ht) as (k & -> & Hk). exact Hk. }
  exists retained. split; [|split; [exact Hr|split]].
  - unfold filter_messages_by_date.
    destruct (given from_date), (given to_date); try discriminate; simpl;
      rewrite Hfrom, Hto; simpl; now apply filter_loop_filter.
  - intros e He. apply Hr. now left.
  - intros e ts Ets Hbad.
    destruct (retained e) eqn:E; [|reflexivity].
    apply Hr in E as [E|(ts' & dt & Ets' & Hne & Hp & _)].
    + apply entry_timestamp_None in E. congruence.
    + rewrite Ets in Ets'. injection Ets' as <-.
      destruct Hbad; congruence.
Qed.

(** C9. Without a range ([None] or the empty string for both bounds)
    the filter returns its input; and whatever the bounds, a list it
    returns is a subsequence of the input: entries of the input, in
    their order, none twice. *)
Theorem filter_messages_by_date_subseq (messages : list TranscriptEntry) :
  filter_messages_by_date messages None None = Ok messages /\
  (forall from_date to_date,
     given from_date = false -> given to_date = false ->
     filter_messages_by_date messages from_date to_date = Ok messages) /\
  (forall from_date to_date out,
     filter_messages_by_date messages from_date to_date = Ok out ->
     subseq out messages).
Proof.
  split; [reflexivity|]. split.
  - intros from_date to_date Hf Ht. unfold filter_messages_by_date.
    now rewrite Hf, Ht.
  - intros from_date to_date out. unfold filter_messages_by_date.
    destruct (negb (given from_date) && negb (given to_date)).
    + intros [= <-]. apply subseq_refl.
    + intros H. apply bind_Ok in H as (from_dt & _ & H).
      apply bind_Ok in H as (to_dt & _ & H).
      eapply filter_loop_subseq, H.
Qed.

End DateFilter.

(** Scenario C of the specification: with [from_date = "today"] the
    entry of the day and the summary stay; the entry of two days before
    and the one without a readable timestamp go. *)
Example filter_from_today :
  filter_messages_by_date (R := Demo.runtime []) Demo.some_messages
    (Some (py "today")) None
  = Ok [Demo.user_at "u3" "2025-01-03T10:00:00.000Z"; Demo.a_summary].
Proof. reflexivity. Qed.

Lemma filter_messages_by_date_retains_witness :
  exists retained : TranscriptEntry -> bool,
    filter_messages_by_date (R := Demo.runtime []) Demo.some_messages
      (Some (py "today")) None
    = Ok (filter retained Demo.some_messages) /\
    (forall e, retained e = true <->
               is_summary e \/
               in_range (R := Demo.runtime [])
                 (Some (mk_datetime 2025 1 3 0 0 0 0 None)) None e) /\
    (forall e, is_summary e -> retained e = true) /\
    (forall e ts, entry_timestamp e = Some ts ->
                  ts = [] \/ parse_timestamp (R := Demo.runtime []) ts = None ->
                  retained e = false).
Proof.
  apply (filter_messages_by_date_retains (R := Demo.runtime []));
    reflexivity.
Defined.

(** C6 as it is written fails for a bound that carries a UTC offset:
    the date parser resolves it to an aware datetime, the comparison
    with the naive datetime of the first dated entry raises
    [TypeError], and no list is returned, so the summary is not
    retained either. *)
Lemma filter_messages_by_date_aware_bound :
  (exists x,
     filter_messages_by_date (R := Demo.runtime [])
       [Demo.a_summary; Demo.user_at "u1" "2025-01-02T10:00:00.000Z"]
       (Some (py "2025-01-01T00:00:00+00:00")) None = Raise x /\
     exn_cls x = TypeError) /\
  ~ (exists out,
       filter_messages_by_date (R := Demo.runtime [])
         [Demo.a_summary; Demo.user_at "u1" "2025-01-02T10:00:00.000Z"]
         (Some (py "2025-01-01T00:00:00+00:00")) None = Ok out /\
       In Demo.a_summary out).
Proof.
  split.
  - eexists. split; reflexivity.
  - intros (out & H & _). vm_compute in H. discriminate.
Qed.

Lemma filter_messages_by_date_subseq_witness :
  subseq [Demo.user_at "u3" "2025-01-03T10:00:00.000Z"; Demo.a_summary]
    Demo.some_messages.
Proof.
  apply (proj2 (proj2 (filter_messages_by_date_subseq
                         (R := Demo.runtime []) Demo.some_messages))
           (Some (py "today")) None).
  reflexivity.
Defined.

(* ================================================================== *)
(** * The bounds of the date filter *)
(* ================================================================== *)

Lemma string_of_uint_digits (d : Decimal.uint) :
  Forall is_digit (py (DecimalString.NilEmpty.string_of_uint d)).
Proof.
  unfold py, is_digit.
  induction d; simpl; constructor; try assumption; simpl; lia.
Qed.

(** [str(n)] is made of digits. *)
Lemma str_of_N_digits (n : N) : Forall is_digit (str_of_N n).
Proof.
  unfold str_of_N, DecimalString.NilZero.string_of_uint.
  destruct (N.to_uint n) eqn:E; try (rewrite <- E; apply string_of_uint_digits).
  unfold py, is_digit. simpl. constructor; [lia|constructor].
Qed.

Section Bounds.
Context {R : Runtime}.

(** C7, as amended. For a given bound [d] that the date parser reads
    as [dt]: when [d] is ["today"], ["yesterday"], or holds
    ["days ago"] anywhere (so for ["N days ago"] with any [N], and for
    longer expressions that hold these words), the lower bound is [dt]
    at 00:00:00.000000 and the upper bound is [dt] at 23:59:59.999999
    of the same day; for every other expression both bounds are [dt]
    itself. *)
Theorem resolve_bounds_widening (d : pystr) (dt : datetime) :
  d <> [] ->
  dateparser_parse d = Some dt ->
  (relative_expression d ->
   resolve_from (Some d) = Ok (Some (replace_time dt 0 0 0 0)) /\
   resolve_to (Some d) = Ok (Some (replace_time dt 23 59 59 999999))) /\
  (~ relative_expression d ->
   resolve_from (Some d) = Ok (Some dt) /\
   resolve_to (Some d) = Ok (Some dt)) /\
  (forall n : N, relative_expression (str_of_N n ++ py " days ago")).
Proof.
  intros Hne Hp.
  assert (Ht : str_truthy d = true) by now destruct d.
  unfold resolve_from, resolve_to. rewrite Ht, Hp.
  split; [|split].
  - intros H. apply relative_day_iff in H. now rewrite H.
  - intros H. destruct (is_relative_day d) eqn:E; [|now split].
    apply relative_day_iff in E. contradiction.
  - intros n. right. right. exists (str_of_N n ++ py " "), [].
    rewrite app_nil_r, <- app_assoc. reflexivity.
Qed.

End Bounds.

Lemma resolve_bounds_widening_witness :
  resolve_from (R := Demo.runtime []) (Some (py "2 days ago"))
  = Ok (Some (mk_datetime 2025 1 1 0 0 0 0 None)) /\
  resolve_to (R := Demo.runtime []) (Some (py "2 days ago"))
  = Ok (Some (mk_datetime 2025 1 1 23 59 59 999999 None)).
Proof.
  apply (proj1 (resolve_bounds_widening (R := Demo.runtime [])
                  (d := py "2 days ago")
                  (dt := mk_datetime 2025 1 1 12 34 56 789000 None)
                  ltac:(discriminate) eq_refl)).
  right. right. exists (py "2 "), []. reflexivity.
Defined.

(** The upper bound of ["today"] ends in microsecond 999999, not in
    millisecond 999; and an expression that is none of ["today"],
    ["yesterday"] and ["N days ago"] but holds the words ["days ago"]
    is widened to the start of the day, not left at the instant the
    date parser returns. *)
Lemma resolve_bounds_not_as_claimed :
  (exists bound,
     resolve_to (R := Demo.runtime []) (Some (py "today")) = Ok (Some bound) /\
     (hour bound, minute bound, second bound) = (23, 59, 59)%Z /\
     microsecond bound = 999999%Z /\
     microsecond bound <> 999000%Z) /\
  (let d := py "1 week, 2 days ago" in
   d <> py "today" /\ d <> py "yesterday" /\
   (forall n : N, d <> str_of_N n ++ py " days ago") /\
   exists parsed bound,
     dateparser_parse (Runtime := Demo.runtime []) d = Some parsed /\
     resolve_from (R := Demo.runtime []) (Some d) = Ok (Some bound) /\
     bound <> parsed).
Proof.
  split.
  - eexists. split; [reflexivity|]. repeat split. discriminate.
  - cbv zeta. split; [discriminate|]. split; [discriminate|]. split.
    + intros n E.
      change (py "1 week, 2 days ago")
        with (py "1 week, 2" ++ py " days ago") in E.
      apply app_inv_tail in E.
      pose proof (str_of_N_digits n) as Hd. rewrite <- E in Hd.
      unfold py in Hd. simpl in Hd.
      inversion Hd as [|? ? _ Hd1]; subst.
      inversion Hd1 as [|? ? Hsp _]; subst.
      unfold is_digit in Hsp. lia.
    + do 2 eexists. split; [reflexivity|]. split; [reflexivity|].
      discriminate.
Qed.

(* ================================================================== *)
(** * The Unicode sanitizer is idempotent *)
(* ================================================================== *)

Module SanitizerFacts.
Import Sanitizer.

Lemma replacement_encodes (r : replacement) :
  encode_char (replacement_char r) <> None.
Proof. destruct r; discriminate. Qed.

Lemma replace_invalid_encodes (r : replacement) (c : N) :
  encode_char (replace_invalid r c) <> None.
Proof.
  unfold replace_invalid. destruct (encode_char c) eqn:E.
  - congruence.
  - apply replacement_encodes.
Qed.

(** Safety: after the replacement the text encodes as UTF-8. *)
Lemma replaced_text_encodes (r : replacement) (s : pystr) :
  exists bytes, encode_utf8 (map (replace_invalid r) s) = Some bytes.
Proof.
  induction s as [|c s [bytes IH]]; simpl; [eauto|].
  destruct (encode_char (replace_invalid r c)) as [b|] eqn:E.
  - rewrite IH. eauto.
  - now apply replace_invalid_encodes in E.
Qed.

(** A text that encodes is returned as it is. *)
Lemma sanitize_clean (r : replacement) (s : pystr) (bytes : list N) :
  encode_utf8 s = Some bytes -> sanitize r (Some s) = Some s.
Proof.
  intros H. unfold sanitize. destruct s; [reflexivity|]. now rewrite H.
Qed.

(** A text that does not encode has each invalid code point replaced. *)
Lemma sanitize_dirty (r : replacement) (s : pystr) :
  encode_utf8 s = None -> sanitize r (Some s) = Some (map (replace_invalid r) s).
Proof.
  intros H. unfold sanitize. destruct s; [discriminate|]. now rewrite H.
Qed.

(** C8. Whichever of the two replacement characters is used, the
    sanitizer is idempotent: sanitising a sanitised text changes
    nothing. [None] and the empty string are returned unchanged. *)
Theorem sanitize_idempotent (r : replacement) (x : option pystr) :
  sanitize r (sanitize r x) = sanitize r x /\
  sanitize r None = None /\
  sanitize r (Some []) = Some [].
Proof.
  split; [|split; reflexivity].
  destruct x as [[|c s]|]; try reflexivity.
  destruct (encode_utf8 (c :: s)) as [bytes|] eqn:E.
  - now rewrite !(sanitize_clean r _ E).
  - rewrite (sanitize_dirty r _ E).
    destruct (replaced_text_encodes r (c :: s)) as [bytes H].
    apply (sanitize_clean r _ H).
Qed.

(** The texts of the tests: every surrogate is replaced, the rest is
    kept. *)
Example sanitize_surrogates :
  sanitize ReplacementCharacter
    (Some (py "a " ++ [0xD83D%N] ++ py " b " ++ [0xDE00%N]))
  = Some (py "a " ++ [0xFFFD%N] ++ py " b " ++ [0xFFFD%N]).
Proof. reflexivity. Qed.

End SanitizerFacts.

(* ================================================================== *)
(** * Message content: parsing and text extraction *)
(* ================================================================== *)

Section Content.
Context {R : Runtime}.

(** The outer [except Exception] makes the parser of one item total. *)
Lemma parse_content_item_Ok (item_data : json) :
  exists block, parse_content_item item_data = Ok block.
Proof.
  unfold parse_content_item. rewrite try_except_Exception.
  destruct (parse_content_item_body item_data); unfold TextContent_fallback;
    eauto.
Qed.

Lemma comprehension_items (l : list json) :
  exists items,
    comprehension parse_content_item l = Ok items /\
    Forall2 (fun item block => parse_content_item item = Ok block) l items.
Proof.
  destruct (comprehension_Ok parse_content_item l) as [items H].
  - intros x _. apply parse_content_item_Ok.
  - exists items. split; [exact H|]. now apply comprehension_Forall2.
Qed.

(** X1. [parse_message_content] returns for every parsed JSON value. A
    string is passed through as it is; a list of [n] items becomes a
    list of [n] blocks, the block at each place being what
    [parse_content_item] returns for the item there (nothing is
    dropped, whatever the items are). *)
Theorem parse_message_content_shape (content_data : json) :
  exists content,
    parse_message_content content_data = Ok content /\
    (forall s, content_data = JStr s -> content = ContentStr s) /\
    (forall l, content_data = JList l ->
       exists items,
         content = ContentList items /\
         List.length items = List.length l /\
         Forall2 (fun item block => parse_content_item item = Ok block)
           l items).
Proof.
  destruct content_data; simpl;
    try (eexists; split; [reflexivity|]; split; intros; discriminate).
  - eexists. split; [reflexivity|]. split; [congruence|discriminate].
  - destruct (comprehension_items l) as (items & -> & Hall). simpl.
    eexists. split; [reflexivity|]. split; [discriminate|].
    intros l' [= <-]. exists items. split; [reflexivity|].
    split; [|exact Hall]. symmetry. eapply Forall2_length, Hall.
Qed.

Lemma text_parts_app (l1 l2 : list ContentItem) :
  text_parts (l1 ++ l2) = text_parts l1 ++ text_parts l2.
Proof.
  induction l1 as [|item l1 IH]; [reflexivity|].
  destruct item; simpl; now rewrite IH.
Qed.

Lemma join_app (sep : pystr) (a b : list pystr) :
  a <> [] -> b <> [] ->
  join sep (a ++ b) = join sep a ++ sep ++ join sep b.
Proof.
  intros Ha Hb. induction a as [|x a IH]; [easy|].
  destruct a as [|y a].
  - simpl. destruct b; [easy|reflexivity].
  - change (join sep ((x :: y :: a) ++ b))
      with (x ++ sep ++ join sep ((y :: a) ++ b)).
    rewrite IH by discriminate. simpl. now rewrite <- !app_assoc.
Qed.

(** X2. Blocks that carry no text (thinking, tool use, tool result,
    image) contribute nothing to the extracted text: taking them out
    of the content leaves [extract_text_content] unchanged. *)
Theorem extract_text_content_text_only (l : list ContentItem) :
  extract_text_content (Some (ContentList (filter is_text_item l)))
  = extract_text_content (Some (ContentList l)).
Proof.
  unfold extract_text_content. f_equal.
  induction l as [|item l IH]; [reflexivity|].
  destruct item; simpl; now rewrite ?IH.
Qed.

(** X3. The text of a content list made of two parts is the text of
    the first, a newline, and the text of the second, when both parts
    hold a text block; when one holds none, it is the text of the
    other. No newline is added for blocks that carry no text. *)
Theorem extract_text_content_app (l1 l2 : list ContentItem) :
  extract_text_content (Some (ContentList (l1 ++ l2)))
  = match text_parts l1, text_parts l2 with
    | [], _ => extract_text_content (Some (ContentList l2))
    | _, [] => extract_text_content (Some (ContentList l1))
    | _, _ => extract_text_content (Some (ContentList l1))
              ++ [10%N] ++ extract_text_content (Some (ContentList l2))
    end.
Proof.
  unfold extract_text_content. rewrite text_parts_app.
  destruct (text_parts l1) as [|x a] eqn:E1; [reflexivity|].
  destruct (text_parts l2) as [|y b] eqn:E2; [now rewrite app_nil_r|].
  apply join_app; discriminate.
Qed.

End Content.

Lemma parse_message_content_shape_witness :
  exists content items,
    parse_message_content (R := Demo.runtime []) (JList Demo.mixed_tool_result)
    = Ok content /\
    content = ContentList items /\ List.length items = 2.
Proof.
  destruct (parse_message_content_shape (R := Demo.runtime [])
              (JList Demo.mixed_tool_result)) as (content & Hc & _ & Hl).
  destruct (Hl Demo.mixed_tool_result eq_refl) as (items & Hi & Hn & _).
  exists content, items. repeat split; assumption.
Defined.

(** Text, thinking, text: two lines. *)
Example extract_mixed_content :
  extract_text_content (Some (ContentList MoreSamples.mixed_content))
  = py "one" ++ [10%N] ++ py "two".
Proof. reflexivity. Qed.

(* ================================================================== *)
(** * [parse_transcript_entry]: what it returns and what it raises *)
(* ================================================================== *)

Section EntryParser.
Context {R : Runtime}.

(** ** Validation raises validation errors only *)

Lemma field_raises {A} m (v : json -> option A) d k e :
  field m v d k = Raise e -> exn_cls e = ValidationError.
Proof.
  unfold field. destruct (dict_get d k) as [j|]; [|now intros [= <-]].
  destruct (v j); [discriminate|now intros [= <-]].
Qed.

Lemma field_opt_raises {A} m (v : json -> option A) d k e :
  field_opt m v d k = Raise e -> exn_cls e = ValidationError.
Proof.
  unfold field_opt. destruct (dict_get d k); [|discriminate].
  apply field_nullable_raises.
Qed.

Lemma literal_raises m d k lit e :
  literal m d k lit = Raise e -> exn_cls e = ValidationError.
Proof.
  unfold literal. destruct (dict_get d k) as [j|]; [|now intros [= <-]].
  destruct (json_is_str j lit); [discriminate|now intros [= <-]].
Qed.

Lemma field_Ok {A} m (v : json -> option A) d k a :
  field m v d k = Ok a -> exists j, dict_get d k = Some j /\ v j = Some a.
Proof.
  unfold field. destruct (dict_get d k) as [j|]; [|discriminate].
  destruct (v j) eqn:E; [|discriminate]. intros [= <-]. eauto.
Qed.

Lemma literal_Ok m d k lit u :
  literal m d k lit = Ok u -> dict_get d k = Some (JStr lit).
Proof.
  unfold literal. destruct (dict_get d k) as [j|]; [|discriminate].
  destruct (json_is_str j lit) eqn:E; [|discriminate].
  apply json_is_str_true in E. now subst.
Qed.

(** One step of a chain of validations: either the step raised, and
    then a validation error, or go on with its value. *)
Ltac validation_step H :=
  match type of H with
  | bind ?c _ = Raise _ =>
      let E := fresh "E" in
      destruct c eqn:E; cbn [bind] in H;
      [|injection H as <-;
        first [ eapply field_raises; eassumption
              | eapply field_opt_raises; eassumption
              | eapply field_nullable_raises; eassumption
              | eapply literal_raises; eassumption
              | eassumption
              | eauto ]]
  end.

Lemma Base_validate_raises m d e :
  Base_validate m d = Raise e -> exn_cls e = ValidationError.
Proof.
  unfold Base_validate. intros H. do 9 validation_step H. discriminate.
Qed.

Lemma Base_validate_fields m d b :
  Base_validate m d = Ok b ->
  (exists j, dict_get d (py "uuid") = Some j /\ pydantic_str j = Some (uuid b)) /\
  (exists j, dict_get d (py "timestamp") = Some j /\
             pydantic_str j = Some (timestamp b)).
Proof.
  unfold Base_validate. intros H.
  apply bind_Ok in H as (p & _ & H). apply bind_Ok in H as (sc & _ & H).
  apply bind_Ok in H as (ut & _ & H). apply bind_Ok in H as (c & _ & H).
  apply bind_Ok in H as (sid & _ & H). apply bind_Ok in H as (v & _ & H).
  apply bind_Ok in H as (u & Hu & H). apply bind_Ok in H as (ts & Hts & H).
  apply bind_Ok in H as (im & _ & H). injection H as <-. simpl.
  split; eapply field_Ok; eassumption.
Qed.

Lemma UserMessage_validate_raises m s e :
  UserMessage_validate m s = Raise e -> exn_cls e = ValidationError.
Proof.
  destruct s; simpl; try now intros [= <-].
  intros H. validation_step H. discriminate.
Qed.

Lemma toolUseResult_validate_raises m s e :
  toolUseResult_validate m s = Raise e -> exn_cls e = ValidationError.
Proof.
  destruct s as [[j|]|items]; simpl; try discriminate.
  destruct j; try discriminate;
    (destruct (ToolUseResult_validate _); [discriminate|now intros [= <-]]).
Qed.

Lemma UserTranscriptEntry_raises data message tool e :
  UserTranscriptEntry_model_validate data message tool = Raise e ->
  exn_cls e = ValidationError.
Proof.
  unfold UserTranscriptEntry_model_validate. intros H.
  destruct (Base_validate _ data) eqn:Eb; cbn [bind] in H;
    [|injection H as <-; eapply Base_validate_raises; eassumption].
  validation_step H.
  destruct (UserMessage_validate _ message) eqn:Em; cbn [bind] in H;
    [|injection H as <-; eapply UserMessage_validate_raises; eassumption].
  destruct (toolUseResult_validate _ tool) eqn:Et; cbn [bind] in H;
    [discriminate|].
  injection H as <-. eapply toolUseResult_validate_raises; eassumption.
Qed.

Lemma AssistantMessage_validate_raises m s e :
  AssistantMessage_validate m s = Raise e -> exn_cls e = ValidationError.
Proof.
  destruct s as [| |d content u]; simpl; try now intros [= <-].
  intros H. do 4 validation_step H.
  destruct content; cbn [bind] in H; [now injection H as <-|].
  do 2 validation_step H. discriminate.
Qed.

Lemma AssistantTranscriptEntry_raises data message e :
  AssistantTranscriptEntry_model_validate data message = Raise e ->
  exn_cls e = ValidationError.
Proof.
  unfold AssistantTranscriptEntry_model_validate. intros H.
  destruct (Base_validate _ data) eqn:Eb; cbn [bind] in H;
    [|injection H as <-; eapply Base_validate_raises; eassumption].
  validation_step H.
  destruct (AssistantMessage_validate _ message) eqn:Em; cbn [bind] in H;
    [|injection H as <-; eapply AssistantMessage_validate_raises; eassumption].
  validation_step H. discriminate.
Qed.

Lemma SummaryTranscriptEntry_raises data e :
  SummaryTranscriptEntry_model_validate data = Raise e ->
  exn_cls e = ValidationError.
Proof.
  unfold SummaryTranscriptEntry_model_validate. intros H.
  do 4 validation_step H. discriminate.
Qed.

Lemma SystemTranscriptEntry_raises data e :
  SystemTranscriptEntry_model_validate data = Raise e ->
  exn_cls e = ValidationError.
Proof.
  unfold SystemTranscriptEntry_model_validate. intros H.
  destruct (Base_validate _ data) eqn:Eb; cbn [bind] in H;
    [|injection H as <-; eapply Base_validate_raises; eassumption].
  do 3 validation_step H. discriminate.
Qed.

End EntryParser.

Section EntryFacts.
Context {R : Runtime}.

Lemma parse_message_content_Ok (content_data : json) :
  exists content, parse_message_content content_data = Ok content.
Proof.
  destruct content_data; simpl; eauto.
  destruct (comprehension_items l) as (items & -> & _). simpl. eauto.
Qed.

Lemma parse_message_content_list (c : json) (items : list ContentItem) :
  parse_message_content c = Ok (ContentList items) ->
  exists l, c = JList l /\
    Forall2 (fun item block => parse_content_item item = Ok block) l items.
Proof.
  destruct c; simpl; try discriminate.
  intros H. apply bind_Ok in H as (items' & Hc & [= <-]).
  exists l. split; [reflexivity|]. now apply comprehension_Forall2.
Qed.

Lemma dict_has_get (d : dict) (k : pystr) :
  dict_has d k = true -> exists v, dict_get d k = Some v.
Proof. unfold dict_has. destruct (dict_get d k); [eauto|discriminate]. Qed.

(** ** The message of a user record *)

Lemma user_message_slot_raises (data : dict) (e : exn) :
  user_message_slot data = Raise e ->
  (exn_cls e = TypeError \/ exn_cls e = AttributeError) /\
  exists m, dict_get data (py "message") = Some m /\ is_dict m = false.
Proof.
  unfold user_message_slot.
  destruct (dict_get data (py "message")) as [m|]; [|discriminate].
  destruct m; simpl;
    try (intros [= <-]; split; [now left|eexists; split; reflexivity]).
  - destruct (str_contains (py "content") s); simpl; [|discriminate].
    intros [= <-]. split; [now right|eexists; split; reflexivity].
  - destruct (existsb _ l); simpl; [|discriminate].
    intros [= <-]. split; [now left|eexists; split; reflexivity].
  - destruct (dict_has d (py "content")) eqn:Eh; simpl; [|discriminate].
    destruct (dict_has_get _ _ Eh) as [c ->]. simpl.
    destruct (parse_message_content_Ok c) as [content ->]. discriminate.
Qed.

Lemma user_message_slot_Parsed (data d : dict) (content : MessageContent) u :
  user_message_slot data = Ok (Parsed d content u) ->
  dict_get data (py "message") = Some (JDict d) /\
  exists c, dict_get d (py "content") = Some c /\
            parse_message_content c = Ok content.
Proof.
  unfold user_message_slot.
  destruct (dict_get data (py "message")) as [m|]; [|discriminate].
  destruct m; simpl; try discriminate.
  - destruct (str_contains (py "content") s); simpl; discriminate.
  - destruct (existsb _ l); simpl; discriminate.
  - destruct (dict_has d0 (py "content")) eqn:Eh; simpl; [|discriminate].
    destruct (dict_has_get _ _ Eh) as [c Hc]. rewrite Hc. simpl.
    destruct (parse_message_content c) as [content'|] eqn:Ep; simpl;
      [|discriminate].
    intros [= <- <-]. split; [reflexivity|]. eauto.
Qed.

Lemma user_tool_slot_Ok (data : dict) :
  exists s, user_tool_slot data = Ok s.
Proof.
  unfold user_tool_slot.
  destruct (dict_get data (py "toolUseResult")) as [j|]; [|eauto].
  destruct j; eauto. destruct l as [|first rest]; [eauto|].
  destruct first; eauto.
  destruct (dict_has d (py "type")); [|eauto].
  destruct (comprehension_items (filter is_dict (JDict d :: rest)))
    as (items & -> & _).
  simpl. eauto.
Qed.

(** ** The message of an assistant record *)

Lemma normalize_json_raises (j : json) (e : exn) :
  normalize_usage_info (UsageJson j) = Raise e ->
  exn_cls e = ValidationError.
Proof.
  destruct j; simpl; try discriminate.
  destruct (UsageInfo_model_validate d) eqn:E; simpl; [discriminate|].
  intros [= <-]. eapply UsageInfo_init_raises, E.
Qed.

Lemma compatibility_check_Ok (message : json) :
  try_except (AnthropicMessage_model_validate message)
    [([Exception], fun _ => Ok tt)] = Ok tt.
Proof.
  rewrite try_except_Exception.
  now destruct (AnthropicMessage_model_validate message) as [[]|].
Qed.

Lemma assistant_message_slot_raises (data : dict) (e : exn) :
  assistant_message_slot data = Raise e ->
  exn_cls e = ValidationError \/
  (exn_cls e = TypeError \/ exn_cls e = AttributeError) /\
  exists m, dict_get data (py "message") = Some m /\ is_dict m = false.
Proof.
  unfold assistant_message_slot.
  destruct (dict_get data (py "message")) as [m|]; [|discriminate].
  rewrite compatibility_check_Ok. cbn [bind].
  destruct m; cbn [json_contains bind];
    try (intros [= <-]; right; split; [now left|eexists; split; reflexivity]).
  - destruct (str_contains (py "content") s); simpl; [|discriminate].
    intros [= <-]. right. split; [now right|eexists; split; reflexivity].
  - destruct (existsb _ l); simpl; [|discriminate].
    intros [= <-]. right. split; [now left|eexists; split; reflexivity].
  - destruct (dict_has d (py "content")) eqn:Eh; cbn [bind json_copy];
      [|discriminate].
    destruct (dict_has_get _ _ Eh) as [c ->]. cbn [bind or_raise].
    destruct (parse_message_content_Ok c) as [content ->]. cbn [bind].
    destruct (dict_get d (py "usage")) as [u|]; cbn [bind]; [|discriminate].
    destruct (normalize_usage_info (UsageJson u)) eqn:En; cbn [bind];
      [discriminate|].
    intros [= <-]. left. eapply normalize_json_raises, En.
Qed.

Lemma assistant_message_slot_Parsed (data d : dict)
    (content : MessageContent) (u : usage_slot) :
  assistant_message_slot data = Ok (Parsed d content u) ->
  dict_get data (py "message") = Some (JDict d) /\
  (exists c, dict_get d (py "content") = Some c /\
             parse_message_content c = Ok content) /\
  match dict_get d (py "usage") with
  | Some j => exists v, normalize_usage_info (UsageJson j) = Ok v /\ u = Some v
  | None => u = None
  end.
Proof.
  unfold assistant_message_slot.
  destruct (dict_get data (py "message")) as [m|]; [|discriminate].
  rewrite compatibility_check_Ok. cbn [bind].
  destruct m; cbn [json_contains bind]; try discriminate.
  - destruct (str_contains (py "content") s); simpl; discriminate.
  - destruct (existsb _ l); simpl; discriminate.
  - destruct (dict_has d0 (py "content")) eqn:Eh; cbn [bind json_copy];
      [|discriminate].
    destruct (dict_has_get _ _ Eh) as [c Hc]. rewrite Hc. cbn [bind or_raise].
    destruct (parse_message_content c) as [content'|] eqn:Ep; cbn [bind];
      [|discriminate].
    destruct (dict_get d0 (py "usage")) as [j|] eqn:Eu; cbn [bind].
    + destruct (normalize_usage_info (UsageJson j)) as [v|] eqn:En;
        cbn [bind]; [|discriminate].
      intros [= <- <- <-]. rewrite Eu.
      split; [reflexivity|]. split; eauto.
    + intros [= <- <- <-]. rewrite Eu. split; [reflexivity|]. split; eauto.
Qed.

(** ** The type of the record decides the variant *)

Lemma recognised_type_is (t : option json) :
  recognised t =
  type_is t (py "user") || type_is t (py "assistant")
  || type_is t (py "summary") || type_is t (py "system").
Proof.
  destruct t as [j|]; [|reflexivity].
  destruct j; try reflexivity.
  unfold recognised, str_in_list, type_is, json_is_str. cbn [existsb].
  now rewrite orb_false_r, !orb_assoc.
Qed.

Lemma type_is_get (t : option json) (s : pystr) :
  type_is t s = true <-> t = Some (JStr s).
Proof.
  destruct t as [j|]; simpl; [|split; discriminate].
  rewrite json_is_str_true. split; congruence.
Qed.

Lemma parse_entry_kind (data : dict) (e : TranscriptEntry) :
  parse_transcript_entry data = Ok e ->
  dict_get data (py "type") = Some (JStr (entry_type_name e)).
Proof.
  unfold parse_transcript_entry.
  destruct (type_is _ (py "user")) eqn:Eu.
  { intros H. apply bind_Ok in H as (? & _ & H).
    apply bind_Ok in H as (? & _ & H). apply bind_Ok in H as (? & _ & [= <-]).
    now apply type_is_get. }
  destruct (type_is _ (py "assistant")) eqn:Ea.
  { intros H. apply bind_Ok in H as (? & _ & H).
    apply bind_Ok in H as (? & _ & [= <-]). now apply type_is_get. }
  destruct (type_is _ (py "summary")) eqn:Es.
  { intros H. apply bind_Ok in H as (? & _ & [= <-]). now apply type_is_get. }
  destruct (type_is _ (py "system")) eqn:Ey.
  { intros H. apply bind_Ok in H as (? & _ & [= <-]). now apply type_is_get. }
  discriminate.
Qed.

Lemma parse_entry_raises (data : dict) (e : exn) :
  parse_transcript_entry data = Raise e ->
  (recognised (dict_get data (py "type")) = false /\
   exn_cls e = ValueError) \/
  (recognised (dict_get data (py "type")) = true /\
   (exn_cls e = ValidationError \/
    (exn_cls e = TypeError \/ exn_cls e = AttributeError) /\
    exists m, dict_get data (py "message") = Some m /\ is_dict m = false)).
Proof.
  unfold parse_transcript_entry. rewrite recognised_type_is.
  destruct (type_is _ (py "user")) eqn:Eu.
  { intros H. right. split; [reflexivity|].
    destruct (user_message_slot data) as [message|] eqn:Em; cbn [bind] in H.
    - destruct (user_tool_slot_Ok data) as [tool Ht]. rewrite Ht in H.
      cbn [bind] in H.
      destruct (UserTranscriptEntry_model_validate data message tool) eqn:Ev;
        cbn [bind] in H; [discriminate|].
      injection H as <-. left. eapply UserTranscriptEntry_raises, Ev.
    - injection H as <-. right. eapply user_message_slot_raises, Em. }
  destruct (type_is _ (py "assistant")) eqn:Ea.
  { intros H. right. split; [reflexivity|].
    destruct (assistant_message_slot data) as [message|] eqn:Em;
      cbn [bind] in H.
    - destruct (AssistantTranscriptEntry_model_validate data message) eqn:Ev;
        cbn [bind] in H; [discriminate|].
      injection H as <-. left. eapply AssistantTranscriptEntry_raises, Ev.
    - injection H as <-. eapply assistant_message_slot_raises, Em. }
  destruct (type_is _ (py "summary")) eqn:Es.
  { intros H. right. split; [reflexivity|].
    destruct (SummaryTranscriptEntry_model_validate data) eqn:Ev;
      cbn [bind] in H; [discriminate|].
    injection H as <-. left. eapply SummaryTranscriptEntry_raises, Ev. }
  destruct (type_is _ (py "system")) eqn:Ey.
  { intros H. right. split; [reflexivity|].
    destruct (SystemTranscriptEntry_model_validate data) eqn:Ev;
      cbn [bind] in H; [discriminate|].
    injection H as <-. left. eapply SystemTranscriptEntry_raises, Ev. }
  intros [= <-]. left. split; reflexivity.
Qed.

End EntryFacts.

Section EntryProperties.
Context {R : Runtime}.

Lemma recognised_entry_type (e : TranscriptEntry) :
  recognised (Some (JStr (entry_type_name e))) = true.
Proof. now destruct e. Qed.

(** X5. The [type] of the record decides the variant: an entry that
    [parse_transcript_entry] returns is the variant that the [type]
    field names; and for every other [type] (missing, no string, or a
    string that is none of the four) it raises a [ValueError]. *)
Theorem parse_transcript_entry_variant (data : dict) :
  (forall e, parse_transcript_entry data = Ok e ->
             dict_get data (py "type") = Some (JStr (entry_type_name e))) /\
  (recognised (dict_get data (py "type")) = false ->
   exists e, parse_transcript_entry data = Raise e /\
             exn_cls e = ValueError).
Proof.
  split; [apply parse_entry_kind|].
  intros Hr. destruct (parse_transcript_entry data) as [e|e] eqn:E.
  - apply parse_entry_kind in E.
    rewrite E, recognised_entry_type in Hr. discriminate.
  - exists e. split; [reflexivity|].
    destruct (parse_entry_raises _ E) as [[_ H]|[H _]]; congruence.
Qed.

(** X6. What [parse_transcript_entry] raises: for an unrecognised
    [type] a [ValueError]; for a recognised one a pydantic validation
    error, or, when the value under ["message"] is not a mapping, a
    [TypeError] or an [AttributeError]. A [KeyError] never leaves it. *)
Theorem parse_transcript_entry_errors (data : dict) (e : exn) :
  parse_transcript_entry data = Raise e ->
  exn_cls e <> KeyError /\
  ((recognised (dict_get data (py "type")) = false /\
    exn_cls e = ValueError) \/
   (recognised (dict_get data (py "type")) = true /\
    (exn_cls e = ValidationError \/
     (exn_cls e = TypeError \/ exn_cls e = AttributeError) /\
     exists m, dict_get data (py "message") = Some m /\ is_dict m = false))).
Proof.
  intros H. apply parse_entry_raises in H. split; [|exact H].
  destruct H as [[_ H]|[_ [H|[[H|H] _]]]]; rewrite H; discriminate.
Qed.

Lemma parse_user_entry (data : dict) (e : UserTranscriptEntry) :
  parse_transcript_entry data = Ok (User e) ->
  exists message tool,
    user_message_slot data = Ok message /\
    user_tool_slot data = Ok tool /\
    UserTranscriptEntry_model_validate data message tool = Ok e.
Proof.
  intros H. pose proof (parse_entry_kind _ H) as Hk.
  apply type_is_get in Hk. unfold parse_transcript_entry in H.
  simpl entry_type_name in Hk. rewrite Hk in H.
  apply bind_Ok in H as (message & Hm & H).
  apply bind_Ok in H as (tool & Ht & H).
  apply bind_Ok in H as (e' & He & [= <-]). eauto.
Qed.

Lemma parse_assistant_entry (data : dict) (e : AssistantTranscriptEntry) :
  parse_transcript_entry data = Ok (Assistant e) ->
  exists message,
    assistant_message_slot data = Ok message /\
    AssistantTranscriptEntry_model_validate data message = Ok e.
Proof.
  intros H. pose proof (parse_entry_kind _ H) as Hk.
  unfold parse_transcript_entry in H. simpl entry_type_name in Hk.
  rewrite Hk in H. cbn [type_is json_is_str] in H.
  change (str_eqb (py "assistant") (py "user")) with false in H.
  change (str_eqb (py "assistant") (py "assistant")) with true in H.
  cbv iota in H.
  apply bind_Ok in H as (message & Hm & H).
  apply bind_Ok in H as (e' & He & [= <-]). eauto.
Qed.

(** X7. A user entry comes from a record whose ["message"] is a mapping
    with the role ["user"] and a ["content"] key, and the content of
    the entry is what [parse_message_content] returns for the value
    under that key. Without a ["toolUseResult"] key, or with [null]
    under it, the entry has no tool result. *)
Theorem user_entry_from_record (data : dict) (e : UserTranscriptEntry) :
  parse_transcript_entry data = Ok (User e) ->
  exists d c,
    dict_get data (py "message") = Some (JDict d) /\
    dict_get d (py "role") = Some (JStr (py "user")) /\
    dict_get d (py "content") = Some c /\
    parse_message_content c = Ok (user_content (user_message e)) /\
    (dict_get data (py "toolUseResult") = None \/
     dict_get data (py "toolUseResult") = Some JNull ->
     toolUseResult e = None).
Proof.
  intros H. apply parse_user_entry in H as (message & tool & Hm & Ht & Hv).
  unfold UserTranscriptEntry_model_validate in Hv.
  apply bind_Ok in Hv as (b & _ & Hv). apply bind_Ok in Hv as (? & _ & Hv).
  apply bind_Ok in Hv as (msg & Hmsg & Hv).
  apply bind_Ok in Hv as (t & Htool & [= <-]). simpl.
  destruct message as [| |d content u]; simpl in Hmsg; try discriminate.
  apply bind_Ok in Hmsg as (? & Hrole & [= <-]). simpl.
  apply literal_Ok in Hrole.
  apply user_message_slot_Parsed in Hm as (Hd & c & Hc & Hp).
  exists d, c. repeat split; try assumption.
  intros Hnone. unfold user_tool_slot in Ht.
  destruct Hnone as [Hn|Hn]; rewrite Hn in Ht; injection Ht as <-;
    simpl in Htool; congruence.
Qed.

(** X8. An assistant entry comes from a record whose ["message"] is a
    mapping and whose ["content"] is a list: the blocks of the entry
    are what [parse_content_item] returns for the items, one for one.
    Its usage is [None] without a ["usage"] key, and otherwise what
    [normalize_usage_info] returns for the value under the key. *)
Theorem assistant_entry_from_record (data : dict)
    (e : AssistantTranscriptEntry) :
  parse_transcript_entry data = Ok (Assistant e) ->
  exists d l,
    dict_get data (py "message") = Some (JDict d) /\
    dict_get d (py "content") = Some (JList l) /\
    Forall2 (fun item block => parse_content_item item = Ok block)
      l (assistant_content (assistant_message e)) /\
    match dict_get d (py "usage") with
    | Some j =>
        normalize_usage_info (UsageJson j) = Ok (usage (assistant_message e))
    | None => usage (assistant_message e) = None
    end.
Proof.
  intros H. apply parse_assistant_entry in H as (message & Hm & Hv).
  unfold AssistantTranscriptEntry_model_validate in Hv.
  apply bind_Ok in Hv as (b & _ & Hv). apply bind_Ok in Hv as (? & _ & Hv).
  apply bind_Ok in Hv as (msg & Hmsg & Hv).
  apply bind_Ok in Hv as (r & _ & [= <-]). simpl.
  destruct message as [| |d content u]; simpl in Hmsg; try discriminate.
  apply bind_Ok in Hmsg as (i & _ & Hmsg).
  apply bind_Ok in Hmsg as (? & _ & Hmsg).
  apply bind_Ok in Hmsg as (? & _ & Hmsg).
  apply bind_Ok in Hmsg as (mo & _ & Hmsg).
  apply bind_Ok in Hmsg as (items & Hitems & Hmsg).
  apply bind_Ok in Hmsg as (sr & _ & Hmsg).
  apply bind_Ok in Hmsg as (ss & _ & [= <-]). simpl.
  destruct content as [s|items']; [discriminate|]. injection Hitems as <-.
  apply assistant_message_slot_Parsed in Hm as (Hd & (c & Hc & Hp) & Hu).
  apply parse_message_content_list in Hp as (l & -> & Hall).
  exists d, l. repeat split; try assumption.
  destruct (dict_get d (py "usage")) as [j|].
  - destruct Hu as (v & Hn & ->). exact Hn.
  - now subst u.
Qed.

(** X9. The [uuid] and the [timestamp] of a parsed entry are the
    validated values of the record's own ["uuid"] and ["timestamp"]
    fields: parsing the message does not touch them. An entry has no
    timestamp exactly when the record's type is ["summary"]. *)
Theorem entry_keeps_uuid_and_timestamp (data : dict) (e : TranscriptEntry) :
  parse_transcript_entry data = Ok e ->
  (forall u, entry_uuid e = Some u ->
     exists j, dict_get data (py "uuid") = Some j /\ pydantic_str j = Some u) /\
  (forall ts, entry_timestamp e = Some ts ->
     exists j, dict_get data (py "timestamp") = Some j /\
               pydantic_str j = Some ts) /\
  (entry_timestamp e = None <->
   dict_get data (py "type") = Some (JStr (py "summary"))).
Proof.
  intros H. pose proof (parse_entry_kind _ H) as Hk.
  assert (Hb : forall b, match e with
                         | User u => user_base u = b
                         | Assistant a => assistant_base a = b
                         | System s => system_base s = b
                         | Summary _ => False
                         end ->
                         exists m, Base_validate m data = Ok b).
  { intros b Hbase. destruct e as [u|a|s|s]; [| | easy |].
    - apply parse_user_entry in H as (message & tool & _ & _ & Hv).
      unfold UserTranscriptEntry_model_validate in Hv.
      apply bind_Ok in Hv as (b' & Hb' & Hv).
      apply bind_Ok in Hv as (? & _ & Hv).
      apply bind_Ok in Hv as (? & _ & Hv).
      apply bind_Ok in Hv as (? & _ & [= <-]). simpl in Hbase. subst. eauto.
    - apply parse_assistant_entry in H as (message & _ & Hv).
      unfold AssistantTranscriptEntry_model_validate in Hv.
      apply bind_Ok in Hv as (b' & Hb' & Hv).
      apply bind_Ok in Hv as (? & _ & Hv).
      apply bind_Ok in Hv as (? & _ & Hv).
      apply bind_Ok in Hv as (? & _ & [= <-]). simpl in Hbase. subst. eauto.
    - unfold parse_transcript_entry in H. simpl entry_type_name in Hk.
      rewrite Hk in H. cbn [type_is json_is_str] in H.
      change (str_eqb (py "system") (py "user")) with false in H.
      change (str_eqb (py "system") (py "assistant")) with false in H.
      change (str_eqb (py "system") (py "summary")) with false in H.
      change (str_eqb (py "system") (py "system")) with true in H.
      cbv iota in H. apply bind_Ok in H as (s' & Hv & [= <-]).
      unfold SystemTranscriptEntry_model_validate in Hv.
      apply bind_Ok in Hv as (b' & Hb' & Hv).
      apply bind_Ok in Hv as (? & _ & Hv).
      apply bind_Ok in Hv as (? & _ & Hv).
      apply bind_Ok in Hv as (? & _ & [= <-]). simpl in Hbase. subst. eauto. }
  split; [|split].
  - intros u Hu. destruct e as [x|x|x|x]; simpl in Hu; try discriminate;
      injection Hu as <-;
      (destruct (Hb _ eq_refl) as [m Hm];
       apply Base_validate_fields in Hm as [Huuid _]; exact Huuid).
  - intros ts Hts. destruct e as [x|x|x|x]; simpl in Hts; try discriminate;
      injection Hts as <-;
      (destruct (Hb _ eq_refl) as [m Hm];
       apply Base_validate_fields in Hm as [_ Hts]; exact Hts).
  - rewrite Hk. destruct e; simpl; split; try discriminate; try reflexivity;
      intros [= E]; discriminate.
Qed.

(** X10. An assistant record whose message content is not a list (a
    string, say) never gives an entry: [parse_transcript_entry] raises
    a validation error. (A user record with a string content parses.) *)
Theorem assistant_content_must_be_list (data d : dict) (c : json) :
  dict_get data (py "type") = Some (JStr (py "assistant")) ->
  dict_get data (py "message") = Some (JDict d) ->
  dict_get d (py "content") = Some c ->
  (forall l, c <> JList l) ->
  exists e, parse_transcript_entry data = Raise e /\
            exn_cls e = ValidationError.
Proof.
  intros Ht Hm Hc Hnl.
  destruct (parse_transcript_entry data) as [entry|e] eqn:E.
  - pose proof (parse_entry_kind _ E) as Hk.
    rewrite Ht in Hk. destruct entry; try discriminate.
    apply parse_assistant_entry in E as (message & Hs & Hv).
    unfold AssistantTranscriptEntry_model_validate in Hv.
    apply bind_Ok in Hv as (b & _ & Hv). apply bind_Ok in Hv as (? & _ & Hv).
    apply bind_Ok in Hv as (msg & Hmsg & _).
    destruct message as [| |d' content u]; simpl in Hmsg; try discriminate.
    apply bind_Ok in Hmsg as (i & _ & Hmsg).
    apply bind_Ok in Hmsg as (? & _ & Hmsg).
    apply bind_Ok in Hmsg as (? & _ & Hmsg).
    apply bind_Ok in Hmsg as (mo & _ & Hmsg).
    apply bind_Ok in Hmsg as (items & Hitems & _).
    destruct content as [s|items']; [discriminate|].
    apply assistant_message_slot_Parsed in Hs as (Hd & (c' & Hc' & Hp) & _).
    rewrite Hm in Hd. injection Hd as <-. rewrite Hc in Hc'.
    injection Hc' as <-.
    apply parse_message_content_list in Hp as (l & -> & _).
    now destruct (Hnl l).
  - exists e. split; [reflexivity|].
    destruct (parse_entry_raises _ E) as [[Hr _]|[_ [H|[_ (m & Hm' & Hnd)]]]].
    + rewrite Ht in Hr. discriminate.
    + exact H.
    + rewrite Hm in Hm'. injection Hm' as <-. discriminate.
Qed.

End EntryProperties.

Lemma parse_transcript_entry_variant_witness :
  exists e,
    parse_transcript_entry (R := Demo.runtime [])
      [(py "type", JStr (py "progress"))] = Raise e /\
    exn_cls e = ValueError.
Proof.
  apply (proj2 (parse_transcript_entry_variant (R := Demo.runtime [])
                  [(py "type", JStr (py "progress"))])).
  reflexivity.
Defined.

Lemma parse_transcript_entry_errors_witness :
  exists e,
    parse_transcript_entry (R := Demo.runtime []) Demo.invalid_record
    = Raise e /\
    exn_cls e = ValidationError /\ exn_cls e <> KeyError.
Proof.
  eexists. split; [reflexivity|]. split; [reflexivity|].
  apply (proj1 (parse_transcript_entry_errors (R := Demo.runtime [])
                  Demo.invalid_record eq_refl)).
Defined.

Lemma user_entry_from_record_witness :
  exists e d c,
    parse_transcript_entry (R := Demo.runtime [])
      (Demo.user_record "u1" "2025-01-01T00:00:00Z" []) = Ok (User e) /\
    dict_get (Demo.user_record "u1" "2025-01-01T00:00:00Z" []) (py "message")
    = Some (JDict d) /\
    dict_get d (py "content") = Some c /\
    parse_message_content (R := Demo.runtime []) c
    = Ok (user_content (user_message e)) /\
    toolUseResult e = None.
Proof.
  eexists.
  edestruct (user_entry_from_record (R := Demo.runtime [])
               (Demo.user_record "u1" "2025-01-01T00:00:00Z" []))
    as (d & c & Hm & _ & Hc & Hp & Ht); [reflexivity|].
  exists d, c. split; [reflexivity|]. split; [exact Hm|].
  split; [exact Hc|]. split; [exact Hp|]. apply Ht. now left.
Defined.

Lemma assistant_entry_from_record_witness :
  exists e d l,
    parse_transcript_entry (R := Demo.runtime []) MoreSamples.assistant_record
    = Ok (Assistant e) /\
    dict_get d (py "content") = Some (JList l) /\
    Forall2 (fun item block =>
               parse_content_item (R := Demo.runtime []) item = Ok block)
      l (assistant_content (assistant_message e)) /\
    usage (assistant_message e)
    = Some (mk_UsageInfo (Some 5%Z) None None (Some 3%Z) None None).
Proof.
  eexists.
  edestruct (assistant_entry_from_record (R := Demo.runtime [])
               MoreSamples.assistant_record)
    as (d & l & _ & Hc & Hall & _); [reflexivity|].
  exists d, l. split; [reflexivity|]. split; [exact Hc|].
  split; [exact Hall|reflexivity].
Defined.

Lemma entry_keeps_uuid_and_timestamp_witness :
  exists e j,
    parse_transcript_entry (R := Demo.runtime [])
      (Demo.user_record "u1" "2025-01-01T00:00:00Z" []) = Ok e /\
    dict_get (Demo.user_record "u1" "2025-01-01T00:00:00Z" []) (py "timestamp")
    = Some j /\
    pydantic_str (Runtime := Demo.runtime []) j
    = Some (py "2025-01-01T00:00:00Z").
Proof.
  eexists.
  edestruct (entry_keeps_uuid_and_timestamp (R := Demo.runtime [])
               (Demo.user_record "u1" "2025-01-01T00:00:00Z" []))
    as (_ & Hts & _); [reflexivity|].
  destruct (Hts (py "2025-01-01T00:00:00Z") eq_refl) as (j & Hj & Hp).
  exists j. split; [reflexivity|]. split; assumption.
Defined.

Lemma assistant_content_must_be_list_witness :
  exists e,
    parse_transcript_entry (R := Demo.runtime [])
      MoreSamples.assistant_string_record = Raise e /\
    exn_cls e = ValidationError.
Proof.
  eapply (assistant_content_must_be_list (R := Demo.runtime []))
    with (data := MoreSamples.assistant_string_record);
    try reflexivity.
  intros l. discriminate.
Defined.

(* ================================================================== *)
(** * [load_transcript]: cache, output and failure *)
(* ================================================================== *)

Section LoaderProperties.
Context {R : Runtime}.

(** Each [except] clause prints one line and appends nothing. *)
Lemma line_handlers_one (jsonl_path : Path) (line_no : nat) (e : exn) :
  exists d, dispatch e (line_handlers jsonl_path line_no) = Ok (None, [d]).
Proof.
  unfold line_handlers. destruct e as [cls msg].
  destruct cls; simpl; eauto;
    destruct (str_contains (py "validation error") (str_lower msg)); eauto.
Qed.

(** A line that is not blank gives an entry or one printed line, never
    both and never neither. *)
Lemma handle_line_one (jsonl_path : Path) (line_no : nat) (line : pystr) :
  exists o out,
    handle_line jsonl_path line_no line = Ok (o, out) /\
    List.length (appended o) + List.length out = 1.
Proof.
  unfold handle_line, line_body.
  destruct (json_loads line) as [j|e]; cbn [bind try_except].
  - destruct j; cbn [bind try_except];
      try (do 2 eexists; split; reflexivity).
    destruct (recognised (dict_get d (py "type"))); cbn [bind try_except];
      [|do 2 eexists; split; reflexivity].
    destruct (parse_transcript_entry d) as [entry|e]; cbn [bind try_except].
    + do 2 eexists; split; reflexivity.
    + destruct (line_handlers_one jsonl_path line_no e) as [x ->].
      do 2 eexists; split; reflexivity.
  - destruct (line_handlers_one jsonl_path line_no e) as [x ->].
    do 2 eexists; split; reflexivity.
Qed.

Lemma read_loop_accounts (jsonl_path : Path) (lines : list pystr) :
  forall line_no, exists es out,
    read_loop jsonl_path line_no lines None = Ok (es, out) /\
    List.length es + List.length out = List.length (filter non_blank lines).
Proof.
  induction lines as [|line lines IH]; intros line_no; simpl.
  - exists [], []. split; reflexivity.
  - destruct (IH (S line_no)) as (es & out & Hs & Hn).
    unfold non_blank at 1. destruct (str_truthy (strip line)).
    + destruct (handle_line_one jsonl_path line_no (strip line))
        as (o & out1 & -> & H1).
      simpl. rewrite Hs. simpl. do 2 eexists. split; [reflexivity|].
      rewrite !length_app. simpl. lia.
    + eauto.
Qed.

Variable S : Type.
Variables (fs : FileSystem) (jsonl_path : Path).
Variables (from_date to_date : option pystr) (cache : S).

(** X11. [load_transcript] raises exactly when the cache has nothing
    for the file and the file cannot be read to its end: it cannot be
    opened, or it opens and the decoder fails on it. What it raises is
    the [OSError] of [open] in the first case and the
    [UnicodeDecodeError] of the decoder in the second. Nothing that
    happens inside a line that was decoded makes it raise. *)
Theorem load_transcript_raises_iff (cache_manager : option (CacheManager S))
    (silent : bool) :
  ((exists e, load_transcript fs jsonl_path cache_manager from_date to_date
                silent cache = Raise e) <->
   cached_entries cache_manager jsonl_path from_date to_date cache = None /\
   ~ readable fs jsonl_path) /\
  (forall e, load_transcript fs jsonl_path cache_manager from_date to_date
               silent cache = Raise e ->
     (read_lines fs jsonl_path = None /\ exn_cls e = OSError) \/
     (exists f msg, read_lines fs jsonl_path = Some f /\
                    undecodable f = Some msg /\
                    e = mk_exn UnicodeDecodeError msg)).
Proof.
  unfold load_transcript, readable.
  destruct (cached_entries cache_manager jsonl_path from_date to_date cache)
    as [cached|].
  { split; [|discriminate]. split; [intros [e H]|intros [H _]]; discriminate. }
  destruct (read_lines fs jsonl_path) as [f|]; cbn [or_raise bind].
  - destruct (undecodable f) as [msg|] eqn:Hdec.
    + rewrite read_loop_undecodable. cbn [raise bind]. split.
      * split; [intros _; split; [reflexivity|]|intros _; eexists; reflexivity].
        intros (g & [= <-] & Hg). congruence.
      * intros e [= <-]. right. eauto.
    + destruct (read_loop_valid_entries jsonl_path (decoded_lines f) 0)
        as [out ->].
      cbn [bind]. split; [|discriminate]. split.
      * intros [e H]; discriminate.
      * intros [_ H]. exfalso. apply H. eauto.
  - split.
    + split; [intros _; split; [reflexivity|]|intros _; eexists; reflexivity].
      intros (g & Hg & _). discriminate.
    + intros e [= <-]. now left.
Qed.

(** X12. The cache protocol. On a hit the cached list is returned as it
    is, the cache is left as it was, and the file is not opened (so a
    file that is gone still loads). On a miss the cache afterwards is
    the one [save_cached_entries] gives for exactly the entries that
    are returned. *)
Theorem load_transcript_cache_protocol (cm : CacheManager S) (silent : bool) :
  (forall cached,
     cached_entries (Some cm) jsonl_path from_date to_date cache = Some cached ->
     exists r,
       load_transcript fs jsonl_path (Some cm) from_date to_date silent cache
       = Ok r /\
       entries r = cached /\ cache_state r = cache) /\
  (cached_entries (Some cm) jsonl_path from_date to_date cache = None ->
   forall r,
     load_transcript fs jsonl_path (Some cm) from_date to_date silent cache
     = Ok r ->
     cache_state r = save_cached_entries cm cache jsonl_path (entries r)).
Proof.
  unfold load_transcript. split.
  - intros cached ->. eexists. repeat split.
  - intros ->. intros r H.
    apply bind_Ok in H as (lines & _ & H).
    apply bind_Ok in H as (x & _ & [= <-]). reflexivity.
Qed.

(** X13. [load_transcript] does not filter by date itself: when the
    file is parsed from its source, the entries are those that a load
    without a date range and without a cache manager returns, whatever
    [from_date] and [to_date] are. *)
Theorem load_transcript_ignores_range (cache_manager : option (CacheManager S))
    (silent : bool) (r : loaded S) :
  cached_entries cache_manager jsonl_path from_date to_date cache = None ->
  load_transcript fs jsonl_path cache_manager from_date to_date silent cache
  = Ok r ->
  exists r0 : loaded unit,
    load_transcript fs jsonl_path None None None silent tt = Ok r0 /\
    entries r = entries r0 /\
    stdout_lines r = stdout_lines r0.
Proof.
  intros Hmiss. unfold load_transcript. rewrite Hmiss. simpl.
  destruct (read_lines fs jsonl_path) as [f|]; simpl; [|discriminate].
  destruct (read_loop jsonl_path 0 (decoded_lines f) (undecodable f))
    as [x|]; simpl; [|discriminate].
  intros [= <-]. eexists. repeat split.
Qed.

(** X14. [silent] hides the one line that announces the file and
    nothing else: the entries and the cache are the same, and the
    lines printed for the skipped lines of the file are printed whether
    [silent] is set or not. *)
Theorem silent_hides_the_header_only
    (cache_manager : option (CacheManager S)) (r : loaded S) :
  load_transcript fs jsonl_path cache_manager from_date to_date true cache
  = Ok r ->
  exists header,
    load_transcript fs jsonl_path cache_manager from_date to_date false cache
    = Ok (mk_loaded (entries r) (cache_state r) (header :: stdout_lines r)) /\
    (header = LoadingFromCache jsonl_path \/ header = Processing jsonl_path).
Proof.
  unfold load_transcript.
  destruct (cached_entries cache_manager jsonl_path from_date to_date cache).
  - intros [= <-]. eexists. split; [reflexivity|]. now left.
  - destruct (read_lines fs jsonl_path) as [f|]; simpl; [|discriminate].
    destruct (read_loop jsonl_path 0 (decoded_lines f) (undecodable f))
      as [x|]; simpl; [|discriminate].
    intros [= <-]. eexists. split; [reflexivity|]. now right.
Qed.

(** X15. No line is lost without a trace: when a file that decodes to
    its end is parsed from its source, every line that is not blank
    gives either one entry or one printed line, so the entries and the
    lines printed (with [silent] set) are together as many as the
    non-blank lines. *)
Theorem every_line_is_accounted_for
    (cache_manager : option (CacheManager S)) (f : text_file) :
  read_lines fs jsonl_path = Some f ->
  undecodable f = None ->
  cached_entries cache_manager jsonl_path from_date to_date cache = None ->
  exists r,
    load_transcript fs jsonl_path cache_manager from_date to_date true cache
    = Ok r /\
    List.length (entries r) + List.length (stdout_lines r)
    = List.length (filter non_blank (decoded_lines f)).
Proof.
  intros Hopen Hdec Hmiss. unfold load_transcript. rewrite Hmiss, Hopen.
  cbn [or_raise bind]. rewrite Hdec.
  destruct (read_loop_accounts jsonl_path (decoded_lines f) 0)
    as (es & out & -> & Hn).
  simpl. eexists. split; [reflexivity|]. exact Hn.
Qed.

End LoaderProperties.

(** A file that is gone and no cache: the load fails. *)
Lemma load_transcript_raises_iff_witness :
  exists e,
    load_transcript (R := Demo.runtime Demo.known) MoreSamples.broken_files
      (py "logs/gone.jsonl") Demo.no_cache None None true tt = Raise e.
Proof.
  apply (proj2 (proj1 (@load_transcript_raises_iff (Demo.runtime Demo.known)
                         unit MoreSamples.broken_files (py "logs/gone.jsonl")
                         None None tt Demo.no_cache true))).
  split; [reflexivity|]. intros (f & Hf & _). discriminate.
Defined.

(** A file that is gone but cached: the load returns the cached list. *)
Lemma load_transcript_cache_protocol_witness :
  exists r,
    load_transcript (R := Demo.runtime Demo.known) MoreSamples.broken_files
      (py "logs/gone.jsonl") (Some MoreSamples.full_cache) None None true []
    = Ok r /\
    entries r = [Demo.a_summary] /\ cache_state r = [].
Proof.
  apply (proj1 (@load_transcript_cache_protocol (Demo.runtime Demo.known)
                  (list TranscriptEntry) MoreSamples.broken_files
                  (py "logs/gone.jsonl") None None []
                  MoreSamples.full_cache true)).
  reflexivity.
Defined.

Lemma load_transcript_ignores_range_witness :
  exists r r0,
    load_transcript (R := Demo.runtime Demo.known) Demo.files
      (py "logs/a.jsonl") (Some MoreSamples.empty_cache)
      (Some (py "today")) None true [] = Ok r /\
    load_transcript (R := Demo.runtime Demo.known) Demo.files
      (py "logs/a.jsonl") None None None true tt = Ok r0 /\
    entries r = entries r0 /\ List.length (entries r) = 2.
Proof.
  eexists.
  edestruct (@load_transcript_ignores_range (Demo.runtime Demo.known)
               (list TranscriptEntry) Demo.files (py "logs/a.jsonl")
               (Some (py "today")) None [] (Some MoreSamples.empty_cache) true)
    as (r0 & H0 & He & _); [reflexivity|reflexivity|].
  exists r0. split; [reflexivity|]. split; [exact H0|].
  split; [exact He|reflexivity].
Defined.

Lemma silent_hides_the_header_only_witness :
  exists r header,
    load_transcript (R := Demo.runtime Demo.known) Demo.files
      (py "logs/a.jsonl") Demo.no_cache None None false tt
    = Ok (mk_loaded (entries r) (cache_state r) (header :: stdout_lines r)) /\
    List.length (stdout_lines r) = 4.
Proof.
  eexists.
  edestruct (@silent_hides_the_header_only (Demo.runtime Demo.known) unit
               Demo.files (py "logs/a.jsonl") None None tt Demo.no_cache)
    as (header & H & _); [reflexivity|].
  exists header. split; [exact H|reflexivity].
Defined.

(** The sample file: seven lines, one blank; two entries and four
    printed lines. *)
Lemma every_line_is_accounted_for_witness :
  exists r,
    load_transcript (R := Demo.runtime Demo.known) Demo.files
      (py "logs/a.jsonl") Demo.no_cache None None true tt = Ok r /\
    List.length (entries r) + List.length (stdout_lines r) = 6.
Proof.
  destruct (@every_line_is_accounted_for (Demo.runtime Demo.known) unit
              Demo.files (py "logs/a.jsonl") None None tt Demo.no_cache
              (text_of Demo.file_a) eq_refl eq_refl eq_refl) as (r & Hr & Hn).
  exists r. split; [exact Hr|]. rewrite Hn. reflexivity.
Defined.

(* ================================================================== *)
(** * [load_directory_transcripts]: failure and order *)
(* ================================================================== *)

(** A sorted list is left as it is by the sort. *)
Lemma list_sort_sorted_id {A} (key : A -> pystr) (l : list A) :
  StronglySorted (key_le key) l -> list_sort key l = l.
Proof.
  induction 1 as [|x l Hs IH Hx]; [reflexivity|].
  simpl. rewrite IH. destruct l as [|y l]; [reflexivity|].
  simpl. inversion Hx as [|? ? Hxy _]; subst.
  unfold key_le, str_le in Hxy. now rewrite Hxy.
Qed.

Lemma insert_by_least {A} (key : A -> pystr) (x : A) (l : list A) :
  Forall (key_le key x) l -> insert_by key x l = x :: l.
Proof.
  destruct 1 as [|y l Hxy _]; [reflexivity|].
  simpl. unfold key_le, str_le in Hxy. now rewrite Hxy.
Qed.

(** Filtering commutes with the insertion into a sorted list. *)
Lemma filter_insert_by {A} (key : A -> pystr) (p : A -> bool) (x : A)
    (l : list A) :
  StronglySorted (key_le key) l ->
  filter p (insert_by key x l)
  = if p x then insert_by key x (filter p l) else filter p l.
Proof.
  induction 1 as [|y l Hs IH Hy]; simpl.
  - now destruct (p x).
  - destruct (str_ltb (key y) (key x)) eqn:E; simpl.
    + rewrite IH. destruct (p x), (p y); simpl; rewrite ?E; reflexivity.
    + destruct (p x); [|reflexivity].
      change (if p y then y :: filter p l else filter p l)
        with (filter p (y :: l)).
      symmetry. apply insert_by_least.
      assert (Hall : Forall (key_le key x) (y :: l)).
      { constructor; [exact E|].
        eapply Forall_impl; [|exact Hy].
        intros z Hz. eapply str_le_trans; [exact E|exact Hz]. }
      rewrite Forall_forall in *. intros z Hz.
      apply filter_In in Hz as [Hz _]. now apply Hall.
Qed.

(** Filtering commutes with the stable sort. *)
Lemma filter_list_sort {A} (key : A -> pystr) (p : A -> bool) (l : list A) :
  filter p (list_sort key l) = list_sort key (filter p l).
Proof.
  induction l as [|x l IH]; [reflexivity|].
  simpl. rewrite filter_insert_by by apply list_sort_sorted.
  rewrite IH. now destruct (p x).
Qed.

Section DirectoryProperties.
Context {R : Runtime} {S : Type}.
Variables (fs : FileSystem) (from_date to_date : option pystr).
Variable silent : bool.

(** Without a cache manager a file is loaded exactly when it can be
    read to its end; otherwise the load raises the error of [open] or
    of the decoder. *)
Lemma load_transcript_uncached (f : Path) (cache : S) :
  (readable fs f /\
   exists r, load_transcript fs f None from_date to_date silent cache = Ok r) \/
  (~ readable fs f /\
   exists e, load_transcript fs f None from_date to_date silent cache = Raise e /\
     ((read_lines fs f = None /\ exn_cls e = OSError) \/
      (exists t msg, read_lines fs f = Some t /\ undecodable t = Some msg /\
                     e = mk_exn UnicodeDecodeError msg))).
Proof.
  destruct (read_lines fs f) as [t|] eqn:Hopen.
  - destruct (undecodable t) as [msg|] eqn:Hdec.
    + right. split.
      * intros (g & Hg & Hd). congruence.
      * rewrite (load_transcript_undecodable fs f (@None (CacheManager S))
                   from_date to_date silent cache Hopen Hdec eq_refl).
        eexists. split; [reflexivity|]. right. eauto.
    + left. assert (Hr : readable fs f) by (exists t; auto).
      split; [exact Hr|]. now apply load_transcript_returns.
  - right. split.
    + intros (g & Hg & _). congruence.
    + unfold load_transcript. cbn [cached_entries]. rewrite Hopen.
      eexists. split; [reflexivity|]. now left.
Qed.

(** The loop over the files stops at the first file that cannot be read
    to its end, with the error of that file. *)
Lemma load_files_missing (f : Path) (jsonl_files : list Path) :
  In f jsonl_files -> ~ readable fs f ->
  forall cache : S, exists e g,
    In g jsonl_files /\ ~ readable fs g /\
    load_files fs None from_date to_date silent jsonl_files cache = Raise e /\
    ((read_lines fs g = None /\ exn_cls e = OSError) \/
     (exists t msg, read_lines fs g = Some t /\ undecodable t = Some msg /\
                    e = mk_exn UnicodeDecodeError msg)).
Proof.
  intros Hin Hgone. induction jsonl_files as [|g files IH]; [easy|].
  intros cache. simpl.
  destruct (load_transcript_uncached g cache)
    as [(Hg & r & ->)|(Hg & e & -> & He)].
  - simpl. destruct Hin as [->|Hin]; [easy|].
    destruct (IH Hin (cache_state r)) as (e & g' & Hin' & Hg' & -> & He).
    simpl. exists e, g'. auto.
  - simpl. exists e, g. auto.
Qed.

(** X16. Without a cache manager, one file of the directory that cannot
    be read to its end (it cannot be opened, or it opens and does not
    decode) makes the whole load fail: [load_directory_transcripts]
    returns nothing of the other files and raises the error of a file
    of the directory that cannot be read to its end, the [OSError] of
    [open] when that file cannot be opened and the
    [UnicodeDecodeError] of the decoder when it does not decode. *)
Theorem load_directory_fails_on_unreadable_file (directory_path : Path)
    (cache : S) (f : Path) :
  In f (glob_jsonl fs directory_path) ->
  ~ readable fs f ->
  exists e g,
    In g (glob_jsonl fs directory_path) /\ ~ readable fs g /\
    load_directory_transcripts fs directory_path None from_date to_date
      silent cache = Raise e /\
    ((read_lines fs g = None /\ exn_cls e = OSError) \/
     (exists t msg, read_lines fs g = Some t /\ undecodable t = Some msg /\
                    e = mk_exn UnicodeDecodeError msg)).
Proof.
  intros Hin Hgone. unfold load_directory_transcripts.
  destruct (load_files_missing _ Hin Hgone cache)
    as (e & g & Hg & Hng & -> & He).
  simpl. exists e, g. auto.
Qed.

(** X17. The list a directory load returns is in its final order:
    sorting it again changes nothing; and when the files, one after
    the other, are in order already, their entries are returned as
    they stand. *)
Theorem load_directory_order_is_final (directory_path : Path)
    (cache_manager : option (CacheManager S)) (cache : S) (r : loaded S) :
  load_directory_transcripts fs directory_path cache_manager from_date
    to_date silent cache = Ok r ->
  list_sort get_timestamp (entries r) = entries r /\
  (forall all,
     load_files fs cache_manager from_date to_date silent
       (glob_jsonl fs directory_path) cache = Ok all ->
     StronglySorted (key_le get_timestamp) (entries all) ->
     entries r = entries all).
Proof.
  unfold load_directory_transcripts. intros H.
  apply bind_Ok in H as (all & Hall & [= <-]). simpl. split.
  - apply list_sort_sorted_id, list_sort_sorted.
  - intros all' Hall' Hs. rewrite Hall in Hall'. injection Hall' as <-.
    now apply list_sort_sorted_id.
Qed.

End DirectoryProperties.

(** A directory whose second file does not decode: the load fails. *)
Lemma load_directory_fails_on_unreadable_file_witness :
  exists e,
    load_directory_transcripts (R := Demo.runtime Demo.known)
      MoreSamples.surrogate_files (py "logs") Demo.no_cache None None true tt
    = Raise e /\
    (exn_cls e = OSError \/ exn_cls e = UnicodeDecodeError).
Proof.
  destruct (@load_directory_fails_on_unreadable_file
              (Demo.runtime Demo.known) unit MoreSamples.surrogate_files
              None None true (py "logs") tt (py "logs/surrogate.jsonl"))
    as (e & g & _ & _ & He & Hcase).
  - right. now left.
  - intros (t & Ht & Hd). injection Ht as <-. discriminate.
  - exists e. split; [exact He|].
    destruct Hcase as [[_ Hc]|(t & msg & _ & _ & ->)]; [now left|now right].
Defined.

Lemma load_directory_order_is_final_witness :
  exists r,
    load_directory_transcripts (R := Demo.runtime Demo.known) Demo.files
      (py "logs") Demo.no_cache None None true tt = Ok r /\
    list_sort get_timestamp (entries r) = entries r.
Proof.
  destruct (load_directory_transcripts (R := Demo.runtime Demo.known)
              Demo.files (py "logs") Demo.no_cache None None true tt)
    as [r|e] eqn:Hr.
  - exists r. split; [reflexivity|].
    exact (proj1 (@load_directory_order_is_final (Demo.runtime Demo.known)
                    unit Demo.files None None true (py "logs") Demo.no_cache
                    tt r Hr)).
  - vm_compute in Hr. discriminate.
Defined.

(* ================================================================== *)
(** * [filter_messages_by_date]: composition and failure *)
(* ================================================================== *)

Section FilterProperties.
Context {R : Runtime}.

Lemma filter_loop_app (from_dt to_dt : option datetime)
    (l1 l2 : list TranscriptEntry) :
  filter_loop from_dt to_dt (l1 ++ l2)
  = (o1 <- filter_loop from_dt to_dt l1 ;;
     o2 <- filter_loop from_dt to_dt l2 ;;
     Ok (o1 ++ o2)).
Proof.
  induction l1 as [|e l1 IH]; simpl.
  - now destruct (filter_loop from_dt to_dt l2).
  - destruct (keeps from_dt to_dt e) as [k|]; simpl; [|reflexivity].
    rewrite IH. destruct (filter_loop from_dt to_dt l1); simpl; [|reflexivity].
    destruct (filter_loop from_dt to_dt l2); simpl; [|reflexivity].
    now destruct k.
Qed.

Lemma filter_loop_again (from_dt to_dt : option datetime)
    (l out : list TranscriptEntry) :
  filter_loop from_dt to_dt l = Ok out ->
  filter_loop from_dt to_dt out = Ok out.
Proof.
  revert out; induction l as [|e l IH]; intros out; simpl.
  - now intros [= <-].
  - intros H. apply bind_Ok in H as (k & Hk & H).
    apply bind_Ok in H as (o & Ho & [= <-]).
    destruct k; [|now apply IH].
    simpl. rewrite Hk. simpl. now rewrite (IH o Ho).
Qed.

(** The loop raises nothing but the [TypeError] of a comparison. *)
Lemma keeps_raises (from_dt to_dt : option datetime) (e : TranscriptEntry)
    (x : exn) :
  keeps from_dt to_dt e = Raise x -> exn_cls x = TypeError.
Proof.
  unfold keeps. destruct (entry_timestamp e) as [ts|]; [|discriminate].
  destruct (negb (str_truthy ts)); [discriminate|].
  destruct (parse_timestamp ts) as [dt|]; [|discriminate].
  set (m := match tzinfo dt with Some _ => _ | None => _ end).
  assert (Hgt : forall t r,
            bind (datetime_gt m t) (fun after => Ok (negb after)) = Raise r ->
            exn_cls r = TypeError).
  { intros t r. destruct (datetime_gt m t) eqn:E; cbn [bind]; [discriminate|].
    intros [= <-]. eapply datetime_lt_raises, E. }
  destruct from_dt as [f|]; cbn [bind].
  - destruct (datetime_lt m f) as [before|] eqn:E; cbn [bind];
      [|intros [= <-]; eapply datetime_lt_raises, E].
    destruct before; [discriminate|].
    destruct to_dt as [t|]; cbn [bind]; [apply Hgt|discriminate].
  - destruct to_dt as [t|]; cbn [bind]; [apply Hgt|discriminate].
Qed.

Lemma filter_loop_raises (from_dt to_dt : option datetime)
    (l : list TranscriptEntry) (x : exn) :
  filter_loop from_dt to_dt l = Raise x -> exn_cls x = TypeError.
Proof.
  induction l as [|e l IH]; simpl; [discriminate|].
  destruct (keeps from_dt to_dt e) eqn:Ek; simpl.
  - destruct (filter_loop from_dt to_dt l); simpl; [discriminate|].
    intros [= <-]. now apply IH.
  - intros [= <-]. eapply keeps_raises, Ek.
Qed.

(** X18. The filter works entry by entry: when it returns for two
    lists, the filter of the two put together is its result for the
    first followed by its result for the second. Filtering the files
    one by one and filtering their concatenation come to the same. *)
Theorem filter_messages_by_date_app (l1 l2 o1 o2 : list TranscriptEntry)
    (from_date to_date : option pystr) :
  filter_messages_by_date l1 from_date to_date = Ok o1 ->
  filter_messages_by_date l2 from_date to_date = Ok o2 ->
  filter_messages_by_date (l1 ++ l2) from_date to_date = Ok (o1 ++ o2).
Proof.
  unfold filter_messages_by_date.
  destruct (negb (given from_date) && negb (given to_date)).
  - now intros [= <-] [= <-].
  - destruct (resolve_from from_date) as [f|]; simpl; [|discriminate].
    destruct (resolve_to to_date) as [t|]; simpl; [|discriminate].
    intros H1 H2. now rewrite filter_loop_app, H1, H2.
Qed.

(** X19. The filter is idempotent: filtering what it returned, with the
    same range, returns the same list. *)
Theorem filter_messages_by_date_idempotent (l out : list TranscriptEntry)
    (from_date to_date : option pystr) :
  filter_messages_by_date l from_date to_date = Ok out ->
  filter_messages_by_date out from_date to_date = Ok out.
Proof.
  unfold filter_messages_by_date.
  destruct (negb (given from_date) && negb (given to_date)).
  - now intros [= <-].
  - destruct (resolve_from from_date) as [f|]; simpl; [|discriminate].
    destruct (resolve_to to_date) as [t|]; simpl; [|discriminate].
    apply filter_loop_again.
Qed.

(** X20. The UTC offset written in a timestamp plays no part in the
    filter: the time zone is cut off, not converted. Two entries whose
    timestamps read the same date and time of day are both kept or
    both dropped, whatever their offsets. *)
Theorem filter_ignores_utc_offset (from_dt to_dt : option datetime)
    (e1 e2 : TranscriptEntry) (ts1 ts2 : pystr) (dt1 dt2 : datetime) :
  entry_timestamp e1 = Some ts1 -> entry_timestamp e2 = Some ts2 ->
  ts1 <> [] -> ts2 <> [] ->
  parse_timestamp ts1 = Some dt1 -> parse_timestamp ts2 = Some dt2 ->
  dt_fields dt1 = dt_fields dt2 ->
  keeps from_dt to_dt e1 = keeps from_dt to_dt e2.
Proof.
  intros H1 H2 Hn1 Hn2 Hp1 Hp2 Hf. unfold keeps.
  rewrite H1, H2, Hp1, Hp2.
  destruct ts1; [easy|]. destruct ts2; [easy|]. cbn [str_truthy negb].
  assert (Hm : forall dt,
            dt_fields (match tzinfo dt with
                       | Some _ => replace_tzinfo_None dt
                       | None => dt
                       end) = dt_fields dt)
    by (intros dt; now destruct (tzinfo dt)).
  set (m1 := match tzinfo dt1 with Some _ => _ | None => _ end).
  set (m2 := match tzinfo dt2 with Some _ => _ | None => _ end).
  assert (Hfields : forall b,
            datetime_lt m1 b = datetime_lt m2 b /\
            datetime_gt m1 b = datetime_gt m2 b).
  { intros b. apply datetime_lt_fields; try apply stripped_naive.
    unfold m1, m2. now rewrite !Hm. }
  destruct from_dt as [f|], to_dt as [t|]; cbn [bind];
    rewrite ?(proj1 (Hfields f)), ?(proj2 (Hfields t)); reflexivity.
Qed.

(** X21. What the filter raises: a [ValueError] when a given bound is
    not understood by the date parser, and a [TypeError] when the
    bounds resolve but one of them carries a time zone. Nothing else
    leaves it, whatever the entries are. *)
Theorem filter_messages_by_date_errors (messages : list TranscriptEntry)
    (from_date to_date : option pystr) (x : exn) :
  filter_messages_by_date messages from_date to_date = Raise x ->
  (exn_cls x = ValueError /\
   exists d, (from_date = Some d \/ to_date = Some d) /\
             d <> [] /\ dateparser_parse d = None) \/
  (exn_cls x = TypeError /\
   exists from_dt to_dt,
     resolve_from from_date = Ok from_dt /\
     resolve_to to_date = Ok to_dt /\
     ~ (naive from_dt /\ naive to_dt)).
Proof.
  unfold filter_messages_by_date.
  destruct (negb (given from_date) && negb (given to_date)); [discriminate|].
  destruct (resolve_from from_date) as [f|] eqn:Ef; cbn [bind].
  - destruct (resolve_to to_date) as [t|] eqn:Et; cbn [bind].
    + intros H. right. split; [eapply filter_loop_raises, H|].
      exists f, t. repeat split. intros [Hf Ht].
      rewrite (filter_loop_filter _ _ messages Hf Ht) in H. discriminate.
    + intros [= <-]. left. unfold resolve_to in Et.
      destruct to_date as [d|]; [|discriminate].
      destruct (str_truthy d) eqn:Ed; [|discriminate].
      destruct (dateparser_parse d) eqn:Ep; [discriminate|].
      injection Et as <-. split; [reflexivity|].
      exists d. repeat split; [now right| |exact Ep]. now destruct d.
  - intros [= <-]. left. unfold resolve_from in Ef.
    destruct from_date as [d|]; [|discriminate].
    destruct (str_truthy d) eqn:Ed; [|discriminate].
    destruct (dateparser_parse d) eqn:Ep; [discriminate|].
    injection Ef as <-. split; [reflexivity|].
    exists d. repeat split; [now left| |exact Ep]. now destruct d.
Qed.

Lemma keeps_aware_from (f : datetime) (to_dt : option datetime)
    (e : TranscriptEntry) :
  tzinfo f <> None -> datable e ->
  exists x, keeps (Some f) to_dt e = Raise x.
Proof.
  intros Hf (ts & dt & Hts & Hne & Hp). unfold keeps.
  rewrite Hts. destruct ts; [easy|]. cbn [str_truthy negb]. rewrite Hp.
  destruct (datetime_lt_mixed _ f (stripped_naive dt) Hf) as (x & -> & _).
  cbn [bind]. eauto.
Qed.

Lemma keeps_undatable (from_dt to_dt : option datetime) (e : TranscriptEntry) :
  ~ datable e ->
  keeps from_dt to_dt e
  = Ok (match e with Summary _ => true | _ => false end).
Proof.
  intros Hnd. unfold keeps.
  destruct (entry_timestamp e) as [ts|] eqn:Ets.
  - assert (Hs : match e with Summary _ => true | _ => false end = false)
      by (destruct e; [reflexivity|reflexivity|discriminate|reflexivity]).
    rewrite Hs. destruct ts as [|c ts]; [reflexivity|].
    cbn [str_truthy negb].
    destruct (parse_timestamp (c :: ts)) as [dt|] eqn:Ep; [|reflexivity].
    destruct Hnd. exists (c :: ts), dt. repeat split; easy.
  - now destruct e.
Qed.

(** X22. A lower bound that carries a time zone cannot be compared with
    the timestamps, whose time zone is cut off: the filter raises a
    [TypeError] as soon as the list holds one entry with a timestamp
    that parses. A list without such an entry passes, and its
    summaries are what is returned. *)
Theorem filter_with_aware_lower_bound (messages : list TranscriptEntry)
    (from_date to_date : option pystr) (f : datetime)
    (to_dt : option datetime) :
  resolve_from from_date = Ok (Some f) ->
  resolve_to to_date = Ok to_dt ->
  tzinfo f <> None ->
  ((exists e, In e messages /\ datable e) ->
   exists x, filter_messages_by_date messages from_date to_date = Raise x /\
             exn_cls x = TypeError) /\
  ((forall e, In e messages -> ~ datable e) ->
   filter_messages_by_date messages from_date to_date
   = Ok (filter (fun e => match e with Summary _ => true | _ => false end)
           messages)).
Proof.
  intros Hf Ht Haware.
  assert (Hg : given from_date = true).
  { unfold resolve_from in Hf. destruct from_date as [d|]; [|discriminate].
    simpl. destruct (str_truthy d); [reflexivity|discriminate]. }
  unfold filter_messages_by_date. rewrite Hg, Hf, Ht. cbn [negb andb bind].
  split.
  - intros (e & Hin & Hd).
    assert (Hx : exists x, filter_loop (Some f) to_dt messages = Raise x).
    { induction messages as [|m l IH]; [easy|]. simpl.
      destruct Hin as [->|Hin].
      - destruct (@keeps_aware_from f to_dt e Haware Hd) as [x ->].
        simpl. eauto.
      - destruct (keeps (Some f) to_dt m); simpl; [|eauto].
        destruct (IH Hin) as [x ->]. simpl. eauto. }
    destruct Hx as [x Hx]. exists x. split; [exact Hx|].
    eapply filter_loop_raises, Hx.
  - intros Hnone. induction messages as [|m l IH]; [reflexivity|].
    simpl. rewrite keeps_undatable by (apply Hnone; now left).
    simpl. rewrite IH by (intros e He; apply Hnone; now right).
    simpl. now destruct m.
Qed.

(** X23. Filtering and sorting commute: for bounds that resolve to
    naive datetimes, filtering a list sorted by timestamp gives the
    sorted list of the filtered entries. It makes no difference whether
    a caller filters before or after the directory load has sorted. *)
Theorem filter_commutes_with_sort (messages out : list TranscriptEntry)
    (from_date to_date : option pystr) (from_dt to_dt : option datetime) :
  resolve_from from_date = Ok from_dt ->
  resolve_to to_date = Ok to_dt ->
  naive from_dt -> naive to_dt ->
  filter_messages_by_date messages from_date to_date = Ok out ->
  filter_messages_by_date (list_sort get_timestamp messages) from_date to_date
  = Ok (list_sort get_timestamp out).
Proof.
  intros Hf Ht Hnf Hnt. unfold filter_messages_by_date.
  destruct (negb (given from_date) && negb (given to_date)).
  - now intros [= <-].
  - rewrite Hf, Ht. cbn [bind].
    rewrite !(filter_loop_filter _ _ _ Hnf Hnt).
    intros [= <-]. now rewrite filter_list_sort.
Qed.

End FilterProperties.

Lemma filter_messages_by_date_app_witness :
  filter_messages_by_date (R := Demo.runtime [])
    (Demo.some_messages ++ Demo.some_messages) (Some (py "today")) None
  = Ok ([Demo.user_at "u3" "2025-01-03T10:00:00.000Z"; Demo.a_summary]
        ++ [Demo.user_at "u3" "2025-01-03T10:00:00.000Z"; Demo.a_summary]).
Proof.
  apply (filter_messages_by_date_app (R := Demo.runtime [])); reflexivity.
Defined.

Lemma filter_messages_by_date_idempotent_witness :
  filter_messages_by_date (R := Demo.runtime [])
    [Demo.user_at "u3" "2025-01-03T10:00:00.000Z"; Demo.a_summary]
    (Some (py "today")) None
  = Ok [Demo.user_at "u3" "2025-01-03T10:00:00.000Z"; Demo.a_summary].
Proof.
  apply (filter_messages_by_date_idempotent (R := Demo.runtime []))
    with (l := Demo.some_messages).
  reflexivity.
Defined.

(** Ten o'clock in UTC and ten o'clock five hours west of it. *)
Lemma filter_ignores_utc_offset_witness :
  keeps (R := Demo.runtime []) (Some (mk_datetime 2025 1 3 0 0 0 0 None)) None
    (Demo.user_at "u3" "2025-01-03T10:00:00.000Z")
  = keeps (R := Demo.runtime []) (Some (mk_datetime 2025 1 3 0 0 0 0 None)) None
      (Demo.user_at "u4" "2025-01-03T10:00:00.000-05:00").
Proof.
  eapply (filter_ignores_utc_offset (R := Demo.runtime []));
    try reflexivity; discriminate.
Defined.

Lemma filter_messages_by_date_errors_witness :
  exists x,
    filter_messages_by_date (R := Demo.runtime []) Demo.some_messages
      (Some (py "gibberish")) None = Raise x /\
    exn_cls x = ValueError.
Proof.
  eexists. split; [reflexivity|].
  destruct (filter_messages_by_date_errors (R := Demo.runtime [])
              Demo.some_messages (Some (py "gibberish")) None eq_refl)
    as [[H _]|[H _]]; [exact H|discriminate H].
Defined.

(** A lower bound written with an offset. *)
Lemma filter_with_aware_lower_bound_witness :
  exists x,
    filter_messages_by_date (R := Demo.runtime []) Demo.some_messages
      (Some (py "2025-01-01T00:00:00+00:00")) None = Raise x /\
    exn_cls x = TypeError.
Proof.
  apply (proj1 (filter_with_aware_lower_bound (R := Demo.runtime [])
                  Demo.some_messages (Some (py "2025-01-01T00:00:00+00:00"))
                  None (f := mk_datetime 2025 1 1 0 0 0 0 (Some 0%Z))
                  (to_dt := None) eq_refl eq_refl ltac:(discriminate))).
  exists (Demo.user_at "u3" "2025-01-03T10:00:00.000Z").
  split; [now left|].
  do 2 eexists. split; [reflexivity|]. split; [discriminate|reflexivity].
Defined.

Lemma filter_commutes_with_sort_witness :
  filter_messages_by_date (R := Demo.runtime [])
    (list_sort get_timestamp Demo.some_messages) (Some (py "today")) None
  = Ok (list_sort get_timestamp
          [Demo.user_at "u3" "2025-01-03T10:00:00.000Z"; Demo.a_summary]).
Proof.
  eapply (filter_commutes_with_sort (R := Demo.runtime []));
    reflexivity.
Defined.

(* ================================================================== *)
(** * [parse_content_item]: the type of the block *)
(* ================================================================== *)

Section BlockType.
Context {R : Runtime}.

Ltac two_tier H :=
  rewrite try_except_Exception in H;
  match type of H with
  | match bind ?c _ with _ => _ end = _ =>
      destruct c; cbn [bind] in H
  end;
  [injection H as <-; reflexivity|];
  apply bind_Ok in H as (? & _ & [= <-]); reflexivity.

(** X24. The [type] of the item is authoritative: the block that
    [parse_content_item] returns is either the fallback text block
    holding [str(item_data)], or a block of the very type that the
    item names. An item never comes back as a block of another type. *)
Theorem parse_content_item_block_type (item_data : json) (block : ContentItem) :
  parse_content_item item_data = Ok block ->
  block = ItemText (mk_TextContent (py_str item_data)) \/
  exists d, item_data = JDict d /\
            dict_get d (py "type") = Some (JStr (block_type block)).
Proof.
  unfold parse_content_item. rewrite try_except_Exception.
  destruct (parse_content_item_body item_data) as [b|e] eqn:E;
    [|intros [= <-]; now left].
  intros [= <-]. unfold parse_content_item_body in E.
  apply bind_Ok in E as (t & Ht & E).
  destruct item_data; try discriminate. injection Ht as <-.
  assert (Hty : forall s,
            json_is_str (match dict_get d (py "type") with
                         | Some t => t | None => JStr [] end) s = true ->
            s <> [] -> dict_get d (py "type") = Some (JStr s)).
  { intros s Hs Hne. apply json_is_str_true in Hs.
    destruct (dict_get d (py "type")); [now subst|].
    injection Hs as <-. easy. }
  set (t := match dict_get d (py "type") with
            | Some t => t | None => JStr [] end) in *.
  destruct (json_is_str t (py "text")) eqn:E1.
  { right. exists d. split; [reflexivity|].
    rewrite (Hty _ E1) by discriminate. do 2 f_equal. two_tier E. }
  destruct (json_is_str t (py "tool_use")) eqn:E2.
  { right. exists d. split; [reflexivity|].
    rewrite (Hty _ E2) by discriminate. do 2 f_equal. two_tier E. }
  destruct (json_is_str t (py "thinking")) eqn:E3.
  { right. exists d. split; [reflexivity|].
    rewrite (Hty _ E3) by discriminate. do 2 f_equal. two_tier E. }
  destruct (json_is_str t (py "tool_result")) eqn:E4.
  { right. exists d. split; [reflexivity|].
    rewrite (Hty _ E4) by discriminate. do 2 f_equal.
    apply bind_Ok in E as (? & _ & [= <-]). reflexivity. }
  destruct (json_is_str t (py "image")) eqn:E5.
  { right. exists d. split; [reflexivity|].
    rewrite (Hty _ E5) by discriminate. do 2 f_equal.
    apply bind_Ok in E as (? & _ & [= <-]). reflexivity. }
  left. unfold TextContent_fallback in E. now injection E as <-.
Qed.

End BlockType.

Lemma parse_content_item_block_type_witness :
  exists block d,
    parse_content_item (R := Demo.runtime [])
      (JDict [(py "type", JStr (py "text")); (py "text", JStr (py "a"))])
    = Ok block /\
    JDict [(py "type", JStr (py "text")); (py "text", JStr (py "a"))]
    = JDict d /\
    dict_get d (py "type") = Some (JStr (block_type block)).
Proof.
  eexists.
  edestruct (parse_content_item_block_type (R := Demo.runtime [])
               (JDict [(py "type", JStr (py "text")); (py "text", JStr (py "a"))]))
    as [H|(d & Hd & Ht)]; [reflexivity|discriminate H|].
  exists d. split; [reflexivity|]. split; assumption.
Defined.

(* ================================================================== *)
(** * The Unicode sanitizer: safety and what it keeps *)
(* ================================================================== *)

Module SanitizerProperties.
Import Sanitizer SanitizerFacts.

Lemma replace_invalid_clean (r : replacement) (s : pystr) (bytes : list N) :
  encode_utf8 s = Some bytes -> map (replace_invalid r) s = s.
Proof.
  revert bytes; induction s as [|c s IH]; intros bytes; [reflexivity|].
  simpl. unfold replace_invalid at 1.
  destruct (encode_char c); [|discriminate].
  destruct (encode_utf8 s) as [bs|]; [|discriminate].
  intros _. now rewrite (IH bs).
Qed.

(** X25. The sanitizer (as section 4.1 of the specification defines
    it) works code point by code point: every code point that encodes
    is kept in its place and every other one is replaced by the
    replacement character. So the text keeps its length, and a text
    without a surrogate comes back unchanged. *)
Theorem sanitize_pointwise (r : replacement) (s : pystr) :
  sanitize r (Some s) = Some (map (replace_invalid r) s) /\
  (forall s', sanitize r (Some s) = Some s' ->
              List.length s' = List.length s) /\
  (forall bytes, encode_utf8 s = Some bytes -> sanitize r (Some s) = Some s).
Proof.
  assert (H : sanitize r (Some s) = Some (map (replace_invalid r) s)).
  { destruct (encode_utf8 s) as [bytes|] eqn:E.
    - rewrite (sanitize_clean r _ E). now rewrite (replace_invalid_clean r _ E).
    - now apply sanitize_dirty. }
  split; [exact H|]. split.
  - intros s' Hs. rewrite H in Hs. injection Hs as <-. apply length_map.
  - intros bytes E. now apply sanitize_clean with bytes.
Qed.

(** X26. What the sanitizer returns always encodes as UTF-8, whatever
    the text was and whichever replacement character is used. *)
Theorem sanitize_encodes (r : replacement) (s : pystr) :
  exists s' bytes,
    sanitize r (Some s) = Some s' /\ encode_utf8 s' = Some bytes.
Proof.
  destruct (encode_utf8 s) as [bytes|] eqn:E.
  - exists s, bytes. split; [now apply sanitize_clean with bytes|exact E].
  - destruct (replaced_text_encodes r s) as [bytes H].
    exists (map (replace_invalid r) s), bytes.
    split; [now apply sanitize_dirty|exact H].
Qed.

End SanitizerProperties.

Lemma sanitize_pointwise_witness :
  Sanitizer.sanitize Sanitizer.QuestionMark (Some (py "plain text"))
  = Some (py "plain text").
Proof.
  apply (proj2 (proj2 (SanitizerProperties.sanitize_pointwise
                         Sanitizer.QuestionMark (py "plain text")))
           (py "plain text")).
  reflexivity.
Defined.

(* ================================================================== *)
(** * From the record to the text of a user entry *)
(* ================================================================== *)

Section UserText.
Context {R : Runtime}.

(** X4. A user record whose message content is a string keeps it
    through parsing and extraction: the content of the entry is that
    string, and [extract_text_content] gives it back unchanged. *)
Theorem user_string_content_round_trip (data d : dict) (s : pystr)
    (e : UserTranscriptEntry) :
  parse_transcript_entry data = Ok (User e) ->
  dict_get data (py "message") = Some (JDict d) ->
  dict_get d (py "content") = Some (JStr s) ->
  user_content (user_message e) = ContentStr s /\
  extract_text_content (Some (user_content (user_message e))) = s.
Proof.
  intros H Hm Hc.
  apply parse_user_entry in H as (message & tool & Hs & _ & Hv).
  unfold UserTranscriptEntry_model_validate in Hv.
  apply bind_Ok in Hv as (b & _ & Hv). apply bind_Ok in Hv as (? & _ & Hv).
  apply bind_Ok in Hv as (msg & Hmsg & Hv).
  apply bind_Ok in Hv as (t & _ & [= <-]). simpl.
  destruct message as [| |d' content u]; simpl in Hmsg; try discriminate.
  apply bind_Ok in Hmsg as (? & _ & [= <-]). simpl.
  apply user_message_slot_Parsed in Hs as (Hd & c & Hc' & Hp).
  rewrite Hm in Hd. injection Hd as <-. rewrite Hc in Hc'.
  injection Hc' as <-. simpl in Hp. injection Hp as <-.
  split; [reflexivity|]. simpl. now destruct s.
Qed.

End UserText.

Lemma user_string_content_round_trip_witness :
  exists e,
    parse_transcript_entry (R := Demo.runtime [])
      (Demo.user_record "u1" "2025-01-01T00:00:00Z" []) = Ok (User e) /\
    extract_text_content (Some (user_content (user_message e))) = py "hi".
Proof.
  eexists. split; [reflexivity|].
  eapply (user_string_content_round_trip (R := Demo.runtime []))
    with (data := Demo.user_record "u1" "2025-01-01T00:00:00Z" []);
    reflexivity.
Defined.
